(** * data-cutter: schema model maker and template formatter

    A shallow embedding of
      - [data_cutter/model_maker/maker.py]            (module [SchemaMaker]),
      - [data_cutter/formatter/base.py]               (module [BaseFormatter]),
      - [data_cutter/template_formatter/formatter.py] (module [TemplateFormatter]),
      - [data_cutter/template_formatter/message_converter.py]
                                                      (module [MessageConverter]),
    together with the small part of the Python runtime these functions lean
    on (module [Py]): JSON-like values, dictionaries that keep insertion
    order, exceptions as an error type, [str.format], [str.split]. *)

From Stdlib Require Import ZArith Ascii String List Bool Lia.
From Stdlib Require Import DecimalString DecimalPos DecimalZ.
From stdpp Require Import base option list gmap strings.

#[local] Set Warnings "-register-all,-clear-no-such-hyp".
Local Open Scope string_scope.
Local Open Scope Z_scope.

(* ===================================================================== *)
(** * The Python fragment the sources use *)
(* ===================================================================== *)
Module Py.

(** Values that reach the program from parsed JSON/YAML. A dict keeps its
    insertion order, which [dict.items()] exposes; keys are strings, as the
    [Dict[str, Any]] annotations of the sources say. A float is carried by
    its IEEE-754 bit pattern; no floating-point arithmetic is modelled. *)
Inductive PyVal : Type :=
| VNone
| VBool (b : bool)
| VInt (z : Z)
| VFloat (bits : Z)
| VStr (s : string)
| VList (l : list PyVal)
| VDict (d : list (string * PyVal)).

Definition Dict := list (string * PyVal).

(** Exceptions, by class. [ValueError] carries its message because the
    sources distinguish their failures only by message. *)
Inductive exn : Type :=
| ValueError (msg : string)
| TypeError
| KeyError (key : string)
| IndexError
| AttributeError
| ValidationError.

(** Outcome of a call: a value, a raised exception, or (only for the
    fuel-bounded recursion of the model maker) exhausted fuel. *)
Inductive result (A : Type) : Type :=
| Ok (a : A)
| Raise (e : exn)
| OutOfFuel.
Arguments Ok {A} a.
Arguments Raise {A} e.
Arguments OutOfFuel {A}.

Definition bind {A B} (r : result A) (k : A -> result B) : result B :=
  match r with
  | Ok a => k a
  | Raise e => Raise e
  | OutOfFuel => OutOfFuel
  end.

Notation "'let!' x ':=' r 'in' k" := (bind r (fun x => k))
  (at level 10, x pattern, r at level 100, k at level 200).

(** [[f(x) for x in l]] with a fallible [f]: the first failure wins. *)
Fixpoint mapM {A B} (f : A -> result B) (l : list A) : result (list B) :=
  match l with
  | [] => Ok []
  | a :: l' => let! b := f a in let! bs := mapM f l' in Ok (b :: bs)
  end.

(** ** Dictionaries

    A Python dict as an association list in insertion order; the same
    operations serve dicts of values and the keyword dicts the model maker
    builds. *)
Section Dicts.
Context {V : Type}.

Fixpoint dict_get (k : string) (d : list (string * V)) : option V :=
  match d with
  | [] => None
  | (k', v) :: d' => if String.eqb k k' then Some v else dict_get k d'
  end.

Definition dict_mem (k : string) (d : list (string * V)) : bool :=
  match dict_get k d with Some _ => true | None => false end.

(** [d[k] = v]: an existing key keeps its position, a new key goes last. *)
Fixpoint dict_set (k : string) (v : V) (d : list (string * V))
  : list (string * V) :=
  match d with
  | [] => [(k, v)]
  | (k', v') :: d' =>
      if String.eqb k k' then (k, v) :: d' else (k', v') :: dict_set k v d'
  end.

(** [{**a, **b}] *)
Definition dict_merge (a b : list (string * V)) : list (string * V) :=
  fold_left (fun acc kv => dict_set (fst kv) (snd kv) acc) b a.

(** [dict(pairs)], or a dict comprehension over [pairs]. *)
Definition dict_of_pairs (pairs : list (string * V)) : list (string * V) :=
  dict_merge [] pairs.

Definition dict_keys (d : list (string * V)) : list string := map fst d.
Definition dict_values (d : list (string * V)) : list V := map snd d.

End Dicts.

(** ** Truthiness, [isinstance] *)

Definition truthy (v : PyVal) : bool :=
  match v with
  | VNone => false
  | VBool b => b
  | VInt z => negb (z =? 0)
  | VFloat bits => negb ((bits =? 0) || (bits =? 2 ^ 63))
  | VStr s => negb (String.eqb s "")
  | VList l => match l with [] => false | _ => true end
  | VDict d => match d with [] => false | _ => true end
  end.

Definition is_list (v : PyVal) : bool :=
  match v with VList _ => true | _ => false end.
Definition is_dict (v : PyVal) : bool :=
  match v with VDict _ => true | _ => false end.

(** ** Structural equality on values *)

Fixpoint pyval_eqb (a b : PyVal) {struct a} : bool :=
  match a, b with
  | VNone, VNone => true
  | VBool x, VBool y => Bool.eqb x y
  | VInt x, VInt y => x =? y
  | VFloat x, VFloat y => x =? y
  | VStr x, VStr y => String.eqb x y
  | VList x, VList y =>
      (fix go (x y : list PyVal) {struct x} : bool :=
         match x, y with
         | [], [] => true
         | a :: x', b :: y' => pyval_eqb a b && go x' y'
         | _, _ => false
         end) x y
  | VDict x, VDict y =>
      (fix go (x y : list (string * PyVal)) {struct x} : bool :=
         match x, y with
         | [], [] => true
         | (k, a) :: x', (k', b) :: y' =>
             String.eqb k k' && pyval_eqb a b && go x' y'
         | _, _ => false
         end) x y
  | _, _ => false
  end.

(** Induction over values that reaches inside lists and dicts. *)
Section PyValInd.
Variable P : PyVal -> Prop.
Hypothesis HNone : P VNone.
Hypothesis HBool : forall b, P (VBool b).
Hypothesis HInt : forall z, P (VInt z).
Hypothesis HFloat : forall bits, P (VFloat bits).
Hypothesis HStr : forall s, P (VStr s).
Hypothesis HList : forall l, Forall P l -> P (VList l).
Hypothesis HDict : forall d, Forall (fun kv => P (snd kv)) d -> P (VDict d).


End PyValInd.

(** ** Strings *)

Definition lower_ascii (c : ascii) : ascii :=
  let n := nat_of_ascii c in
  if ((65 <=? n) && (n <=? 90))%nat then ascii_of_nat (n + 32) else c.

(** [str.lower()], on ASCII letters; other bytes are kept. *)
Fixpoint lower (s : string) : string :=
  match s with
  | EmptyString => EmptyString
  | String c s' => String (lower_ascii c) (lower s')
  end.

(** [s.startswith(p)] *)
Fixpoint startswith (p s : string) : bool :=
  match p, s with
  | EmptyString, _ => true
  | String a p', String b s' => Ascii.eqb a b && startswith p' s'
  | String _ _, EmptyString => false
  end.

(** [c in s] for a one-character [c]. *)
Fixpoint contains_char (c : ascii) (s : string) : bool :=
  match s with
  | EmptyString => false
  | String a s' => Ascii.eqb a c || contains_char c s'
  end.

(** [sub in s] *)
Fixpoint contains_str (sub s : string) : bool :=
  startswith sub s ||
  match s with
  | EmptyString => false
  | String _ s' => contains_str sub s'
  end.

(** [s.split(c, 1)]: [None] when [c] does not occur (a one-element
    result), otherwise the text before and after the first [c]. *)
Fixpoint split_once (c : ascii) (s : string) : option (string * string) :=
  match s with
  | EmptyString => None
  | String a s' =>
      if Ascii.eqb a c then Some (EmptyString, s')
      else match split_once c s' with
           | Some (h, t) => Some (String a h, t)
           | None => None
           end
  end.

(** [s.split(c)]: every piece, never empty as a list. *)
Fixpoint split_all (c : ascii) (s : string) : list string :=
  match s with
  | EmptyString => [EmptyString]
  | String a s' =>
      if Ascii.eqb a c then EmptyString :: split_all c s'
      else match split_all c s' with
           | h :: t => String a h :: t
           | [] => [String a EmptyString]
           end
  end.

(** [sep.join(l)] *)
Fixpoint join (sep : string) (l : list string) : string :=
  match l with
  | [] => ""
  | [s] => s
  | s :: l' => s ++ sep ++ join sep l'
  end.

(** [str(z)] for an int. *)
Definition str_of_Z (z : Z) : string :=
  NilZero.string_of_int (Z.to_int z).

(** ** Builtins and library calls left to the interpreter

    [str()] of floats and containers, [repr()] of a string, [int()] of a
    float, [float()], and
    replacement fields of [str.format] that use attribute access, indexing,
    conversions, format specs or nesting are produced by interpreter
    machinery that is not part of this repository. So are the two class
    factories the model maker calls: [enum.Enum] with a mapping of member
    names to values, which refuses some names and keeps others out of the
    members, and pydantic's [create_model], which refuses some keyword
    names and makes private attributes, not fields, of others. They are
    parameters of the development: every statement below holds for any
    choice. Such a call returns or raises. *)
Record Interp : Type := {
  ext_str : PyVal -> string;
  ext_repr_str : string -> string;
  ext_int_of_float : Z -> exn + Z;
  ext_float : PyVal -> exn + Z;
  ext_format : string -> Dict -> exn + string;
  (** [Enum(name, mapping)]: the exception raised, or the members of the
      class made, by name. *)
  ext_enum : string -> list (string * PyVal) -> exn + list (string * PyVal);
  (** [create_model(name, __config__=..., **kw)] for the keyword names
      of [kw] in order: the exception raised, if any. *)
  ext_model_error : string -> list string -> option exn;
  (** Whether [create_model] makes a field of a keyword of that name. *)
  ext_is_field : string -> bool
}.

Definition of_ext {A} (r : exn + A) : result A :=
  match r with
  | inr a => Ok a
  | inl e => Raise e
  end.

Section Builtins.
Variable I : Interp.

(** [str(v)] *)
Definition py_str (v : PyVal) : string :=
  match v with
  | VNone => "None"
  | VBool true => "True"
  | VBool false => "False"
  | VInt z => str_of_Z z
  | VStr s => s
  | _ => ext_str I v
  end.

Definition is_space (c : ascii) : bool :=
  let n := nat_of_ascii c in
  ((n =? 32) || ((9 <=? n) && (n <=? 13)) || ((28 <=? n) && (n <=? 31)))%nat.

Fixpoint lstrip (s : string) : string :=
  match s with
  | String c s' => if is_space c then lstrip s' else s
  | EmptyString => EmptyString
  end.

Fixpoint rstrip (s : string) : string :=
  match s with
  | EmptyString => EmptyString
  | String c s' =>
      match rstrip s' with
      | EmptyString => if is_space c then EmptyString else String c EmptyString
      | r => String c r
      end
  end.

Definition digit_of (c : ascii) : option Z :=
  let n := nat_of_ascii c in
  if ((48 <=? n) && (n <=? 57))%nat then Some (Z.of_nat n - 48) else None.

(** Decimal digits with single underscores between digits, as [int()]
    reads them. [acc] is [None] before the first digit; [us] says that the
    previous character was an underscore. *)
Fixpoint parse_digits (s : string) (acc : option Z) (us : bool) : option Z :=
  match s with
  | EmptyString => if us then None else acc
  | String c s' =>
      match digit_of c with
      | Some d =>
          parse_digits s' (Some (10 * match acc with Some a => a | None => 0 end + d)) false
      | None =>
          if Ascii.eqb c "_" then
            match acc with
            | Some _ => if us then None else parse_digits s' acc true
            | None => None
            end
          else None
      end
  end.

Definition parse_int (s : string) : option Z :=
  match rstrip (lstrip s) with
  | String "-" s' => option_map Z.opp (parse_digits s' None false)
  | String "+" s' => parse_digits s' None false
  | s' => parse_digits s' None false
  end.

(** [int(v)] *)
Definition py_int (v : PyVal) : result PyVal :=
  match v with
  | VInt z => Ok (VInt z)
  | VBool b => Ok (VInt (if b then 1 else 0))
  | VFloat bits => let! z := of_ext (ext_int_of_float I bits) in Ok (VInt z)
  | VStr s =>
      match parse_int s with
      | Some z => Ok (VInt z)
      | None =>
          Raise (ValueError ("invalid literal for int() with base 10: "
                             ++ ext_repr_str I s))
      end
  | _ => Raise TypeError
  end.

(** [float(v)] *)
Definition py_float (v : PyVal) : result PyVal :=
  match v with
  | VFloat bits => Ok (VFloat bits)
  | _ => let! bits := of_ext (ext_float I v) in Ok (VFloat bits)
  end.

(** [bool(v)] *)
Definition py_bool (v : PyVal) : result PyVal := Ok (VBool (truthy v)).

(** *** [str.format] with keyword arguments [kw]

    The modelled fragment: literal text, the escapes [{{] and [}}], and
    replacement fields that are a bare keyword name. A bare name missing
    from [kw] raises [KeyError]; an empty or all-digit name is positional
    and raises [IndexError], no positional argument being passed. *)

Definition field_special (c : ascii) : bool :=
  Ascii.eqb c "{" || Ascii.eqb c "!" || Ascii.eqb c ":" ||
  Ascii.eqb c "." || Ascii.eqb c "[".

(** [plain_template s fld]: every replacement field of [s] is a bare name;
    [fld] says that the scan is inside a field. *)
Fixpoint plain_template (s : string) (fld : bool) : bool :=
  match s with
  | EmptyString => true
  | String c s' =>
      if fld then
        if Ascii.eqb c "}" then plain_template s' false
        else negb (field_special c) && plain_template s' true
      else if Ascii.eqb c "{" then
        match s' with
        | String "{" s'' => plain_template s'' false
        | _ => plain_template s' true
        end
      else if Ascii.eqb c "}" then
        match s' with
        | String "}" s'' => plain_template s'' false
        | _ => true
        end
      else plain_template s' false
  end.

Fixpoint all_digits (s : string) : bool :=
  match s with
  | EmptyString => true
  | String c s' =>
      match digit_of c with Some _ => all_digits s' | None => false end
  end.

Definition format_field (kw : Dict) (name : string) : result string :=
  if all_digits name then Raise IndexError
  else match dict_get name kw with
       | Some v => Ok (py_str v)
       | None => Raise (KeyError name)
       end.

Fixpoint format_go (kw : Dict) (s : string) (fld : option string)
  : result string :=
  match s with
  | EmptyString =>
      match fld with
      | None => Ok ""
      | Some _ => Raise (ValueError "expected '}' before end of string")
      end
  | String c s' =>
      match fld with
      | Some name =>
          if Ascii.eqb c "}" then
            let! v := format_field kw name in
            let! rest := format_go kw s' None in
            Ok (v ++ rest)
          else format_go kw s' (Some (name ++ String c ""))
      | None =>
          if Ascii.eqb c "{" then
            match s' with
            | String "{" s'' =>
                let! rest := format_go kw s'' None in Ok (String "{" rest)
            | EmptyString =>
                Raise (ValueError "Single '{' encountered in format string")
            | _ => format_go kw s' (Some "")
            end
          else if Ascii.eqb c "}" then
            match s' with
            | String "}" s'' =>
                let! rest := format_go kw s'' None in Ok (String "}" rest)
            | _ => Raise (ValueError "Single '}' encountered in format string")
            end
          else let! rest := format_go kw s' None in Ok (String c rest)
      end
  end.

(** [template.format] with keyword arguments [kw] *)
Definition str_format (template : string) (kw : Dict) : result string :=
  if plain_template template false then format_go kw template None
  else of_ext (ext_format I template kw).

(** [**v]: unpacking needs a mapping. *)
Definition as_kwargs (v : PyVal) : result Dict :=
  match v with
  | VDict d => Ok d
  | _ => Raise TypeError
  end.

End Builtins.

(** A name that the two class factories take without more ado: it is not
    empty, does not start with an underscore and is not [mro]. *)
Definition plain_name (s : string) : bool :=
  negb (String.eqb s "") && negb (startswith "_" s) &&
  negb (String.eqb s "mro").

(** An instance for closed examples. On what the examples use (text
    without quotes or escapes, names that are [plain_name]) it answers as
    the interpreter does; the other delegated builtins are not used. *)
Definition no_ext : Interp :=
  {| ext_str := fun _ => "";
     ext_repr_str := fun s => "'" ++ s ++ "'";
     ext_int_of_float := fun _ => inl TypeError;
     ext_float := fun _ => inl TypeError;
     ext_format := fun _ _ => inl TypeError;
     ext_enum := fun _ mapping =>
       if forallb plain_name (dict_keys mapping) then inr mapping
       else inl (ValueError "invalid enum member name");
     ext_model_error := fun _ names =>
       if forallb (fun k => negb (startswith "__" k)) names then None
       else Some TypeError;
     ext_is_field := fun k => negb (startswith "_" k) |}.

End Py.


(* ===================================================================== *)
(** * [data_cutter/types/schema.py] and [model_maker/maker.py] *)
(* ===================================================================== *)
Module SchemaMaker.
Import Py.

(** ** Schema specification ([types/schema.py])

    The metadata of [DtypeSpec] that the maker never reads (description,
    pattern, format, numeric and array bounds) is left out. *)
Record DtypeSpec : Type := {
  dim : Z;
  dtype : string;
  allowed_values : option (list PyVal);
  optional : bool
}.

Record FieldSpec : Type := {
  fs_name : string;
  specification : DtypeSpec
}.

Record CustomDTypeSpec : Type := {
  cd_name : string;
  cd_fields : list FieldSpec
}.

Record SchemaConfig : Type := {
  sc_name : string;
  sc_fields : list FieldSpec;
  custom_dtypes : list CustomDTypeSpec
}.

(** ** The types the maker builds

    [create_model] and [Enum] synthesise classes; here a built type is the
    data that determines the class: a model is its name, its [extra]
    setting and its fields with their defaults, an enumeration is its name
    and its members. *)
Inductive Extra : Type := ExtraIgnore | ExtraAllow | ExtraForbid.

(** The second component of a field definition: [None] or [...]. *)
Inductive Default : Type := DefaultNone | Required.

Inductive PyType : Type :=
| TStr
| TInt
| TFloat
| TBool
| TModel (name : string) (extra : Extra)
         (fields : list (string * (PyType * Default)))
| TEnum (name : string) (members : list (string * PyVal))
| TList (elem : PyType).

(** [schema_maker/dtypes.py] *)
Definition Bbox : PyType :=
  TModel "Bbox" ExtraForbid
    [("x1", (TInt, Required)); ("y1", (TInt, Required));
     ("x2", (TInt, Required)); ("y2", (TInt, Required))].

(** The instance attributes of [SchemaModelMaker]. *)
Record Maker : Type := {
  _custom_models : gmap string PyType;
  _building : gset string;
  _custom_dtype_specs : gmap string CustomDTypeSpec
}.

(** [SchemaModelMaker.__init__] *)
Definition init : Maker :=
  {| _custom_models := ∅; _building := ∅; _custom_dtype_specs := ∅ |}.

Section Maker.
Variable I : Interp.

(** [Enum(name, {str(v): v for v in values})]: the mapping is built by
    the comprehension, a later value replacing an earlier one of the same
    name; what class [Enum] makes of it, or whether it raises, is the
    interpreter's. *)
Definition create_dynamic_enum (name : string) (values : list PyVal)
  : result PyType :=
  let! members :=
    of_ext (ext_enum I name
              (dict_of_pairs (map (fun v => (py_str I v, v)) values))) in
  Ok (TEnum name members).

Definition _get_primitive_dtype (dtype_name : string) : option PyType :=
  let lower := lower dtype_name in
  if String.eqb lower "string" || String.eqb lower "str" then Some TStr
  else if String.eqb lower "integer" || String.eqb lower "int" then Some TInt
  else if String.eqb lower "number" || String.eqb lower "float" then Some TFloat
  else if String.eqb lower "boolean" || String.eqb lower "bool" then Some TBool
  else None.

(** [dtype(v)]: calling the resolved base type on a declared value. A
    pydantic model takes keyword arguments only, so calling it on one
    positional value raises [TypeError]. *)
Definition coerce (dtype : PyType) (v : PyVal) : result PyVal :=
  match dtype with
  | TStr => Ok (VStr (py_str I v))
  | TInt => py_int I v
  | TFloat => py_float I v
  | TBool => py_bool v
  | _ => Raise TypeError
  end.

(** [if field_spec.allowed_values:] is false for [None] and for [[]]. *)
Definition allowed_values_set (spec : DtypeSpec) : option (list PyVal) :=
  match allowed_values spec with
  | Some (v :: l) => Some (v :: l)
  | _ => None
  end.

(** The dim ladder of [_build_model]. *)
Definition expand_dims (dim : Z) (dtype : PyType) : result PyType :=
  if dim =? 0 then Ok dtype
  else if dim =? 1 then Ok (TList dtype)
  else if dim =? 2 then Ok (TList (TList dtype))
  else Raise (ValueError "dim > 2 not supported for now").

(** The part of the loop body of [_build_model] that follows the
    resolution of the base dtype. *)
Definition field_definition (model_name : string) (field : FieldSpec)
    (dtype : PyType) : result (string * (PyType * Default)) :=
  let field_name := fs_name field in
  let field_spec := specification field in
  let! dtype :=
    match allowed_values_set field_spec with
    | Some values =>
        let! allowed := mapM (coerce dtype) values in
        create_dynamic_enum (model_name ++ "_" ++ field_name ++ "_enum")
          allowed
    | None => Ok dtype
    end in
  let! dtype := expand_dims (dim field_spec) dtype in
  let default := if optional field_spec then DefaultNone else Required in
  Ok (field_name, (dtype, default)).

(** [create_model(model_name, __config__={"extra": "forbid"}, **d)]:
    the call raises for some keyword names; otherwise the class has the
    given configuration and, as fields, the definitions whose names
    pydantic takes as field names, in the order given. *)
Definition create_model (model_name : string)
    (model_spec_dict : list (string * (PyType * Default))) : result PyType :=
  match ext_model_error I model_name (dict_keys model_spec_dict) with
  | Some e => Raise e
  | None =>
      Ok (TModel model_name ExtraForbid
            (List.filter (fun kv => ext_is_field I kv.1) model_spec_dict))
  end.

(** [_build_model] and [_get_dtype] call each other. [_build_model_with]
    is [_build_model] with the resolver [_get_dtype] passed in; the loop
    over the fields threads the maker and the dict built so far, and an
    exception leaves the maker as it was when raised. *)
Fixpoint build_fields (get_dtype : Maker -> string -> Maker * result PyType)
    (model_name : string) (self : Maker) (fields : list FieldSpec)
    (model_spec_dict : list (string * (PyType * Default)))
  : Maker * result (list (string * (PyType * Default))) :=
  match fields with
  | [] => (self, Ok model_spec_dict)
  | field :: rest =>
      let (self, r) := get_dtype self (dtype (specification field)) in
      match (let! dtype := r in field_definition model_name field dtype) with
      | Ok (field_name, def) =>
          build_fields get_dtype model_name self rest
            (dict_set field_name def model_spec_dict)
      | Raise e => (self, Raise e)
      | OutOfFuel => (self, OutOfFuel)
      end
  end.

Definition _build_model_with
    (get_dtype : Maker -> string -> Maker * result PyType)
    (self : Maker) (model_name : string) (fields : list FieldSpec)
  : Maker * result PyType :=
  let (self, r) := build_fields get_dtype model_name self fields [] in
  (self, let! model_spec_dict := r in create_model model_name model_spec_dict).

Definition recursive_msg (dtype_name : string) : string :=
  "Recursive dtype definition is not allowed: " ++ dtype_name.

Definition not_supported_msg (dtype_name : string) : string :=
  "dtype " ++ ext_repr_str I dtype_name ++ " not supported".

Fixpoint _get_dtype (fuel : nat) (self : Maker) (dtype_name : string)
  : Maker * result PyType :=
  match fuel with
  | O => (self, OutOfFuel)
  | S fuel =>
      match _get_primitive_dtype dtype_name with
      | Some primitive => (self, Ok primitive)
      | None =>
          if String.eqb (lower dtype_name) "bbox" then (self, Ok Bbox)
          else
            match _custom_models self !! dtype_name with
            | Some model => (self, Ok model)
            | None =>
                if decide (dtype_name ∈ _building self)
                then (self, Raise (ValueError (recursive_msg dtype_name)))
                else
                  match _custom_dtype_specs self !! dtype_name with
                  | None =>
                      (self, Raise (ValueError (not_supported_msg dtype_name)))
                  | Some custom_spec =>
                      let self :=
                        {| _custom_models := _custom_models self;
                           _building := {[dtype_name]} ∪ _building self;
                           _custom_dtype_specs := _custom_dtype_specs self |} in
                      let (self, r) :=
                        _build_model_with (_get_dtype fuel) self
                          (cd_name custom_spec) (cd_fields custom_spec) in
                      match r with
                      | Ok model =>
                          ({| _custom_models :=
                                <[dtype_name := model]> (_custom_models self);
                              _building := _building self ∖ {[dtype_name]};
                              _custom_dtype_specs := _custom_dtype_specs self |},
                           Ok model)
                      | _ => (self, r)
                      end
                  end
            end
      end
  end.

Definition _build_model (fuel : nat) :=
  _build_model_with (_get_dtype fuel).

(** The registration loop of [make]: a later spec of the same name
    replaces an earlier one. *)
Definition register_specs (l : list CustomDTypeSpec)
  : gmap string CustomDTypeSpec :=
  fold_left (fun m custom_dtype => <[cd_name custom_dtype := custom_dtype]> m)
    l ∅.

(** [make]. Each nested [_get_dtype] call that builds a model has put one
    more registered name into [_building], so the nesting is at most one
    deeper than the number of registered specs; [make_never_out_of_fuel]
    below proves that this much fuel is never used up. *)
Definition make (self : Maker) (config : SchemaConfig)
  : Maker * result PyType :=
  let specs := register_specs (custom_dtypes config) in
  let self :=
    {| _custom_models := ∅; _building := ∅; _custom_dtype_specs := specs |} in
  _build_model (S (size specs)) self (sc_name config) (sc_fields config).

End Maker.

(** ** Validation against a built type

    What pydantic's validator of a built class decides for a parsed
    document. The validators of the four scalar types and of an
    enumeration class are pydantic's own and stay a parameter (that of an
    enumeration also takes values it converts to the value of a member);
    the structure is fixed by what the maker built: a model takes a
    mapping, refuses undeclared keys when [extra] is forbid, requires
    every field without a default and validates present fields against
    their types; a list validates every element. *)
Section Validate.
Variable scalar_ok : PyType -> PyVal -> bool.

Fixpoint validate (t : PyType) (v : PyVal) {struct t} : bool :=
  match t with
  | TModel _ extra fields =>
      match v with
      | VDict d =>
          match extra with
          | ExtraForbid => forallb (fun k => dict_mem k fields) (dict_keys d)
          | _ => true
          end &&
          (fix go (fs : list (string * (PyType * Default))) : bool :=
             match fs with
             | [] => true
             | (k, (ft, dflt)) :: fs' =>
                 match dict_get k d with
                 | Some x => validate ft x
                 | None =>
                     match dflt with DefaultNone => true | Required => false end
                 end && go fs'
             end) fields
      | _ => false
      end
  | TList elem =>
      match v with
      | VList l => forallb (validate elem) l
      | _ => false
      end
  | _ => scalar_ok t v
  end.

End Validate.

(** ** Notions used to state the properties of the maker *)

(** The registered names that are not under construction: what bounds
    the nesting of [_get_dtype]. *)
Definition measure (self : Maker) : nat :=
  size (dom (_custom_dtype_specs self) ∖ _building self).

(** [m] is a closed model named [name] whose fields are among those
    declared by [fields]. *)
Definition built_from (m : PyType) (name : string) (fields : list FieldSpec)
  : Prop :=
  exists flds,
    m = TModel name ExtraForbid flds /\
    forall k, In k (dict_keys flds) -> In k (map fs_name fields).

(** Every cached model was built from the spec registered under its
    name. *)
Definition cache_ok (self : Maker) : Prop :=
  forall n m,
    _custom_models self !! n = Some m ->
    exists spec,
      _custom_dtype_specs self !! n = Some spec /\
      built_from m (cd_name spec) (cd_fields spec).

(** What one call does to the maker: the registry is untouched, the cache
    stays well formed, a normal return leaves [_building] as it was, and
    fuel above the measure is not used up. *)
Definition call_ok {A} (F : nat) (self : Maker) (out : Maker * result A)
  : Prop :=
  _custom_dtype_specs out.1 = _custom_dtype_specs self /\
  (cache_ok self -> cache_ok out.1) /\
  (forall a, out.2 = Ok a -> _building out.1 = _building self) /\
  ((measure self < F)%nat -> out.2 <> OutOfFuel).

(** The state [make] starts from is clean, whatever the maker held. *)
Definition fresh (config : SchemaConfig) : Maker :=
  {| _custom_models := ∅; _building := ∅;
     _custom_dtype_specs := register_specs (custom_dtypes config) |}.

(** What is cached stays cached, unchanged. *)
Definition persists {A} (self : Maker) (out : Maker * result A) : Prop :=
  forall k v, _custom_models self !! k = Some v ->
              _custom_models out.1 !! k = Some v.

(** ** The walk over the specification

    [_build_model] takes the fields in order and [_get_dtype] enters a
    custom type the first time a field names it, so the order in which
    types are met, and the first error, are those of a depth-first walk
    over the fields. The notions below describe that walk on the
    specification alone. *)
Section References.
Variable I : Interp.
Variable specs : gmap string CustomDTypeSpec.

Definition base_of (dtype_name : string) : option PyType :=
  match _get_primitive_dtype dtype_name with
  | Some primitive => Some primitive
  | None => if String.eqb (lower dtype_name) "bbox" then Some Bbox else None
  end.


(** The declared fields by name, as the loop's dict keeps them: of
    several fields with one name the last one counts, at the place of the
    first. *)
Definition field_table (fields : list FieldSpec)
  : list (string * DtypeSpec) :=
  dict_of_pairs (map (fun f => (fs_name f, specification f)) fields).








End References.


(** ** Where a document holds the structures of the specification *)

(** [element dim x e]: [e] is what a field of that [dim] holds in [x]:
    [x] itself, an element of [x], or an element of an element. *)
Inductive element : Z -> PyVal -> PyVal -> Prop :=
| element_scalar x : element 0 x x
| element_list l e : In e l -> element 1 (VList l) e
| element_lists l l' e : In (VList l') l -> In e l' -> element 2 (VList l) e.

(** [inside specs fields doc fields' v]: in a document [doc] for a
    structure with the declared [fields], [v] stands where the
    specification puts a structure with the declared [fields']: [doc]
    itself, or what is inside the value of a field of a registered custom
    dtype. *)
Inductive inside (specs : gmap string CustomDTypeSpec)
  : list FieldSpec -> PyVal -> list FieldSpec -> PyVal -> Prop :=
| inside_here fields v : inside specs fields v fields v
| inside_field fields d k fspec spec x e fields' v :
    dict_get k (field_table fields) = Some fspec ->
    base_of (dtype fspec) = None ->
    specs !! (dtype fspec) = Some spec ->
    dict_get k d = Some x ->
    element (dim fspec) x e ->
    inside specs (cd_fields spec) e fields' v ->
    inside specs fields (VDict d) fields' v.

(** [conforms specs fields m]: the class [m] is closed, its fields are
    among the declared ones, and a field that the specification gives a
    custom dtype has, under its [dim], a class that conforms to the
    specification registered for that dtype. *)
Inductive conforms (specs : gmap string CustomDTypeSpec)
  : list FieldSpec -> PyType -> Prop :=
| conforms_model fields name flds :
    (forall k, In k (dict_keys flds) -> In k (map fs_name fields)) ->
    (forall k ty dflt fspec,
       dict_get k flds = Some (ty, dflt) ->
       dict_get k (field_table fields) = Some fspec ->
       base_of (dtype fspec) = None ->
       entry_conforms specs fspec ty) ->
    conforms specs fields (TModel name ExtraForbid flds)
with entry_conforms (specs : gmap string CustomDTypeSpec)
  : DtypeSpec -> PyType -> Prop :=
| entry_conforms_custom fspec ty spec base :
    specs !! (dtype fspec) = Some spec ->
    expand_dims (dim fspec) base = Ok ty ->
    conforms specs (cd_fields spec) base ->
    entry_conforms specs fspec ty.

(** Every cached model conforms to the specification registered under
    its name. *)
Definition cache_conforms (self : Maker) : Prop :=
  forall n m,
    _custom_models self !! n = Some m ->
    exists spec,
      _custom_dtype_specs self !! n = Some spec /\
      conforms (_custom_dtype_specs self) (cd_fields spec) m.

(** The maker works on [specs] and its cache conforms. *)
Definition works_on (specs : gmap string CustomDTypeSpec) (self : Maker)
  : Prop :=
  _custom_dtype_specs self = specs /\ cache_conforms self.

(** A resolver keeps that, and what it returns for a custom dtype
    conforms to the specification registered for it. *)
Definition resolver_conforms (specs : gmap string CustomDTypeSpec)
    (get_dtype : Maker -> string -> Maker * result PyType) : Prop :=
  forall self n,
    works_on specs self ->
    works_on specs (get_dtype self n).1 /\
    forall m, (get_dtype self n).2 = Ok m -> base_of n = None ->
              exists spec, specs !! n = Some spec /\
                           conforms specs (cd_fields spec) m.

(** The entries of the dict that the loop has built so far against the
    fields it has seen so far. *)
Definition entries_conform (specs : gmap string CustomDTypeSpec)
    (acc : list (string * (PyType * Default)))
    (tbl : list (string * DtypeSpec)) : Prop :=
  forall k ty dflt fspec,
    dict_get k acc = Some (ty, dflt) ->
    dict_get k tbl = Some fspec ->
    base_of (dtype fspec) = None ->
    entry_conforms specs fspec ty.


(** A validator for closed examples: an enumeration takes the values of
    its members, every scalar type takes everything. *)
Definition by_value (t : PyType) (v : PyVal) : bool :=
  match t with
  | TEnum _ members => existsb (pyval_eqb v) (dict_values members)
  | _ => true
  end.

(** ** Sample configurations *)

Definition field (name dtype : string) (dim : Z)
    (allowed_values : option (list PyVal)) (optional : bool) : FieldSpec :=
  {| fs_name := name;
     specification := {| dim := dim; dtype := dtype;
                         allowed_values := allowed_values;
                         optional := optional |} |}.

(** A root using a custom type that uses another one. *)
Definition nested_config : SchemaConfig :=
  {| sc_name := "Invoice";
     sc_fields := [field "id" "integer" 0 None false;
                   field "lines" "Line" 1 None false;
                   field "status" "string" 0 (Some [VStr "a"; VStr "b"]) true];
     custom_dtypes :=
       [{| cd_name := "Line";
           cd_fields := [field "text" "str" 0 None false;
                         field "box" "Region" 0 None true] |};
        {| cd_name := "Region";
           cd_fields := [field "area" "bbox" 0 None false;
                         field "page" "int" 0 None false] |}] |}.




End SchemaMaker.

(* ===================================================================== *)
(** * [data_cutter/formatter/base.py] *)
(* ===================================================================== *)
Module BaseFormatter.
Import Py.

(** [types/prompt/template.py] *)
Record TextTemplate : Type := {
  value : string;
  input_variables : list string
}.

Section Base.
Variable I : Interp.
(** [jinja2.Template(value).render] with keyword arguments: an external
    engine. *)
Variable jinja_render : string -> Dict -> exn + string.

Definition format_string (value : string) (variables : Dict)
    (template_format : string) : result string :=
  if String.eqb template_format "f-string" then str_format I value variables
  else if String.eqb template_format "jinja2"
  then of_ext (jinja_render value variables)
  else Ok value.

(** [{k: variables[k] for k in input_variables if k in variables}]; with
    no declared variable the [else] branch gives the same empty dict. *)
Definition filtered_vars (input_variables : list string) (variables : Dict)
  : Dict :=
  dict_of_pairs
    (flat_map (fun k => match dict_get k variables with
                        | Some v => [(k, v)]
                        | None => []
                        end) input_variables).

(** The returned list holds the one dict [{"type": "text", "text": ...}]. *)
Definition _process_text_template (item : TextTemplate) (variables : Dict)
    (template_format : string) : result (list PyVal) :=
  let filtered_vars :=
    match input_variables item with
    | [] => []
    | _ => filtered_vars (input_variables item) variables
    end in
  let! formatted_text := format_string (value item) filtered_vars template_format in
  Ok [VDict [("type", VStr "text"); ("text", VStr formatted_text)]].

End Base.
End BaseFormatter.

(* ===================================================================== *)
(** * The prompt formatters: [formatter/base.py], [formatter/openai.py],
      [formatter/anthropic.py] *)
(* ===================================================================== *)
Module PromptFormatters.
Import Py BaseFormatter.

(** [types/prompt/template.py]: a template item is a text, an image or an
    iterable over further items. *)
Inductive TemplateItem : Type :=
| ItemText (t : TextTemplate)
| ItemImage (input_name : string)
| ItemIterable (input_variable : string) (items : list TemplateItem).

Record MessageTemplate : Type := {
  role : string;
  contents : list TemplateItem
}.

Record PromptTemplate : Type := {
  name : string;
  template_format : string;
  messages : list MessageTemplate
}.

(** [type(v).__name__] *)
Definition type_name (v : PyVal) : string :=
  match v with
  | VNone => "NoneType"
  | VBool _ => "bool"
  | VInt _ => "int"
  | VFloat _ => "float"
  | VStr _ => "str"
  | VList _ => "list"
  | VDict _ => "dict"
  end.

Definition must_be_list_msg (input_variable : string) (v : PyVal) : string :=
  "Variable '" ++ input_variable ++ "' must be a list, got " ++ type_name v.

(** [results.extend(f(x))] for each [x] of [l], in order. *)
Fixpoint extend_all {A} (f : A -> result (list PyVal)) (l : list A)
  : result (list PyVal) :=
  match l with
  | [] => Ok []
  | x :: l' =>
      let! out := f x in
      let! rest := extend_all f l' in
      Ok (out ++ rest)%list
  end.

(** [BasePromptFormatter._process_image_template], which
    [OpenAIPromptFormatter] repeats unchanged. *)
Definition base_process_image (input_name : string) (variables : Dict)
  : result (list PyVal) :=
  let image_url :=
    match dict_get input_name variables with
    | Some v => v
    | None => VStr ""
    end in
  Ok [VDict [("type", VStr "image_url");
             ("image_url", VDict [("url", image_url)])]].

(** ** [AnthropicPromptFormatter._process_image_template] *)

Definition valid_media_types : list string :=
  ["image/jpeg"; "image/png"; "image/gif"; "image/webp"].

(** What the interpreter says when [header, data = url.split(",", 1)]
    gets one piece. *)
Definition unpack_msg : string :=
  "not enough values to unpack (expected 2, got 1)".

Definition invalid_data_url_msg (e : string) : string :=
  "Invalid base64 data URL format: " ++ e.

(** [header.split(":")[1].split(";")[0]]; a missing second piece is the
    [IndexError] the handler also catches. *)
Definition media_type_part (header : string) : option string :=
  match split_all ":" header with
  | _ :: second :: _ =>
      match split_all ";" second with
      | first :: _ => Some first
      | [] => None
      end
  | _ => None
  end.

(** The block returned for a data URL. *)
Definition base64_block (media_type data : string) : PyVal :=
  VDict [("type", VStr "image");
         ("source", VDict [("type", VStr "base64");
                           ("media_type", VStr media_type);
                           ("data", VStr data)])].

Definition anthropic_process_image (input_name : string) (variables : Dict)
  : result (list PyVal) :=
  let image_url :=
    match dict_get input_name variables with
    | Some v => v
    | None => VStr ""
    end in
  match image_url with
  | VStr image_url =>
      if startswith "data:" image_url then
        match split_once "," image_url with
        | None => Raise (ValueError (invalid_data_url_msg unpack_msg))
        | Some (header, base64_data) =>
            match media_type_part header with
            | None =>
                Raise (ValueError (invalid_data_url_msg "list index out of range"))
            | Some media_type_part =>
                if existsb (String.eqb media_type_part) valid_media_types then
                  Ok [VDict [("type", VStr "image");
                             ("source",
                              VDict [("type", VStr "base64");
                                     ("media_type", VStr media_type_part);
                                     ("data", VStr base64_data)])]]
                else
                  Raise (ValueError
                           (invalid_data_url_msg
                              ("Unsupported media type: " ++ media_type_part)))
            end
        end
      else
        Ok [VDict [("type", VStr "image");
                   ("source", VDict [("type", VStr "url");
                                     ("url", VStr image_url)])]]
  | _ => Raise AttributeError
  end.

(** ** The traversal shared by the formatter classes

    [_process_template_item], [_process_iterable_template] and [format]
    are class methods that reach the text and image processors through
    [cls], so a subclass changes them by overriding the two processors. *)
Section Traversal.
Variable process_text : TextTemplate -> Dict -> string -> result (list PyVal).
Variable process_image : string -> Dict -> result (list PyVal).

(** [{**variables, **item_data}] for a dict, else
    [{**variables, input_variable: item_data}] *)
Definition merged_vars (variables : Dict) (input_variable : string)
    (item_data : PyVal) : Dict :=
  match item_data with
  | VDict item_data => dict_merge variables item_data
  | _ => dict_set input_variable item_data variables
  end.

Fixpoint _process_template_item (item : TemplateItem) (variables : Dict)
    (template_format : string) {struct item} : result (list PyVal) :=
  match item with
  | ItemText t => process_text t variables template_format
  | ItemImage input_name => process_image input_name variables
  | ItemIterable input_variable items =>
      (* _process_iterable_template *)
      let iterable_data :=
        match dict_get input_variable variables with
        | Some v => v
        | None => VList []
        end in
      match iterable_data with
      | VList iterable_data =>
          let process_sub_items :=
            (fix go (its : list TemplateItem) (merged_vars : Dict)
                 {struct its} : result (list PyVal) :=
               match its with
               | [] => Ok []
               | sub_item :: its' =>
                   let! out :=
                     _process_template_item sub_item merged_vars
                       template_format in
                   let! rest := go its' merged_vars in
                   Ok (out ++ rest)%list
               end) items in
          extend_all (fun item_data =>
                        process_sub_items
                          (merged_vars variables input_variable item_data))
                     iterable_data
      | v => Raise (ValueError (must_be_list_msg input_variable v))
      end
  end.

Definition format_message (template_format : string) (variables : Dict)
    (message_template : MessageTemplate) : result PyVal :=
  let! content :=
    extend_all (fun item => _process_template_item item variables template_format)
               (contents message_template) in
  Ok (VDict [("role", VStr (role message_template));
             ("content", VList content)]).

Definition format (template : PromptTemplate) (variables : Dict)
  : result (list PyVal) :=
  mapM (format_message (template_format template) variables)
       (messages template).

End Traversal.

Section Classes.
Variable I : Interp.
Variable jinja_render : string -> Dict -> exn + string.

(** The three classes: [OpenAIPromptFormatter] and
    [AnthropicPromptFormatter] repeat the text processor of the base
    class; only the latter changes the image processor. *)
Definition BasePromptFormatter_format :=
  format (_process_text_template I jinja_render) base_process_image.
Definition OpenAIPromptFormatter_format :=
  format (_process_text_template I jinja_render) base_process_image.
Definition AnthropicPromptFormatter_format :=
  format (_process_text_template I jinja_render) anthropic_process_image.

End Classes.

End PromptFormatters.

(* ===================================================================== *)
(** * [types/prompt_template/template.py], [types/prompt/content.py] and
      [template_formatter/formatter.py] *)
(* ===================================================================== *)
Module TemplateFormatter.
Import Py.

Record TextTemplate : Type := {
  content : string;
  input_variables : list string
}.

Record ImageTemplate : Type := {
  input_name : string
}.

Inductive ContentTemplate : Type :=
| Text (t : TextTemplate)
| Image (i : ImageTemplate).

Record StaticContentTemplateGroup : Type := {
  static_items : list ContentTemplate
}.

(** An item of an iterable group is a content template or a nested
    iterable group. *)
Inductive IterableContentTemplateGroup : Type :=
| Iterable (items : list (ContentTemplate + IterableContentTemplateGroup))
           (input_key : option string).

Definition items (g : IterableContentTemplateGroup) :=
  match g with Iterable its _ => its end.
Definition input_key (g : IterableContentTemplateGroup) :=
  match g with Iterable _ k => k end.

Inductive ContentTemplateGroup : Type :=
| Static (g : StaticContentTemplateGroup)
| Iter (g : IterableContentTemplateGroup).

Inductive MessageTemplate : Type :=
| SingleContentMessageTemplate (role : string) (content : ContentTemplate)
| IterableContentMessageTemplate (role : string)
    (contents : list ContentTemplateGroup) (input_key : option string).

Record PromptTemplate : Type := {
  name : string;
  template_format : string;
  templates : list MessageTemplate
}.

(** [types/prompt/content.py] *)
Record ImageUrlObject : Type := {
  url : string;
  detail : option string;
  format_ : string
}.

Inductive ContentBlock : Type :=
| TextContentBlock (text : string)
| ImageContentBlock (image_url : string + ImageUrlObject).

(** ** Operations on a scope that need not be a dict

    [PromptTemplateFormatter.format] hands whatever value it iterates over
    to the group formatter as [variables], so the operations the formatter
    applies to [variables] are modelled on every value. *)

(** [key in variables] *)
Definition py_contains (key : string) (variables : PyVal) : result bool :=
  match variables with
  | VDict d => Ok (dict_mem key d)
  | VStr s => Ok (contains_str key s)
  | VList l => Ok (existsb (pyval_eqb (VStr key)) l)
  | _ => Raise TypeError
  end.

(** [variables[key]] for a string [key] *)
Definition py_getitem (variables : PyVal) (key : string) : result PyVal :=
  match variables with
  | VDict d =>
      match dict_get key d with
      | Some v => Ok v
      | None => Raise (KeyError key)
      end
  | _ => Raise TypeError
  end.

(** [variables.get(key)] *)
Definition py_get (variables : PyVal) (key : string) : result PyVal :=
  match variables with
  | VDict d =>
      match dict_get key d with
      | Some v => Ok v
      | None => Ok VNone
      end
  | _ => Raise AttributeError
  end.

(** [variables.items()] *)
Definition py_items (variables : PyVal) : result Dict :=
  match variables with
  | VDict d => Ok d
  | _ => Raise AttributeError
  end.

(** [l[i]] on a list *)
Definition list_index (l : list PyVal) (i : nat) : result PyVal :=
  match nth_error l i with
  | Some v => Ok v
  | None => Raise IndexError
  end.

(** [l and isinstance(l[0], dict)] *)
Definition first_is_dict (l : list PyVal) : bool :=
  match l with
  | VDict _ :: _ => true
  | _ => false
  end.

(** [if key:] for an optional string *)
Definition key_set (key : option string) : option string :=
  match key with
  | Some k => if String.eqb k "" then None else Some k
  | None => None
  end.

Section Formatter.
Variable I : Interp.
(** The order in which a [set] built by the given insertions is iterated:
    it depends on string hashing and is fixed within one run. *)
Variable set_iter : list string -> list string.

(** ** [ContentTemplateFormatter] *)

Definition _format_text (template : TextTemplate) (variables : PyVal)
  : result (list ContentBlock) :=
  let! kw := as_kwargs variables in
  let! formatted_text := str_format I (content template) kw in
  Ok [TextContentBlock formatted_text].

(** [ImageUrlObject(url=image_data, format="")] validates [url] as a
    string. *)
Definition _format_image (template : ImageTemplate) (variables : PyVal)
  : result (list ContentBlock) :=
  let! image_data := py_get variables (input_name template) in
  if truthy image_data then
    match image_data with
    | VStr s =>
        Ok [ImageContentBlock
              (inr {| url := s; detail := None; format_ := "" |})]
    | _ => Raise ValidationError
    end
  else Ok [].

Definition content_format (content_template : ContentTemplate)
    (variables : PyVal) : result (list ContentBlock) :=
  match content_template with
  | Text t => _format_text t variables
  | Image i => _format_image i variables
  end.

(** ** [ContentTemplateGroupFormatter] *)

(** [results.extend(f(x))] for each [x] of [l], in order. *)
Fixpoint extend_each {A} (f : A -> result (list ContentBlock)) (l : list A)
  : result (list ContentBlock) :=
  match l with
  | [] => Ok []
  | x :: l' =>
      let! blocks := f x in
      let! rest := extend_each f l' in
      Ok (blocks ++ rest)%list
  end.

Definition _format_static (group : StaticContentTemplateGroup)
    (variables : PyVal) : result (list ContentBlock) :=
  extend_each (fun item => content_format item variables) (static_items group).

(** The insertions into [all_vars], in the order the loop makes them. *)
Definition collect_vars
    (its : list (ContentTemplate + IterableContentTemplateGroup))
  : list string :=
  flat_map (fun item =>
              match item with
              | inl (Text t) => input_variables t
              | inl (Image i) => [input_name i]
              | inr _ => []
              end) its.

(** Strategy 1: the referenced names bound to a list, in the iteration
    order of [all_vars]. *)
Fixpoint find_list_vars (all_vars : list string) (variables : PyVal)
    (list_vars : list (string * list PyVal))
  : result (list (string * list PyVal)) :=
  match all_vars with
  | [] => Ok list_vars
  | var_name :: rest =>
      let! present := py_contains var_name variables in
      if present then
        let! v := py_getitem variables var_name in
        match v with
        | VList l => find_list_vars rest variables (dict_set var_name l list_vars)
        | _ => find_list_vars rest variables list_vars
        end
      else find_list_vars rest variables list_vars
  end.

(** Strategy 2: the first list in scope whose first element is a dict
    holding one of the referenced names. *)
Fixpoint scan_any_list (all_vars : list string) (entries : Dict)
  : list PyVal :=
  match entries with
  | [] => []
  | (_, VList (VDict d0 :: tl)) :: entries' =>
      if existsb (fun var => dict_mem var d0) all_vars
      then VDict d0 :: tl
      else scan_any_list all_vars entries'
  | _ :: entries' => scan_any_list all_vars entries'
  end.

(** The inner loop of the parallel-lists branch: [iter_vars] for index
    [i]. *)
Fixpoint zip_at (all_vars : list string) (variables : PyVal) (i : nat)
    (iter_vars : Dict) : result Dict :=
  match all_vars with
  | [] => Ok iter_vars
  | var_name :: rest =>
      let! present := py_contains var_name variables in
      if present then
        let! v := py_getitem variables var_name in
        match v with
        | VList l =>
            let! x := list_index l i in
            zip_at rest variables i (dict_set var_name x iter_vars)
        | _ => zip_at rest variables i (dict_set var_name v iter_vars)
        end
      else zip_at rest variables i iter_vars
  end.

Definition parallel_lists (all_vars : list string) (variables : PyVal)
    (list_length : nat) : result (list PyVal) :=
  mapM (fun i => let! iter_vars := zip_at all_vars variables i [] in
                 Ok (VDict iter_vars))
       (seq 0 list_length).

Definition _find_iteration_source (group : IterableContentTemplateGroup)
    (variables : PyVal) : result (list PyVal) :=
  match key_set (input_key group) with
  | Some key =>
      (* Strategy 0 *)
      let! present := py_contains key variables in
      if present then
        let! v := py_getitem variables key in
        match v with
        | VList iteration_list =>
            if first_is_dict iteration_list then Ok iteration_list
            else Ok (map (fun item => VDict [(key, item)]) iteration_list)
        | _ => Ok []
        end
      else Ok []
  | None =>
      let all_vars := set_iter (collect_vars (items group)) in
      match all_vars with
      | [] => Ok []
      | _ =>
          let! list_vars := find_list_vars all_vars variables [] in
          match list_vars with
          | [] =>
              let! entries := py_items variables in
              Ok (scan_any_list all_vars entries)
          | (_, first_list) :: _ =>
              let list_length := length first_list in
              if first_is_dict first_list then Ok first_list
              else parallel_lists all_vars variables list_length
          end
      end
  end.

(** [{**variables, **item_vars}] *)
Definition merge_vars (variables item_vars : PyVal) : result PyVal :=
  let! a := as_kwargs variables in
  let! b := as_kwargs item_vars in
  Ok (VDict (dict_merge a b)).

Fixpoint _format_iterable (group : IterableContentTemplateGroup)
    (variables : PyVal) {struct group} : result (list ContentBlock) :=
  let! iteration_source := _find_iteration_source group variables in
  let format_items :=
    (fix go (its : list (ContentTemplate + IterableContentTemplateGroup))
         (merged_vars : PyVal) {struct its} : result (list ContentBlock) :=
       match its with
       | [] => Ok []
       | item :: its' =>
           let! blocks :=
             match item with
             | inr nested => _format_iterable nested merged_vars
             | inl item => content_format item merged_vars
             end in
           let! rest := go its' merged_vars in
           Ok (blocks ++ rest)%list
       end) (items group) in
  extend_each (fun item_vars =>
                 let! merged_vars := merge_vars variables item_vars in
                 format_items merged_vars)
              iteration_source.

(** What the loop of [_format_iterable] does with one item. *)
Definition format_item
    (item : ContentTemplate + IterableContentTemplateGroup)
    (merged_vars : PyVal) : result (list ContentBlock) :=
  match item with
  | inr nested => _format_iterable nested merged_vars
  | inl item => content_format item merged_vars
  end.

(** [ContentTemplateGroupFormatter.format] *)
Definition group_format (group : ContentTemplateGroup) (variables : PyVal)
  : result (list ContentBlock) :=
  match group with
  | Static g => _format_static g variables
  | Iter g => _format_iterable g variables
  end.

(** ** [PromptTemplateFormatter.format] *)

(** What an iterable message iterates over. *)
Definition iteration_data (input_key : option string) (input_data : PyVal)
  : result (list PyVal) :=
  match key_set input_key with
  | Some key =>
      let! present := py_contains key input_data in
      if present then
        let! v := py_getitem input_data key in
        match v with
        | VList l => Ok l
        | _ => Ok [v]
        end
      else Ok []
  | None => Ok []
  end.

Definition format_message (message_template : MessageTemplate)
    (input_data : PyVal) : result (string * list ContentBlock) :=
  match message_template with
  | SingleContentMessageTemplate role content =>
      let! content_blocks := content_format content input_data in
      Ok (role, content_blocks)
  | IterableContentMessageTemplate role contents input_key =>
      let! iteration_data := iteration_data input_key input_data in
      let! all_content_blocks :=
        extend_each (fun document_data =>
                       extend_each (fun content_group =>
                                      group_format content_group document_data)
                                   contents)
                    iteration_data in
      Ok (role, all_content_blocks)
  end.

Definition format (template : PromptTemplate) (input_data : PyVal)
  : result (list (string * list ContentBlock)) :=
  mapM (fun message_template => format_message message_template input_data)
       (templates template).

End Formatter.

(** What strategy 2 looks for in a value of the scope: a non-empty list
    whose first element is a dict holding one of the referenced names. *)
Definition adoptable (all_vars : list string) (v : PyVal) : bool :=
  match v with
  | VList (VDict d0 :: _) => existsb (fun var => dict_mem var d0) all_vars
  | _ => false
  end.

Definition is_text_item
    (item : ContentTemplate + IterableContentTemplateGroup) : bool :=
  match item with
  | inl (Text _) => true
  | _ => false
  end.

(** [message_template.role] *)
Definition role_of (message_template : MessageTemplate) : string :=
  match message_template with
  | SingleContentMessageTemplate role _ => role
  | IterableContentMessageTemplate role _ _ => role
  end.

End TemplateFormatter.

(* ===================================================================== *)
(** * [template_formatter/message_converter.py] *)
(* ===================================================================== *)
Module MessageConverter.
Import Py TemplateFormatter.

(** A provider message is a JSON object, written as a [VDict]. *)
Definition message (role : string) (content : list PyVal) : PyVal :=
  VDict [("role", VStr role); ("content", VList content)].

(** ** [OpenAIMessageConverter] *)

Definition opt_str (o : option string) : PyVal :=
  match o with Some s => VStr s | None => VNone end.

(** [block.model_dump()] *)
Definition model_dump (block : ContentBlock) : PyVal :=
  match block with
  | TextContentBlock text => VDict [("type", VStr "text"); ("text", VStr text)]
  | ImageContentBlock image_url =>
      VDict [("type", VStr "image_url");
             ("image_url",
              match image_url with
              | inl s => VStr s
              | inr o => VDict [("url", VStr (url o));
                                ("detail", opt_str (detail o));
                                ("format", VStr (format_ o))]
              end)]
  end.

Definition openai_convert (content_list : list (string * list ContentBlock))
  : list PyVal :=
  map (fun '(role, content_blocks) => message role (map model_dump content_blocks))
      content_list.

(** ** [AnthropicMessageConverter] *)

(** [header.split(":")[1].split(";")[0]], for a header that holds a
    colon. *)
Definition media_part (header : string) : string :=
  match split_all ":" header with
  | _ :: second :: _ =>
      match split_all ";" second with
      | first :: _ => first
      | [] => ""
      end
  | _ => ""
  end.

Definition media_type_of (header : string) : string :=
  if contains_char ":" header && contains_char ";" header then
    let media_part := media_part header in
    if negb (String.eqb media_part "") then media_part else "image/png"
  else "image/png".

Definition base64_source (media_type data : string) : PyVal :=
  VDict [("type", VStr "image");
         ("source", VDict [("type", VStr "base64");
                           ("media_type", VStr media_type);
                           ("data", VStr data)])].

Definition url_source (url : string) : PyVal :=
  VDict [("type", VStr "image");
         ("source", VDict [("type", VStr "url"); ("url", VStr url)])].

(** The items one block appends to [content_items]: one, or none for a
    [data:] value without a comma. *)
Definition anthropic_block (block : ContentBlock) : list PyVal :=
  match block with
  | TextContentBlock text => [VDict [("type", VStr "text"); ("text", VStr text)]]
  | ImageContentBlock image_url =>
      let url := match image_url with inl s => s | inr o => url o end in
      if startswith "data:" url then
        match split_once "," url with
        | Some (header, data) => [base64_source (media_type_of header) data]
        | None => []
        end
      else [url_source url]
  end.

Definition anthropic_convert (content_list : list (string * list ContentBlock))
  : list PyVal :=
  map (fun '(role, content_blocks) =>
         message role (flat_map anthropic_block content_blocks))
      content_list.

(** ** [MessageConverterFactory] *)

(** A converter class, told apart by what its [convert] computes. *)
Definition Converter : Type := list (string * list ContentBlock) -> list PyVal.

(** The class attribute [_converters] as first defined. *)
Definition default_converters : list (string * Converter) :=
  [("openai", openai_convert); ("anthropic", anthropic_convert)].

Definition unsupported_msg (format_type supported : string) : string :=
  "Unsupported format type: " ++ format_type ++
  ". Supported formats: " ++ supported.

Definition create (_converters : list (string * Converter))
    (format_type : string) : result Converter :=
  let format_type := lower format_type in
  match dict_get format_type _converters with
  | Some converter_class => Ok converter_class
  | None =>
      let supported := join ", " (dict_keys _converters) in
      Raise (ValueError (unsupported_msg format_type supported))
  end.

Definition register (_converters : list (string * Converter))
    (format_type : string) (converter_class : Converter)
  : list (string * Converter) :=
  dict_set (lower format_type) converter_class _converters.

Definition list_supported_formats (_converters : list (string * Converter))
  : list string :=
  dict_keys _converters.

(** An image block whose value starts with [data:] and holds no comma:
    the case in which [AnthropicMessageConverter.convert] appends
    nothing. *)
Definition comma_less_data_url (block : ContentBlock) : bool :=
  match block with
  | TextContentBlock _ => false
  | ImageContentBlock image_url =>
      let url := match image_url with inl s => s | inr o => url o end in
      startswith "data:" url && negb (contains_char "," url)
  end.

Definition is_text_block (block : ContentBlock) : bool :=
  match block with
  | TextContentBlock _ => true
  | ImageContentBlock _ => false
  end.

End MessageConverter.

(* ===================================================================== *)
(** * [PromptTemplateFormatter]: the converter side of
      [template_formatter/formatter.py] *)
(* ===================================================================== *)
Module PromptFormatter.
Import Py TemplateFormatter MessageConverter.

(** The instance attributes that the conversion methods read and write.
    The registry [_converters] is a class attribute of the factory, shared
    and mutable, so it is passed to every call. *)
Record PromptTemplateFormatter : Type := {
  message_format : string;
  _converter : option Converter
}.

(** [__init__] *)
Definition init (message_format : string) : PromptTemplateFormatter :=
  {| message_format := message_format; _converter := None |}.

(** The [converter] property: created on first use, then kept. *)
Definition converter (registry : list (string * Converter))
    (self : PromptTemplateFormatter)
  : PromptTemplateFormatter * result Converter :=
  match _converter self with
  | Some c => (self, Ok c)
  | None =>
      match create registry (message_format self) with
      | Ok c => ({| message_format := message_format self;
                    _converter := Some c |}, Ok c)
      | r => (self, r)
      end
  end.

Definition content_to_messages (registry : list (string * Converter))
    (self : PromptTemplateFormatter)
    (content_list : list (string * list ContentBlock))
    (message_format : option string)
  : PromptTemplateFormatter * result (list PyVal) :=
  match key_set message_format with
  | Some message_format =>
      (self, let! converter := create registry message_format in
             Ok (converter content_list))
  | None =>
      let (self, r) := converter registry self in
      (self, let! converter := r in Ok (converter content_list))
  end.

Section WithFormat.
Variable I : Interp.
Variable set_iter : list string -> list string.

Definition format_to_messages (registry : list (string * Converter))
    (self : PromptTemplateFormatter) (template : PromptTemplate)
    (input_data : PyVal) (message_format : option string)
  : PromptTemplateFormatter * result (list PyVal) :=
  match format I set_iter template input_data with
  | Ok content_list =>
      content_to_messages registry self content_list message_format
  | Raise e => (self, Raise e)
  | OutOfFuel => (self, OutOfFuel)
  end.

End WithFormat.
End PromptFormatter.

(* ===================================================================== *)
(** * [types/image/bbox.py] and the pure part of [utils/image.py] *)
(* ===================================================================== *)
Module ImageBBox.
Import Py.

Record BBox : Type := {
  x1 : Z;
  y1 : Z;
  x2 : Z;
  y2 : Z
}.

(** [BBox(x1=.., y1=.., x2=.., y2=..)] on integers: every field is
    declared with [ge=0]. *)
Definition new (x1 y1 x2 y2 : Z) : result BBox :=
  if (0 <=? x1) && (0 <=? y1) && (0 <=? x2) && (0 <=? y2)
  then Ok {| x1 := x1; y1 := y1; x2 := x2; y2 := y2 |}
  else Raise ValidationError.

(** A box that passed the constructor: no negative coordinate. *)
Definition valid (b : BBox) : Prop :=
  0 <= x1 b /\ 0 <= y1 b /\ 0 <= x2 b /\ 0 <= y2 b.

Definition to_tuple (self : BBox) : Z * Z * Z * Z :=
  (x1 self, y1 self, x2 self, y2 self).

Definition to_dict (self : BBox) : Dict :=
  [("x1", VInt (x1 self)); ("y1", VInt (y1 self));
   ("x2", VInt (x2 self)); ("y2", VInt (y2 self))].

Section FromDict.
(** pydantic's validation of a field value that is not an [int] (it may
    convert it or refuse it). *)
Variable lax_int : PyVal -> option Z.

Definition int_field (v : PyVal) : result Z :=
  match v with
  | VInt z => Ok z
  | _ => match lax_int v with
         | Some z => Ok z
         | None => Raise ValidationError
         end
  end.

(** [d[k]] *)
Definition item (d : Dict) (k : string) : result PyVal :=
  match dict_get k d with
  | Some v => Ok v
  | None => Raise (KeyError k)
  end.

(** The four subscripts are evaluated before the constructor runs. *)
Definition from_dict (d : Dict) : result BBox :=
  let! vx1 := item d "x1" in
  let! vy1 := item d "y1" in
  let! vx2 := item d "x2" in
  let! vy2 := item d "y2" in
  let! x1 := int_field vx1 in
  let! y1 := int_field vy1 in
  let! x2 := int_field vx2 in
  let! y2 := int_field vy2 in
  new x1 y1 x2 y2.

End FromDict.

Definition width (self : BBox) : Z := Z.abs (x2 self - x1 self).
Definition height (self : BBox) : Z := Z.abs (y2 self - y1 self).
Definition area (self : BBox) : Z := width self * height self.

Definition validate_ordering (self : BBox) : result BBox :=
  let '(x1, x2) :=
    if x1 self <=? x2 self then (x1 self, x2 self) else (x2 self, x1 self) in
  let '(y1, y2) :=
    if y1 self <=? y2 self then (y1 self, y2 self) else (y2 self, y1 self) in
  new x1 y1 x2 y2.

(** [ImageProcessor.crop_image] up to the call of [image.crop]: the box
    that is handed to the imaging library. *)
Definition crop_box (bbox : BBox) : result (Z * Z * Z * Z) :=
  let! bbox := validate_ordering bbox in
  Ok (to_tuple bbox).

(** [ImageLoader.load_from_base64] up to the call of [base64.b64decode]:
    the text that is handed to the decoder. *)
Definition base64_payload (data : string) : result string :=
  if String.eqb data "" then Raise (ValueError "Base64 data cannot be empty")
  else if startswith "data:" data then
    match split_once "," data with
    | Some (_, data) => Ok data
    | None => Raise (ValueError "Invalid data URI format")
    end
  else Ok data.

End ImageBBox.

(* ===================================================================== *)
(** * [utils/text.py]: the f-string renderer *)
(* ===================================================================== *)
Module TextRenderer.
Import Py.

Section Render.
Variable I : Interp.
(** [str(e)] of an exception other than [KeyError]. *)
Variable exn_text : exn -> string.

Definition missing_msg (missing : string) : string :=
  "Missing variable '" ++ missing ++ "' for f-string item".

Definition error_msg (e : string) : string :=
  "Error formatting f-string item: " ++ e.

(** [FStringTemplateRenderer.render] *)
Definition render (text : string) (variables : Dict) : result string :=
  match str_format I text variables with
  | Ok s => Ok s
  | Raise (KeyError missing) => Raise (ValueError (missing_msg missing))
  | Raise e => Raise (ValueError (error_msg (exn_text e)))
  | OutOfFuel => OutOfFuel
  end.

End Render.
End TextRenderer.

(* ===================================================================== *)
(** * Facts about the Python fragment *)
(* ===================================================================== *)
Module PyFacts.
Import Py.

Lemma append_nil_l (s : string) : "" ++ s = s.
Proof. reflexivity. Qed.

Lemma append_cons (c : ascii) (a b : string) :
  String c a ++ b = String c (a ++ b).
Proof. reflexivity. Qed.

Lemma contains_char_app c a b :
  contains_char c (a ++ b) = contains_char c a || contains_char c b.
Proof.
  induction a as [|x a IH]; simpl; [reflexivity|].
  rewrite IH. apply orb_assoc.
Qed.

Lemma split_once_none c s :
  contains_char c s = false -> split_once c s = None.
Proof.
  induction s as [|a s IH]; simpl; [reflexivity|].
  intros H. apply orb_false_iff in H as [Ha Hs].
  rewrite Ha, (IH Hs). reflexivity.
Qed.

Lemma split_once_some c s h t :
  split_once c s = Some (h, t) ->
  s = h ++ String c t /\ contains_char c h = false.
Proof.
  revert h; induction s as [|a s IH]; simpl; intros h; [discriminate|].
  destruct (Ascii.eqb a c) eqn:E.
  - intros [= <- <-]. apply Ascii.eqb_eq in E as ->. split; reflexivity.
  - destruct (split_once c s) as [[h' t']|]; [|discriminate].
    intros [= <- <-]. destruct (IH h' eq_refl) as [-> Hh].
    split; [reflexivity|]. simpl. rewrite E, Hh. reflexivity.
Qed.

Lemma split_once_app c h t :
  contains_char c h = false -> split_once c (h ++ String c t) = Some (h, t).
Proof.
  induction h as [|a h IH]; simpl.
  - intros _. rewrite Ascii.eqb_refl. reflexivity.
  - intros H. apply orb_false_iff in H as [Ha Hh].
    rewrite Ha, (IH Hh). reflexivity.
Qed.

Lemma split_all_not_nil c s : split_all c s <> [].
Proof.
  destruct s as [|a s]; simpl; [discriminate|].
  destruct (Ascii.eqb a c); [discriminate|].
  destruct (split_all c s); discriminate.
Qed.

(** A prefix free of the separator stays in the first piece. *)
Lemma split_all_app c a b :
  contains_char c a = false ->
  split_all c (a ++ b) =
  (a ++ hd "" (split_all c b)) :: tl (split_all c b).
Proof.
  induction a as [|x a IH]; rewrite ?append_nil_l, ?append_cons; simpl.
  - intros _. pose proof (split_all_not_nil c b).
    destruct (split_all c b); [contradiction|reflexivity].
  - intros H. apply orb_false_iff in H as [Hx Ha].
    rewrite Hx, (IH Ha). reflexivity.
Qed.

Lemma split_all_sep c s : split_all c (String c s) = "" :: split_all c s.
Proof. simpl. rewrite Ascii.eqb_refl. reflexivity. Qed.

Lemma append_nil_r (s : string) : s ++ "" = s.
Proof. induction s as [|c s IH]; rewrite ?append_cons; [reflexivity|congruence]. Qed.

Lemma split_all_none c s : contains_char c s = false -> split_all c s = [s].
Proof.
  intros H. rewrite <- (append_nil_r s) at 1.
  rewrite (split_all_app c s "" H). simpl. rewrite append_nil_r. reflexivity.
Qed.




End PyFacts.

(* ===================================================================== *)
(** * Dicts and sequencing: facts shared by the formatter properties *)
(* ===================================================================== *)
Module DictFacts.
Import Py PyFacts.

Lemma dict_get_set_other {V} k k' (v : V) d :
  dict_get k (dict_set k' v d)
  = if String.eqb k k' then Some v else dict_get k d.
Proof.
  induction d as [|[k0 v0] d IH]; simpl.
  - destruct (String.eqb k k'); reflexivity.
  - destruct (String.eqb k' k0) eqn:E0; simpl.
    + apply String.eqb_eq in E0. subst k0.
      destruct (String.eqb k k'); reflexivity.
    + rewrite IH. destruct (String.eqb k k') eqn:E; [|reflexivity].
      apply String.eqb_eq in E. subst k'. rewrite E0. reflexivity.
Qed.

Lemma dict_get_absent {V} k (d : list (string * V)) :
  k ∉ dict_keys d -> dict_get k d = None.
Proof.
  induction d as [|[k0 v0] d IH]; simpl; [reflexivity|].
  intros H. apply not_elem_of_cons in H as [Hne H].
  destruct (String.eqb k k0) eqn:E; [|exact (IH H)].
  apply String.eqb_eq in E. contradiction.
Qed.

(** [{**a, **b}] on a well-formed [b]: the keys of [b] shadow those of
    [a]. *)
Lemma dict_get_merge {V} k (b : list (string * V)) : forall a,
  NoDup (dict_keys b) ->
  dict_get k (dict_merge a b)
  = match dict_get k b with
    | Some v => Some v
    | None => dict_get k a
    end.
Proof.
  unfold dict_merge.
  induction b as [|[k0 v0] b IH]; intros a Hnd; simpl; [reflexivity|].
  simpl in Hnd. apply NoDup_cons in Hnd as [Hnot Hnd].
  rewrite (IH _ Hnd), dict_get_set_other.
  destruct (String.eqb k k0) eqn:E.
  - apply String.eqb_eq in E. subst k0.
    rewrite (dict_get_absent k b Hnot). reflexivity.
  - reflexivity.
Qed.

Lemma dict_keys_set_iff {V} k (v : V) d k' :
  k' ∈ dict_keys (dict_set k v d) <-> k' = k \/ k' ∈ dict_keys d.
Proof.
  induction d as [|[k0 v0] d IH]; simpl.
  - rewrite elem_of_cons, elem_of_nil. tauto.
  - destruct (String.eqb k k0) eqn:E; simpl.
    + apply String.eqb_eq in E. subst k0.
      rewrite !elem_of_cons. tauto.
    + rewrite !elem_of_cons, IH. tauto.
Qed.

(** Assignment keeps a dict free of repeated keys. *)
Lemma dict_set_NoDup {V} k (v : V) d :
  NoDup (dict_keys d) -> NoDup (dict_keys (dict_set k v d)).
Proof.
  induction d as [|[k0 v0] d IH]; simpl; intros Hnd.
  - apply NoDup_singleton.
  - apply NoDup_cons in Hnd as [Hnot Hnd].
    destruct (String.eqb k k0) eqn:E; simpl.
    + apply String.eqb_eq in E. subst k0. apply NoDup_cons. split; assumption.
    + apply NoDup_cons. split; [|exact (IH Hnd)].
      rewrite dict_keys_set_iff. intros [-> | H]; [|contradiction].
      rewrite String.eqb_refl in E. discriminate E.
Qed.

Lemma dict_merge_NoDup {V} (b a : list (string * V)) :
  NoDup (dict_keys a) -> NoDup (dict_keys (dict_merge a b)).
Proof.
  unfold dict_merge. revert a.
  induction b as [|[k0 v0] b IH]; intros a Hnd; simpl; [exact Hnd|].
  apply IH, dict_set_NoDup, Hnd.
Qed.

Lemma mapM_same_length {A B} (f : A -> result B) (l : list A) (r : list B) :
  mapM f l = Ok r -> length r = length l.
Proof.
  revert r. induction l as [|a l IH]; simpl; intros r.
  - intros [= <-]. reflexivity.
  - destruct (f a) as [b| |]; simpl; try discriminate.
    destruct (mapM f l) as [bs| |]; simpl; try discriminate.
    intros [= <-]. simpl. rewrite (IH bs eq_refl). reflexivity.
Qed.

Lemma mapM_Forall2 {A B} (f : A -> result B) (l : list A) (r : list B) :
  mapM f l = Ok r -> Forall2 (fun a b => f a = Ok b) l r.
Proof.
  revert r. induction l as [|a l IH]; simpl; intros r.
  - intros [= <-]. constructor.
  - destruct (f a) as [b| |] eqn:Ea; simpl; try discriminate.
    destruct (mapM f l) as [bs| |]; simpl; try discriminate.
    intros [= <-]. constructor; [exact Ea | apply IH; reflexivity].
Qed.

End DictFacts.

(* ===================================================================== *)
(** * The message converters *)
(* ===================================================================== *)
Module MessageConverterSpec.
Import Py PyFacts TemplateFormatter MessageConverter.

Lemma dict_get_set_eq {V} k (v : V) d : dict_get k (dict_set k v d) = Some v.
Proof.
  induction d as [|[k' v'] d IH]; simpl.
  - rewrite String.eqb_refl. reflexivity.
  - destruct (String.eqb k k') eqn:E; simpl.
    + rewrite String.eqb_refl. reflexivity.
    + rewrite E. exact IH.
Qed.

(** The media type of a header [data:<mt><c>...] whose [<mt>] holds no
    colon and no semicolon and is followed by a colon or a semicolon. *)
Lemma media_part_delimited mt c rest :
  (c = ":" \/ c = ";")%char ->
  contains_char ":" mt = false ->
  contains_char ";" mt = false ->
  media_part ("data:" ++ mt ++ String c rest) = mt.
Proof.
  intros Hc Hcol Hsemi. unfold media_part.
  change ("data:" ++ mt ++ String c rest)
    with ("data" ++ String ":" (mt ++ String c rest)).
  rewrite (split_all_app ":" "data") by reflexivity.
  rewrite split_all_sep. cbn [hd tl].
  rewrite (split_all_app ":" mt) by assumption.
  destruct Hc as [-> | ->].
  - rewrite split_all_sep. cbn [hd tl]. rewrite append_nil_r.
    rewrite (split_all_none ";" mt) by assumption. reflexivity.
  - assert (E : split_all ":" (String ";" rest)
                = String ";" (hd "" (split_all ":" rest)) :: tl (split_all ":" rest)).
    { change (String ";" rest) with (";" ++ rest).
      rewrite (split_all_app ":" ";") by reflexivity. reflexivity. }
    rewrite E. cbn [hd tl].
    rewrite (split_all_app ";" mt) by assumption.
    rewrite split_all_sep. cbn [hd tl]. apply append_nil_r.
Qed.

(** Claim C6 as written does not hold: a value that starts with [data:]
    and holds no comma makes the Anthropic converter emit nothing for the
    block, neither a base64 source nor a URL source. *)
Lemma C6_data_url_without_comma_emits_nothing :
  ~ (forall value : string,
       startswith "data:" value = true ->
       exists media_type data,
         anthropic_block (ImageContentBlock (inl value))
         = [base64_source media_type data]).
Proof.
  intros H. destruct (H "data:image/png;base64" eq_refl) as (mt & d & E).
  vm_compute in E. discriminate E.
Qed.

(** Claim C6, amended. For an image value that starts with [data:]:
    when it holds a comma, with [header] the text before the first comma
    and [data] the text after it, the Anthropic converter emits one base64
    source whose media type is the text of [header] after its first colon
    up to the next colon or semicolon, provided [header] holds a semicolon
    and that text is not empty, and [image/png] otherwise; when it holds
    no comma, nothing is emitted. Every image value that does not start
    with [data:] is emitted as a URL source. The value
    [data:image/png;base64,QUJD] gives media type [image/png] and data
    [QUJD]. *)
Theorem C6_anthropic_image_block :
  (forall header data,
     contains_char "," header = false ->
     startswith "data:" (header ++ String "," data) = true ->
     anthropic_block (ImageContentBlock (inl (header ++ String "," data)))
     = [base64_source (media_type_of header) data]) /\
  (forall mt c rest,
     (c = ":" \/ c = ";")%char ->
     contains_char ":" mt = false -> contains_char ";" mt = false ->
     mt <> "" ->
     contains_char ";" (String c rest) = true ->
     media_type_of ("data:" ++ mt ++ String c rest) = mt) /\
  (forall c rest,
     (c = ":" \/ c = ";")%char ->
     media_type_of ("data:" ++ String c rest) = "image/png") /\
  (forall header,
     contains_char ";" header = false -> media_type_of header = "image/png") /\
  (forall value,
     startswith "data:" value = true -> contains_char "," value = false ->
     anthropic_block (ImageContentBlock (inl value)) = []) /\
  (forall value,
     startswith "data:" value = false ->
     anthropic_block (ImageContentBlock (inl value)) = [url_source value]) /\
  (forall o,
     anthropic_block (ImageContentBlock (inr o))
     = anthropic_block (ImageContentBlock (inl (url o)))) /\
  anthropic_convert
    [("user", [ImageContentBlock (inl "data:image/png;base64,QUJD")])]
  = [message "user"
       [VDict [("type", VStr "image");
               ("source", VDict [("type", VStr "base64");
                                 ("media_type", VStr "image/png");
                                 ("data", VStr "QUJD")])]]].
Proof.
  repeat split.
  - intros header data Hh Hs. unfold anthropic_block.
    rewrite Hs, (split_once_app "," header data Hh). reflexivity.
  - intros mt c rest Hc Hcol Hsemi Hne Hhas. unfold media_type_of.
    rewrite (media_part_delimited mt c rest Hc Hcol Hsemi).
    assert (Hboth : contains_char ":" ("data:" ++ mt ++ String c rest)
                    && contains_char ";" ("data:" ++ mt ++ String c rest) = true).
    { change ("data:" ++ mt ++ String c rest)
        with ("data" ++ String ":" (mt ++ String c rest)).
      rewrite !contains_char_app. apply andb_true_iff. split.
      - reflexivity.
      - change (contains_char ";" (String ":" (mt ++ String c rest)))
          with (contains_char ";" (mt ++ String c rest)).
        rewrite contains_char_app, Hhas. rewrite !orb_true_r. reflexivity. }
    rewrite Hboth.
    destruct (String.eqb mt "") eqn:E; [|reflexivity].
    apply String.eqb_eq in E. contradiction.
  - intros c rest Hc. unfold media_type_of.
    pose proof (media_part_delimited "" c rest Hc eq_refl eq_refl) as E.
    rewrite append_nil_l in E. rewrite E. simpl negb.
    match goal with |- (if ?b then _ else _) = _ => destruct b; reflexivity end.
  - intros header H. unfold media_type_of. rewrite H, andb_false_r. reflexivity.
  - intros value Hs Hc. unfold anthropic_block.
    rewrite Hs, (split_once_none "," value Hc). reflexivity.
  - intros value Hs. unfold anthropic_block. rewrite Hs. reflexivity.
Qed.

Lemma C6_anthropic_image_block_witness :
  anthropic_block (ImageContentBlock (inl ("data:image/jpeg;base64" ++ String "," "QUJD")))
  = [base64_source "image/jpeg" "QUJD"] /\
  anthropic_block (ImageContentBlock (inl "data:nocomma")) = [] /\
  anthropic_block (ImageContentBlock (inl "https://example.org/a.png"))
  = [url_source "https://example.org/a.png"].
Proof.
  destruct C6_anthropic_image_block as (H1 & H2 & _ & _ & H5 & H6 & _).
  split; [|split].
  - refine (eq_trans (H1 "data:image/jpeg;base64" "QUJD" eq_refl eq_refl) _).
    refine (f_equal (fun m => [base64_source m "QUJD"])
              (H2 "image/jpeg" ";"%char "base64" (or_intror eq_refl)
                  eq_refl eq_refl _ eq_refl)).
    discriminate.
  - apply H5; reflexivity.
  - apply H6; reflexivity.
Defined.

(** Claim C9. [create] lowers the requested name before the lookup, so
    two names that differ only in case get the same answer, and a
    converter registered under any spelling is found under every other
    spelling; a name with no registered converter fails with the
    unsupported-format [ValueError], whose message lists the registered
    names; ["unknown"] against the default registry fails listing
    [openai] and [anthropic]. *)
Theorem C9_create_case_insensitive :
  (forall registry a b,
     lower a = lower b -> create registry a = create registry b) /\
  (forall registry a b converter_class,
     lower a = lower b ->
     create (register registry a converter_class) b = Ok converter_class) /\
  (forall registry format_type,
     dict_get (lower format_type) registry = None ->
     create registry format_type
     = Raise (ValueError
                (unsupported_msg (lower format_type)
                   (join ", " (list_supported_formats registry))))) /\
  create default_converters "unknown"
  = Raise (ValueError
             "Unsupported format type: unknown. Supported formats: openai, anthropic") /\
  create default_converters "OpenAI" = Ok openai_convert /\
  create default_converters "ANTHROPIC" = Ok anthropic_convert.
Proof.
  repeat split.
  - intros registry a b E. unfold create. rewrite E. reflexivity.
  - intros registry a b cc E. unfold create, register.
    rewrite <- E, dict_get_set_eq. reflexivity.
  - intros registry ft H. unfold create. rewrite H. reflexivity.
Qed.

Lemma C9_create_case_insensitive_witness :
  create default_converters "OpenAI" = create default_converters "openai" /\
  create (register default_converters "Gemini" openai_convert) "GEMINI"
  = Ok openai_convert /\
  create default_converters "Gemini"
  = Raise (ValueError
             (unsupported_msg "gemini" (join ", " ["openai"; "anthropic"]))).
Proof.
  destruct C9_create_case_insensitive as (H1 & H2 & H3 & _).
  split; [|split].
  - apply H1. reflexivity.
  - apply H2. reflexivity.
  - apply (H3 default_converters "Gemini"). reflexivity.
Defined.

End MessageConverterSpec.

(* ===================================================================== *)
(** * The template formatter *)
(* ===================================================================== *)
Module TemplateFormatterSpec.
Import Py PyFacts TemplateFormatter.

Lemma extend_each_one {A} (f : A -> result (list ContentBlock)) (x : A) :
  extend_each f [x] = f x.
Proof.
  simpl. destruct (f x) as [blocks| |]; simpl; [|reflexivity|reflexivity].
  rewrite app_nil_r. reflexivity.
Qed.

Lemma key_set_some key k : key_set key = Some k <-> key = Some k /\ k <> "".
Proof.
  unfold key_set. destruct key as [k'|]; [|split; [discriminate|intros [[=] _]]].
  destruct (String.eqb k' "") eqn:E.
  - apply String.eqb_eq in E. subst k'.
    split; [discriminate|]. intros [[= <-] H]. contradiction.
  - apply String.eqb_neq in E.
    split; [intros [= <-]; split; [reflexivity|assumption]|].
    intros [[= <-] _]. reflexivity.
Qed.

Section WithInterp.
Variable I : Interp.
Variable set_iter : list string -> list string.

(** Strategy 0 on a dict scope, by what the key is bound to. *)
Lemma find_iteration_source_input_key group key d :
  key_set (input_key group) = Some key ->
  _find_iteration_source set_iter group (VDict d)
  = match dict_get key d with
    | Some (VList l) =>
        if first_is_dict l then Ok l
        else Ok (map (fun item => VDict [(key, item)]) l)
    | _ => Ok []
    end.
Proof.
  intros H. unfold _find_iteration_source. rewrite H. simpl.
  unfold dict_mem. destruct (dict_get key d) as [v|]; simpl; [|reflexivity].
  destruct v; reflexivity.
Qed.

End WithInterp.

(** Claim C3 as written does not hold: a group may declare the empty
    string as [input_key]; the formatter's test [if group.input_key:]
    takes it for undeclared, and the sequence bound to that key in scope is
    not used as the iteration source. *)
Lemma C3_empty_input_key_is_not_used :
  ~ (forall (set_iter : list string -> list string)
            (group : IterableContentTemplateGroup) (key : string)
            (d : Dict) (l : list PyVal),
       input_key group = Some key ->
       dict_get key d = Some (VList l) ->
       first_is_dict l = true ->
       _find_iteration_source set_iter group (VDict d) = Ok l).
Proof.
  intros H.
  specialize (H (fun l => l)
                (Iterable [inl (Image {| input_name := "img" |})] (Some ""))
                "" [("", VList [VDict [("x", VInt 1)]])]
                [VDict [("x", VInt 1)]] eq_refl eq_refl eq_refl).
  vm_compute in H. discriminate H.
Qed.

(** Claim C3, amended. For every iterable content group that declares a
    non-empty [input_key] and every dict scope: if the scope binds the key
    to a list whose first element is a dict, the per-iteration scopes are
    exactly that list, in order; if it binds the key to any other list (in
    particular a list of scalars), each element is wrapped as a one-key
    dict under [input_key]; if the key is missing or bound to something
    that is not a list, the iteration source is empty and the group yields
    no blocks. With [input_key] ["rows"], scope
    [{"rows": [{"x": 1}, {"x": 2}]}] and item template ["v={x}"],
    formatting yields the text blocks ["v=1"] and ["v=2"], in that order. *)
Theorem C3_input_key_iteration_source :
  forall (I : Interp) (set_iter : list string -> list string),
  (forall group key d,
     input_key group = Some key -> key <> "" ->
     (forall l, dict_get key d = Some (VList l) -> first_is_dict l = true ->
        _find_iteration_source set_iter group (VDict d) = Ok l) /\
     (forall l, dict_get key d = Some (VList l) -> first_is_dict l = false ->
        _find_iteration_source set_iter group (VDict d)
        = Ok (map (fun item => VDict [(key, item)]) l)) /\
     ((dict_get key d = None \/
       exists v, dict_get key d = Some v /\ is_list v = false) ->
        _find_iteration_source set_iter group (VDict d) = Ok [] /\
        _format_iterable I set_iter group (VDict d) = Ok [])) /\
  _format_iterable I set_iter
    (Iterable [inl (Text {| content := "v={x}"; input_variables := ["x"] |})]
              (Some "rows"))
    (VDict [("rows", VList [VDict [("x", VInt 1)]; VDict [("x", VInt 2)]])])
  = Ok [TextContentBlock "v=1"; TextContentBlock "v=2"].
Proof.
  intros I set_iter. split; [|reflexivity].
  intros group key d Hk Hne.
  assert (Hset : key_set (input_key group) = Some key)
    by (apply key_set_some; split; assumption).
  pose proof (find_iteration_source_input_key set_iter group key d Hset) as E.
  split; [|split].
  - intros l Hl Hd. rewrite E, Hl, Hd. reflexivity.
  - intros l Hl Hd. rewrite E, Hl, Hd. reflexivity.
  - intros Hmiss.
    assert (E0 : _find_iteration_source set_iter group (VDict d) = Ok []).
    { rewrite E. destruct Hmiss as [-> | (v & -> & Hv)]; [reflexivity|].
      destruct v; try reflexivity. discriminate Hv. }
    split; [exact E0|].
    destruct group as [its k]. simpl. simpl in E0. rewrite E0. reflexivity.
Qed.

Lemma C3_input_key_iteration_source_witness :
  _find_iteration_source (fun l => l)
    (Iterable [inl (Image {| input_name := "img" |})] (Some "pages"))
    (VDict [("pages", VList [VInt 1; VInt 2])])
  = Ok [VDict [("pages", VInt 1)]; VDict [("pages", VInt 2)]].
Proof.
  destruct (C3_input_key_iteration_source no_ext (fun l => l)) as [H _].
  destruct (H (Iterable [inl (Image {| input_name := "img" |})] (Some "pages"))
              "pages" [("pages", VList [VInt 1; VInt 2])] eq_refl)
    as (_ & H2 & _).
  - discriminate.
  - exact (H2 [VInt 1; VInt 2] eq_refl eq_refl).
Defined.

(** ** Text templates and the scope they see *)

Lemma dict_get_set {V} k k' (v : V) d :
  dict_get k (dict_set k' v d)
  = if String.eqb k k' then Some v else dict_get k d.
Proof.
  induction d as [|[k0 v0] d IH]; simpl.
  - destruct (String.eqb k k'); reflexivity.
  - destruct (String.eqb k' k0) eqn:E0; simpl.
    + apply String.eqb_eq in E0. subst k0.
      destruct (String.eqb k k'); reflexivity.
    + rewrite IH. destruct (String.eqb k k') eqn:E; [|reflexivity].
      apply String.eqb_eq in E. subst k'. rewrite E0. reflexivity.
Qed.

Section Restriction.
Variable variables : Dict.

Let pick (k : string) : list (string * PyVal) :=
  match dict_get k variables with
  | Some v => [(k, v)]
  | None => []
  end.

Lemma dict_get_collect k (ivs : list string) (acc : Dict) :
  dict_get k
    (fold_left (fun acc kv => dict_set (fst kv) (snd kv) acc)
               (flat_map pick ivs) acc)
  = if existsb (String.eqb k) ivs
    then match dict_get k variables with
         | Some v => Some v
         | None => dict_get k acc
         end
    else dict_get k acc.
Proof.
  revert acc. induction ivs as [|a ivs IH]; intros acc; simpl; [reflexivity|].
  rewrite fold_left_app, IH. unfold pick.
  destruct (dict_get a variables) as [v|] eqn:Ea; simpl.
  - rewrite dict_get_set.
    destruct (String.eqb k a) eqn:E; simpl.
    + apply String.eqb_eq in E. subst a. rewrite Ea.
      destruct (existsb _ ivs); reflexivity.
    + reflexivity.
  - destruct (String.eqb k a) eqn:E; simpl; [|reflexivity].
    apply String.eqb_eq in E. subst a. rewrite Ea.
    destruct (existsb _ ivs); reflexivity.
Qed.

(** The filtered dict binds exactly the declared keys that the scope
    binds, to the scope's values. *)
Lemma dict_get_filtered_vars k (ivs : list string) :
  dict_get k (BaseFormatter.filtered_vars ivs variables)
  = if existsb (String.eqb k) ivs then dict_get k variables else None.
Proof.
  pose proof (dict_get_collect k ivs []) as H. unfold pick in H.
  unfold BaseFormatter.filtered_vars, dict_of_pairs, dict_merge.
  rewrite H. simpl.
  destruct (existsb _ ivs); [|reflexivity].
  destruct (dict_get k variables); reflexivity.
Qed.

End Restriction.

Lemma filtered_vars_ext (ivs : list string) (variables variables' : Dict) :
  (forall k, In k ivs -> dict_get k variables = dict_get k variables') ->
  BaseFormatter.filtered_vars ivs variables
  = BaseFormatter.filtered_vars ivs variables'.
Proof.
  intros H. unfold BaseFormatter.filtered_vars. f_equal.
  induction ivs as [|a ivs IH]; simpl; [reflexivity|].
  rewrite (H a) by (left; reflexivity).
  rewrite IH; [reflexivity|]. intros k Hk. apply H. right. exact Hk.
Qed.

Section Scope.
Variable I : Interp.

Lemma format_field_mono (d d' : Dict) name v :
  (forall k x, dict_get k d = Some x -> dict_get k d' = Some x) ->
  format_field I d name = Ok v -> format_field I d' name = Ok v.
Proof.
  intros Hsub. unfold format_field.
  destruct (all_digits name); [discriminate|].
  destruct (dict_get name d) as [x|] eqn:E; [|discriminate].
  rewrite (Hsub _ _ E). trivial.
Qed.

(** More bindings never turn a successful substitution into a different
    outcome. *)
Lemma format_go_mono (d d' : Dict) :
  (forall k x, dict_get k d = Some x -> dict_get k d' = Some x) ->
  forall n s fld r,
    (String.length s <= n)%nat ->
    format_go I d s fld = Ok r -> format_go I d' s fld = Ok r.
Proof.
  intros Hsub. induction n as [|n IH]; intros s fld r Hlen.
  - destruct s; [|simpl in Hlen; lia]. simpl. trivial.
  - destruct s as [|c s']; [simpl; trivial|].
    simpl in Hlen. simpl.
    destruct fld as [name|].
    + destruct (Ascii.eqb c "}").
      * destruct (format_field I d name) as [v| |] eqn:Ef; simpl; try discriminate.
        rewrite (format_field_mono d d' name v Hsub Ef). simpl.
        destruct (format_go I d s' None) as [rest| |] eqn:Er; simpl; try discriminate.
        rewrite (IH s' None rest ltac:(lia) Er). trivial.
      * apply IH. lia.
    + assert (Hstep : forall s0 (f : string -> string) r0,
                (String.length s0 <= n)%nat ->
                (let! rest := format_go I d s0 None in Ok (f rest)) = Ok r0 ->
                (let! rest := format_go I d' s0 None in Ok (f rest)) = Ok r0).
      { intros s0 f r0 Hl. destruct (format_go I d s0 None) as [rest| |] eqn:Er;
          simpl; try discriminate.
        rewrite (IH s0 None rest Hl Er). trivial. }
      destruct (Ascii.eqb c "{").
      * destruct s' as [|c' s'']; [trivial|].
        simpl in Hlen.
        destruct c' as [[] [] [] [] [] [] [] []];
          try (apply IH; simpl; lia).
        apply (Hstep s'' (String "{")). lia.
      * destruct (Ascii.eqb c "}").
        -- destruct s' as [|c' s'']; [trivial|].
           simpl in Hlen.
           destruct c' as [[] [] [] [] [] [] [] []]; trivial.
           apply (Hstep s'' (String "}")). lia.
        -- apply (Hstep s' (String c)). lia.
Qed.

End Scope.

(** Claim C5 as written does not hold for
    [ContentTemplateFormatter._format_text]: it substitutes against the
    whole scope, so a template may use a variable it does not declare,
    where substitution against the scope restricted to the declared keys
    raises [KeyError]. *)
Lemma C5_format_text_sees_undeclared_variables :
  ~ (forall (I : Interp) (t : TextTemplate) (d : Dict),
       input_variables t <> [] ->
       _format_text I t (VDict d)
       = _format_text I t
           (VDict (BaseFormatter.filtered_vars (input_variables t) d))).
Proof.
  intros H.
  specialize (H no_ext {| content := "{other}"; input_variables := ["name"] |}
                [("name", VStr "World"); ("other", VStr "ignored")]).
  vm_compute in H. specialize (H ltac:(discriminate)). discriminate H.
Qed.

(** Claim C5, amended. [BasePromptFormatter._process_text_template]
    restricts the scope to exactly the declared keys before substitution:
    the filtered dict binds a key exactly when it is declared and bound in
    scope, declared keys absent from the scope are left out without any
    exception, and the outcome is the same for two scopes that agree on
    the declared keys, so undeclared variables are dropped and cannot cause
    an error. [ContentTemplateFormatter._format_text] does not restrict:
    it substitutes against the whole scope; for a template whose
    replacement fields are bare names, adding variables to the scope never
    changes a successful outcome. Either way, template ["Hello {name}"]
    with [input_variables] [["name"]] and scope
    [{"name": "World", "other": "ignored"}] yields exactly one text block,
    with text ["Hello World"]. *)
Theorem C5_text_template_scope :
  forall (I : Interp) (jinja_render : string -> Dict -> exn + string),
  (forall (item : BaseFormatter.TextTemplate) variables template_format,
     (forall k,
        dict_get k (BaseFormatter.filtered_vars
                      (BaseFormatter.input_variables item) variables)
        = if existsb (String.eqb k) (BaseFormatter.input_variables item)
          then dict_get k variables else None) /\
     BaseFormatter._process_text_template I jinja_render item variables
       template_format
     = (let! formatted_text :=
          BaseFormatter.format_string I jinja_render
            (BaseFormatter.value item)
            (BaseFormatter.filtered_vars
               (BaseFormatter.input_variables item) variables)
            template_format in
        Ok [VDict [("type", VStr "text"); ("text", VStr formatted_text)]]) /\
     (forall variables',
        (forall k, In k (BaseFormatter.input_variables item) ->
                   dict_get k variables = dict_get k variables') ->
        BaseFormatter._process_text_template I jinja_render item variables
          template_format
        = BaseFormatter._process_text_template I jinja_render item variables'
            template_format)) /\
  (forall (t : TextTemplate) d,
     _format_text I t (VDict d)
     = (let! formatted_text := str_format I (content t) d in
        Ok [TextContentBlock formatted_text])) /\
  (forall (t : TextTemplate) d d' blocks,
     plain_template (content t) false = true ->
     (forall k x, dict_get k d = Some x -> dict_get k d' = Some x) ->
     _format_text I t (VDict d) = Ok blocks ->
     _format_text I t (VDict d') = Ok blocks) /\
  BaseFormatter._process_text_template I jinja_render
    {| BaseFormatter.value := "Hello {name}";
       BaseFormatter.input_variables := ["name"] |}
    [("name", VStr "World"); ("other", VStr "ignored")] "f-string"
  = Ok [VDict [("type", VStr "text"); ("text", VStr "Hello World")]] /\
  _format_text I {| content := "Hello {name}"; input_variables := ["name"] |}
    (VDict [("name", VStr "World"); ("other", VStr "ignored")])
  = Ok [TextContentBlock "Hello World"].
Proof.
  intros I jinja_render.
  assert (Hdef : forall (item : BaseFormatter.TextTemplate) variables fmt,
             BaseFormatter._process_text_template I jinja_render item variables fmt
             = (let! formatted_text :=
                  BaseFormatter.format_string I jinja_render
                    (BaseFormatter.value item)
                    (BaseFormatter.filtered_vars
                       (BaseFormatter.input_variables item) variables) fmt in
                Ok [VDict [("type", VStr "text"); ("text", VStr formatted_text)]])).
  { intros item variables fmt. unfold BaseFormatter._process_text_template.
    destruct (BaseFormatter.input_variables item); reflexivity. }
  split; [|split; [|split; [|split; reflexivity]]].
  - intros item variables fmt. split; [|split].
    + intros k. apply dict_get_filtered_vars.
    + apply Hdef.
    + intros variables' Hagree. rewrite !Hdef.
      rewrite (filtered_vars_ext _ variables variables' Hagree). reflexivity.
  - intros t d. reflexivity.
  - intros t d d' blocks Hplain Hsub. unfold _format_text, str_format. simpl.
    rewrite Hplain.
    destruct (format_go I d (content t) None) as [r| |] eqn:E; simpl;
      try discriminate.
    intros [= <-].
    rewrite (format_go_mono I d d' Hsub _ _ None r (le_n _) E). reflexivity.
Qed.

Lemma C5_text_template_scope_witness :
  BaseFormatter._process_text_template no_ext (fun s _ => inr s)
    {| BaseFormatter.value := "{a}{b}";
       BaseFormatter.input_variables := ["a"; "b"] |}
    [("a", VInt 1); ("b", VInt 2); ("c", VInt 3)] "f-string"
  = BaseFormatter._process_text_template no_ext (fun s _ => inr s)
      {| BaseFormatter.value := "{a}{b}";
         BaseFormatter.input_variables := ["a"; "b"] |}
      [("b", VInt 2); ("a", VInt 1)] "f-string" /\
  _format_text no_ext {| content := "{a}"; input_variables := ["a"] |}
    (VDict [("a", VInt 1); ("zz", VNone)])
  = Ok [TextContentBlock "1"].
Proof.
  destruct (C5_text_template_scope no_ext (fun s _ => inr s))
    as (H1 & _ & H3 & _).
  split.
  - destruct (H1 {| BaseFormatter.value := "{a}{b}";
                    BaseFormatter.input_variables := ["a"; "b"] |}
                 [("a", VInt 1); ("b", VInt 2); ("c", VInt 3)] "f-string")
      as (_ & _ & Hext).
    apply Hext. intros k [<- | [<- | []]]; reflexivity.
  - apply (H3 {| content := "{a}"; input_variables := ["a"] |}
              [("a", VInt 1)] [("a", VInt 1); ("zz", VNone)]).
    + reflexivity.
    + intros k x. simpl. destruct (String.eqb k "a"); [trivial|discriminate].
    + reflexivity.
Defined.

(** ** The parallel-lists branch *)

Lemma mapM_length {A B} (f : A -> result B) (l : list A) (r : list B) :
  mapM f l = Ok r -> length r = length l.
Proof.
  revert r. induction l as [|a l IH]; simpl; intros r.
  - intros [= <-]. reflexivity.
  - destruct (f a) as [b| |]; simpl; try discriminate.
    destruct (mapM f l) as [bs| |]; simpl; try discriminate.
    intros [= <-]. simpl. rewrite (IH bs eq_refl). reflexivity.
Qed.

Lemma mapM_raise {A B} (f : A -> result B) (l : list A) (e : exn) :
  (forall x, In x l -> (exists y, f x = Ok y) \/ f x = Raise e) ->
  (exists x, In x l /\ f x = Raise e) ->
  mapM f l = Raise e.
Proof.
  induction l as [|a l IH]; simpl; intros Hall (x & Hin & Hx); [contradiction|].
  destruct (Hall a (or_introl eq_refl)) as [(y & Ea) | Ea]; rewrite Ea; simpl;
    [|reflexivity].
  destruct Hin as [-> | Hin]; [congruence|].
  rewrite IH; [reflexivity| |].
  - intros z Hz. apply Hall. right. exact Hz.
  - exists x. split; assumption.
Qed.

Lemma mapM_ok {A B} (f : A -> result B) (l : list A) :
  (forall x, In x l -> exists y, f x = Ok y) ->
  exists r, mapM f l = Ok r.
Proof.
  induction l as [|a l IH]; simpl; intros Hall; [eexists; reflexivity|].
  destruct (Hall a (or_introl eq_refl)) as (y & ->). simpl.
  destruct IH as (r & ->); [intros z Hz; apply Hall; right; exact Hz|].
  simpl. eexists; reflexivity.
Qed.

Section Parallel.
Variable d : Dict.

(** On a dict scope the inner loop ends normally or in [IndexError]. *)
Lemma zip_at_cases all_vars i acc :
  (exists r, zip_at all_vars (VDict d) i acc = Ok r) \/
  zip_at all_vars (VDict d) i acc = Raise IndexError.
Proof.
  revert acc. induction all_vars as [|n ns IH]; intros acc; simpl.
  - left. eexists; reflexivity.
  - unfold dict_mem. destruct (dict_get n d) as [v|]; simpl; [|apply IH].
    destruct v; try apply IH.
    unfold list_index. destruct (nth_error l i); simpl; [apply IH|].
    right. reflexivity.
Qed.

Lemma zip_at_short all_vars i acc :
  (exists n l, In n all_vars /\ dict_get n d = Some (VList l) /\
               (length l <= i)%nat) ->
  zip_at all_vars (VDict d) i acc = Raise IndexError.
Proof.
  revert acc. induction all_vars as [|n ns IH];
    intros acc (m & l & Hin & Hm & Hlen); simpl; [contradiction|].
  assert (Hrest : In m ns -> forall acc', zip_at ns (VDict d) i acc' = Raise IndexError).
  { intros Hin' acc'. apply IH. exists m, l. repeat split; assumption. }
  destruct Hin as [-> | Hin].
  - unfold dict_mem. rewrite Hm. simpl. unfold list_index.
    replace (nth_error l i) with (@None PyVal)
      by (symmetry; apply nth_error_None; exact Hlen).
    reflexivity.
  - unfold dict_mem. destruct (dict_get n d) as [v|]; simpl; [|apply Hrest, Hin].
    destruct v; try (apply Hrest, Hin).
    unfold list_index. destruct (nth_error l0 i); simpl;
      [apply Hrest, Hin | reflexivity].
Qed.

Lemma zip_at_long all_vars i acc :
  (forall n l, In n all_vars -> dict_get n d = Some (VList l) ->
               (i < length l)%nat) ->
  exists r, zip_at all_vars (VDict d) i acc = Ok r.
Proof.
  revert acc. induction all_vars as [|n ns IH]; intros acc Hall; simpl.
  - eexists; reflexivity.
  - assert (Hrest : forall acc', exists r, zip_at ns (VDict d) i acc' = Ok r).
    { intros acc'. apply IH. intros m l Hm. apply Hall. right. exact Hm. }
    unfold dict_mem. destruct (dict_get n d) as [v|] eqn:En; simpl; [|apply Hrest].
    destruct v; try apply Hrest.
    unfold list_index.
    destruct (nth_error l i) eqn:Ei; simpl; [apply Hrest|].
    apply nth_error_None in Ei.
    pose proof (Hall n l (or_introl eq_refl) En). lia.
Qed.

(** Names bound to no list leave [list_vars] as it is. *)
Lemma find_list_vars_skip pre rest acc :
  (forall n l, In n pre -> dict_get n d <> Some (VList l)) ->
  find_list_vars (pre ++ rest) (VDict d) acc
  = find_list_vars rest (VDict d) acc.
Proof.
  induction pre as [|n pre IH]; intros Hpre; simpl; [reflexivity|].
  assert (IH' := IH (fun m l Hm => Hpre m l (or_intror Hm))).
  unfold dict_mem. destruct (dict_get n d) as [v|] eqn:En; simpl; [|exact IH'].
  destruct v; try exact IH'.
  exfalso. exact (Hpre n l (or_introl eq_refl) En).
Qed.

(** The first list found stays first in [list_vars]. *)
Lemma find_list_vars_head n0 first_list all_vars acc :
  dict_get n0 d = Some (VList first_list) ->
  exists acc',
    find_list_vars all_vars (VDict d) ((n0, first_list) :: acc)
    = Ok ((n0, first_list) :: acc').
Proof.
  intros H0. revert acc. induction all_vars as [|n ns IH]; intros acc; simpl.
  - eexists; reflexivity.
  - unfold dict_mem. destruct (dict_get n d) as [v|] eqn:En; simpl; [|apply IH].
    destruct v; try apply IH.
    destruct (String.eqb n n0) eqn:E.
    + apply String.eqb_eq in E. subst n. rewrite H0 in En.
      injection En as <-. apply IH.
    + apply IH.
Qed.

Lemma find_list_vars_first pre n0 post first_list :
  (forall n l, In n pre -> dict_get n d <> Some (VList l)) ->
  dict_get n0 d = Some (VList first_list) ->
  exists acc',
    find_list_vars (pre ++ n0 :: post) (VDict d) []
    = Ok ((n0, first_list) :: acc').
Proof.
  intros Hpre H0. rewrite (find_list_vars_skip pre (n0 :: post) [] Hpre).
  simpl. unfold dict_mem. rewrite H0. simpl.
  apply find_list_vars_head. exact H0.
Qed.

End Parallel.

(** Claim C4. In the parallel-lists branch (no [input_key] in force, the
    first referenced name found bound to a list is bound to a list of
    non-dicts), the iteration source has as many entries as the first
    candidate list; every referenced name bound to a list is indexed at
    every iteration index without any comparison of lengths: longer lists
    pass, and as soon as one candidate list is shorter than the first the
    lookup runs past its end and the call ends in [IndexError]. *)
Theorem C4_parallel_lists_no_length_check :
  forall (set_iter : list string -> list string)
         (group : IterableContentTemplateGroup) (d : Dict)
         (pre : list string) (n0 : string) (post : list string)
         (first_list : list PyVal),
    key_set (input_key group) = None ->
    set_iter (collect_vars (items group)) = (pre ++ n0 :: post)%list ->
    (forall n l, In n pre -> dict_get n d <> Some (VList l)) ->
    dict_get n0 d = Some (VList first_list) ->
    first_is_dict first_list = false ->
    (forall r,
       _find_iteration_source set_iter group (VDict d) = Ok r ->
       length r = length first_list) /\
    ((exists n l, In n (pre ++ n0 :: post)%list /\
                  dict_get n d = Some (VList l) /\
                  (length l < length first_list)%nat) ->
     _find_iteration_source set_iter group (VDict d) = Raise IndexError) /\
    ((forall n l, In n (pre ++ n0 :: post)%list ->
                  dict_get n d = Some (VList l) ->
                  (length first_list <= length l)%nat) ->
     exists r, _find_iteration_source set_iter group (VDict d) = Ok r /\
               length r = length first_list).
Proof.
  intros set_iter group d pre n0 post first_list Hkey Hvars Hpre H0 Hfirst.
  assert (E : _find_iteration_source set_iter group (VDict d)
              = parallel_lists (pre ++ n0 :: post)%list (VDict d) (length first_list)).
  { unfold _find_iteration_source. rewrite Hkey, Hvars.
    destruct (find_list_vars_first d pre n0 post first_list Hpre H0) as (acc' & Ef).
    destruct (pre ++ n0 :: post)%list as [|x xs] eqn:Ex;
      [destruct pre; discriminate Ex|].
    rewrite Ef. simpl. rewrite Hfirst. reflexivity. }
  rewrite E. unfold parallel_lists.
  assert (Hlen : forall r,
            mapM (fun i => let! iter_vars := zip_at (pre ++ n0 :: post)%list (VDict d) i [] in
                           Ok (VDict iter_vars)) (seq 0 (length first_list)) = Ok r ->
            length r = length first_list).
  { intros r Hr. apply mapM_length in Hr. rewrite Hr. apply length_seq. }
  split; [exact Hlen|]. split.
  - intros (n & l & Hin & Hn & Hshort).
    apply mapM_raise.
    + intros i _.
      destruct (zip_at_cases d (pre ++ n0 :: post)%list i []) as [(r & ->) | ->]; simpl.
      * left. eexists; reflexivity.
      * right. reflexivity.
    + exists (length l). split; [apply in_seq; lia|].
      rewrite (zip_at_short d (pre ++ n0 :: post)%list (length l) []); [reflexivity|].
      exists n, l. repeat split; [assumption | assumption | lia].
  - intros Hlong.
    destruct (mapM_ok
                (fun i => let! iter_vars := zip_at (pre ++ n0 :: post)%list (VDict d) i [] in
                          Ok (VDict iter_vars))
                (seq 0 (length first_list))) as (r & Hr).
    + intros i Hi. apply in_seq in Hi.
      destruct (zip_at_long d (pre ++ n0 :: post)%list i []) as (iv & ->).
      * intros n l Hin Hn. pose proof (Hlong n l Hin Hn). lia.
      * simpl. eexists; reflexivity.
    + exists r. split; [exact Hr | exact (Hlen r Hr)].
Qed.

Lemma C4_parallel_lists_no_length_check_witness :
  _find_iteration_source (fun l => l)
    (Iterable [inl (Text {| content := "{a}-{b}"; input_variables := ["a"; "b"] |})]
              None)
    (VDict [("a", VList [VInt 1; VInt 2]); ("b", VList [VInt 3])])
  = Raise IndexError /\
  exists r,
    _find_iteration_source (fun l => l)
      (Iterable [inl (Text {| content := "{a}-{b}"; input_variables := ["a"; "b"] |})]
                None)
      (VDict [("a", VList [VInt 1; VInt 2]);
              ("b", VList [VInt 3; VInt 4; VInt 5])])
    = Ok r /\ length r = 2%nat.
Proof.
  split.
  - refine (proj1 (proj2 (C4_parallel_lists_no_length_check (fun l => l)
              (Iterable [inl (Text {| content := "{a}-{b}";
                                      input_variables := ["a"; "b"] |})] None)
              [("a", VList [VInt 1; VInt 2]); ("b", VList [VInt 3])]
              [] "a" ["b"] [VInt 1; VInt 2] eq_refl eq_refl _ eq_refl eq_refl)) _).
    + intros n l [].
    + exists "b", [VInt 3]. split; [right; left; reflexivity|].
      split; [reflexivity | simpl; lia].
  - refine (proj2 (proj2 (C4_parallel_lists_no_length_check (fun l => l)
              (Iterable [inl (Text {| content := "{a}-{b}";
                                      input_variables := ["a"; "b"] |})] None)
              [("a", VList [VInt 1; VInt 2]); ("b", VList [VInt 3; VInt 4; VInt 5])]
              [] "a" ["b"] [VInt 1; VInt 2] eq_refl eq_refl _ eq_refl eq_refl)) _).
    + intros n l [].
    + intros n l [<- | [<- | []]]; intros [= <-]; simpl; lia.
Defined.

(** Claim C10 as written does not hold: the one pass over the wrapped
    value can yield an empty block list (here the only content group is an
    iterable group whose own [input_key] is missing from the document), and
    it raises when the value cannot serve as a scope (see the amended
    statement). *)
Lemma C10_one_pass_may_yield_no_blocks :
  ~ (forall (I : Interp) (set_iter : list string -> list string)
            (role : string) (contents : list ContentTemplateGroup)
            (key : string) (d : Dict) (v : PyVal),
       dict_get key d = Some v -> is_list v = false ->
       exists blocks,
         format_message I set_iter
           (IterableContentMessageTemplate role contents (Some key)) (VDict d)
         = Ok (role, blocks) /\ blocks <> []).
Proof.
  intros H.
  destruct (H no_ext (fun l => l) "user"
              [Iter (Iterable [inl (Image {| input_name := "img" |})]
                              (Some "pages"))]
              "doc" [("doc", VDict [("title", VStr "t")])]
              (VDict [("title", VStr "t")]) eq_refl eq_refl)
    as (blocks & E & Hne).
  vm_compute in E. injection E as <-. contradiction.
Qed.

(** Claim C10, amended. For every iterable message template whose
    non-empty [input_key] is bound in the input dict to a value that is not
    a list, [format] wraps the value in a one-element list and makes
    exactly one pass with it as the document scope: the message's blocks
    are those of its content groups formatted against that value, in
    order, and an exception raised by a group is the outcome. The pass
    yields no block when the groups yield none, and a static text group
    raises [TypeError] on a scalar document. *)
Theorem C10_non_list_value_is_one_pass :
  forall (I : Interp) (set_iter : list string -> list string),
  (forall role contents key d v,
     key <> "" -> dict_get key d = Some v -> is_list v = false ->
     iteration_data (Some key) (VDict d) = Ok [v] /\
     format_message I set_iter
       (IterableContentMessageTemplate role contents (Some key)) (VDict d)
     = (let! blocks :=
          extend_each (fun content_group =>
                         group_format I set_iter content_group v) contents in
        Ok (role, blocks))) /\
  format_message I set_iter
    (IterableContentMessageTemplate "user" [] (Some "doc"))
    (VDict [("doc", VInt 5)])
  = Ok ("user", []) /\
  format_message I set_iter
    (IterableContentMessageTemplate "user"
       [Static {| static_items :=
                    [Text {| content := "hi"; input_variables := [] |}] |}]
       (Some "doc"))
    (VDict [("doc", VInt 5)])
  = Raise TypeError.
Proof.
  intros I set_iter. split; [|split; reflexivity].
  intros role contents key d v Hne Hv Hl.
  assert (E : iteration_data (Some key) (VDict d) = Ok [v]).
  { unfold iteration_data.
    replace (key_set (Some key)) with (Some key)
      by (symmetry; apply key_set_some; split; [reflexivity|assumption]).
    simpl. unfold dict_mem. rewrite Hv. simpl.
    destruct v; try reflexivity. discriminate Hl. }
  split; [exact E|].
  unfold format_message. rewrite E.
  change (bind (Ok [v]) ?k) with (k [v]). cbv beta.
  rewrite extend_each_one. reflexivity.
Qed.

Lemma C10_non_list_value_is_one_pass_witness :
  format_message no_ext (fun l => l)
    (IterableContentMessageTemplate "user"
       [Static {| static_items :=
                    [Text {| content := "{title}"; input_variables := ["title"] |}] |}]
       (Some "doc"))
    (VDict [("doc", VDict [("title", VStr "t")])])
  = Ok ("user", [TextContentBlock "t"]).
Proof.
  destruct (C10_non_list_value_is_one_pass no_ext (fun l => l)) as [H _].
  destruct (H "user"
              [Static {| static_items :=
                 [Text {| content := "{title}"; input_variables := ["title"] |}] |}]
              "doc" [("doc", VDict [("title", VStr "t")])]
              (VDict [("title", VStr "t")])) as [_ E];
    [discriminate | reflexivity | reflexivity |].
  rewrite E. reflexivity.
Defined.

End TemplateFormatterSpec.

(* ===================================================================== *)
(** * The schema model maker: facts shared by the statements below *)
(* ===================================================================== *)
Module SchemaMakerFacts.
Import Py PyFacts DictFacts SchemaMaker.

Lemma call_ok_raise {A} F self e : @call_ok A F self (self, Raise e).
Proof. repeat split; simpl; try discriminate. trivial. Qed.

Lemma call_ok_return {A} F self (a : A) : call_ok F self (self, Ok a).
Proof. repeat split; simpl; try discriminate. trivial. Qed.

Lemma dict_keys_set {V} k (v : V) d k' :
  In k' (dict_keys (dict_set k v d)) -> k' = k \/ In k' (dict_keys d).
Proof.
  induction d as [|[k0 v0] d IH]; simpl.
  - intros [<- | []]. left. reflexivity.
  - destruct (String.eqb k k0) eqn:E; simpl.
    + intros [<- | H]; [left; reflexivity | right; right; exact H].
    + intros [<- | H]; [right; left; reflexivity|].
      destruct (IH H) as [-> | H']; [left; reflexivity | right; right; exact H'].
Qed.

Lemma dict_mem_keys {V} k (d : list (string * V)) :
  dict_mem k d = true -> In k (dict_keys d).
Proof.
  unfold dict_mem. induction d as [|[k0 v0] d IH]; simpl; [discriminate|].
  destruct (String.eqb k k0) eqn:E.
  - apply String.eqb_eq in E. intros _. left. symmetry. exact E.
  - intros H. right. apply IH, H.
Qed.

Lemma dict_get_keys {V} k (d : list (string * V)) v :
  dict_get k d = Some v -> In k (dict_keys d).
Proof.
  intros H. apply dict_mem_keys. unfold dict_mem. rewrite H. reflexivity.
Qed.

(** A dict that keeps some of its keys. *)
Lemma dict_get_filter {V} (p : string -> bool) k (d : list (string * V)) :
  dict_get k (List.filter (fun kv => p kv.1) d)
  = if p k then dict_get k d else None.
Proof.
  induction d as [|[k0 v0] d IH]; simpl; [destruct (p k); reflexivity|].
  destruct (p k0) eqn:E0; simpl.
  - destruct (String.eqb_spec k k0) as [->|Hne].
    + rewrite E0. reflexivity.
    + exact IH.
  - rewrite IH. destruct (String.eqb_spec k k0) as [->|Hne]; [|reflexivity].
    rewrite E0. reflexivity.
Qed.

Lemma dict_keys_filter {V} (p : string -> bool) k (d : list (string * V)) :
  In k (dict_keys (List.filter (fun kv => p kv.1) d)) -> In k (dict_keys d).
Proof.
  unfold dict_keys. rewrite !in_map_iff.
  intros (kv & E & Hin). apply filter_In in Hin as [Hin _].
  exists kv. split; assumption.
Qed.


Section WithInterp.
Variable I : Interp.

(** *** No call of the loop body runs out of fuel *)

Lemma of_ext_fuel {A} (r : exn + A) : of_ext r <> OutOfFuel.
Proof. destruct r; discriminate. Qed.

Lemma coerce_fuel t v : coerce I t v <> OutOfFuel.
Proof.
  destruct t; simpl; try discriminate.
  - unfold py_int. destruct v; try discriminate.
    + destruct (ext_int_of_float I bits); discriminate.
    + destruct (parse_int s); discriminate.
  - unfold py_float. destruct v; try discriminate;
      destruct (ext_float I _); discriminate.
Qed.

Lemma mapM_fuel {A B} (f : A -> result B) l :
  (forall x, f x <> OutOfFuel) -> mapM f l <> OutOfFuel.
Proof.
  intros Hf. induction l as [|a l IH]; simpl; [discriminate|].
  destruct (f a) eqn:Ea; simpl; [|discriminate|destruct (Hf a Ea)].
  destruct (mapM f l); simpl; [discriminate|discriminate|exact IH].
Qed.

Lemma expand_dims_fuel dm t : expand_dims dm t <> OutOfFuel.
Proof.
  unfold expand_dims.
  destruct (dm =? 0); [discriminate|].
  destruct (dm =? 1); [discriminate|].
  destruct (dm =? 2); discriminate.
Qed.

Lemma create_dynamic_enum_fuel name values :
  create_dynamic_enum I name values <> OutOfFuel.
Proof.
  unfold create_dynamic_enum. destruct (ext_enum I name _); discriminate.
Qed.

Lemma create_model_fuel name d : create_model I name d <> OutOfFuel.
Proof.
  unfold create_model. destruct (ext_model_error I name _); discriminate.
Qed.

Lemma field_definition_fuel model_name field t :
  field_definition I model_name field t <> OutOfFuel.
Proof.
  unfold field_definition.
  destruct (allowed_values_set (specification field)) as [values|].
  - pose proof (mapM_fuel (coerce I t) values (coerce_fuel t)) as Hm.
    destruct (mapM (coerce I t) values) as [a| |]; simpl;
      [|discriminate|contradiction].
    pose proof (create_dynamic_enum_fuel
                  (model_name ++ "_" ++ fs_name field ++ "_enum") a) as Hc.
    destruct (create_dynamic_enum I _ a) as [en| |]; simpl;
      [|discriminate|contradiction].
    pose proof (expand_dims_fuel (dim (specification field)) en) as He.
    destruct (expand_dims _ _); simpl; [discriminate|discriminate|contradiction].
  - simpl. pose proof (expand_dims_fuel (dim (specification field)) t) as He.
    destruct (expand_dims _ _); simpl; [discriminate|discriminate|contradiction].
Qed.

(** What a field definition holds: the name of the field, its base type
    under the declared [dim], and the default that [optional] gives. *)
Lemma field_definition_entry model_name f t n def :
  field_definition I model_name f t = Ok (n, def) ->
  n = fs_name f /\
  exists base,
    expand_dims (dim (specification f)) base = Ok def.1 /\
    def.2 = (if optional (specification f) then DefaultNone else Required) /\
    (allowed_values_set (specification f) = None -> base = t).
Proof.
  unfold field_definition.
  destruct (allowed_values_set (specification f)) as [values|].
  - destruct (mapM (coerce I t) values) as [allowed| |]; simpl;
      try discriminate.
    destruct (create_dynamic_enum I _ allowed) as [en| |]; simpl;
      try discriminate.
    destruct (expand_dims _ _) as [ty| |] eqn:E; simpl; try discriminate.
    intros [= <- <-]. split; [reflexivity|]. exists en.
    split; [exact E|]. split; [reflexivity | discriminate].
  - simpl. destruct (expand_dims _ _) as [ty| |] eqn:E; simpl;
      try discriminate.
    intros [= <- <-]. split; [reflexivity|]. exists t.
    split; [exact E|]. split; reflexivity.
Qed.

Lemma field_definition_name model_name field t n def :
  field_definition I model_name field t = Ok (n, def) -> n = fs_name field.
Proof. intros H. exact (proj1 (field_definition_entry _ _ _ _ _ H)). Qed.


(** *** The loop and the resolver keep [call_ok] *)

(** The loop over the fields inherits [call_ok] from the resolver, and
    the dict it returns holds only declared names. *)
Lemma build_fields_ok (get_dtype : Maker -> string -> Maker * result PyType)
    (F : nat) (model_name : string) :
  (forall self name, call_ok F self (get_dtype self name)) ->
  forall fields self acc,
    call_ok F self (build_fields I get_dtype model_name self fields acc) /\
    forall d,
      (build_fields I get_dtype model_name self fields acc).2 = Ok d ->
      forall k, In k (dict_keys d) ->
                In k (dict_keys acc) \/ In k (map fs_name fields).
Proof.
  intros Hget. induction fields as [|field rest IH]; intros self acc.
  - simpl. split; [apply call_ok_return|].
    intros d [= <-] k Hk. left. exact Hk.
  - simpl.
    pose proof (Hget self (dtype (specification field))) as Hg.
    destruct (get_dtype self (dtype (specification field))) as [self1 r].
    destruct Hg as (Hs & Hi & Hb & Hf). simpl in Hs, Hi, Hb, Hf.
    destruct r as [t|e|]; simpl.
    + pose proof (field_definition_fuel model_name field t) as Hfd.
      destruct (field_definition I model_name field t) as [[n def]|e|] eqn:Ed;
        [|clear IH|contradiction].
      * apply field_definition_name in Ed. subst n.
        destruct (IH self1 (dict_set (fs_name field) def acc))
          as ((Hs' & Hi' & Hb' & Hf') & Hk').
        assert (Hm : measure self1 = measure self).
        { unfold measure. rewrite Hs, (Hb t eq_refl). reflexivity. }
        split.
        -- repeat split.
           ++ rewrite Hs'. exact Hs.
           ++ intros H. apply Hi', Hi, H.
           ++ intros a Ha. rewrite (Hb' a Ha). apply (Hb t eq_refl).
           ++ intros Hlt. apply Hf'. rewrite Hm. exact Hlt.
        -- intros d Hd k Hk. destruct (Hk' d Hd k Hk) as [H | H].
           ++ apply dict_keys_set in H as [-> | H];
                [right; left; reflexivity | left; exact H].
           ++ right. right. exact H.
      * split; [|discriminate].
        repeat split; simpl; try discriminate; assumption.
    + split; [|discriminate].
      repeat split; simpl; try discriminate; assumption.
    + split; [|discriminate].
      repeat split; simpl; try discriminate; try assumption.
      intros Hlt. destruct (Hf Hlt eq_refl).
Qed.

Lemma measure_building (self : Maker) (name : string) spec :
  _custom_dtype_specs self !! name = Some spec ->
  name ∉ _building self ->
  (measure {| _custom_models := _custom_models self;
              _building := {[name]} ∪ _building self;
              _custom_dtype_specs := _custom_dtype_specs self |}
   < measure self)%nat.
Proof.
  intros Hspec Hnot. unfold measure. simpl.
  apply subset_size.
  assert (Hdom : name ∈ dom (_custom_dtype_specs self))
    by (apply elem_of_dom; eexists; exact Hspec).
  set_solver.
Qed.

(** [_get_dtype] with fuel [fuel] satisfies [call_ok] at bound [fuel]. *)
Lemma get_dtype_ok (fuel : nat) :
  forall self name, call_ok fuel self (_get_dtype I fuel self name).
Proof.
  induction fuel as [|fuel IH]; intros self name.
  - simpl. repeat split; simpl; try discriminate; [trivial|lia].
  - simpl.
    destruct (_get_primitive_dtype name); [apply call_ok_return|].
    destruct (String.eqb (lower name) "bbox"); [apply call_ok_return|].
    destruct (_custom_models self !! name) eqn:Ecache; [apply call_ok_return|].
    destruct (decide (name ∈ _building self)) as [Hin|Hnot];
      [apply call_ok_raise|].
    destruct (_custom_dtype_specs self !! name) as [spec|] eqn:Espec;
      [|apply call_ok_raise].
    unfold _build_model_with.
    set (self1 := {| _custom_models := _custom_models self;
                     _building := {[name]} ∪ _building self;
                     _custom_dtype_specs := _custom_dtype_specs self |}).
    destruct (build_fields_ok (_get_dtype I fuel) fuel (cd_name spec) IH
                (cd_fields spec) self1 [])
      as ((Hs & Hi & Hb & Hf) & Hk).
    destruct (build_fields I (_get_dtype I fuel) (cd_name spec) self1
                (cd_fields spec) []) as [self2 r].
    simpl in Hs, Hi, Hb, Hf, Hk.
    destruct r as [d|e|]; simpl.
    + pose proof (create_model_fuel (cd_name spec) d) as Hcm.
      unfold create_model in *.
      destruct (ext_model_error I (cd_name spec) (dict_keys d)); simpl.
      * repeat split; simpl; try discriminate; assumption.
      * repeat split; simpl; try discriminate.
        -- exact Hs.
        -- intros Hinv n m Hn. simpl in Hn.
           destruct (decide (name = n)) as [<- | Hne].
           ++ rewrite lookup_insert_eq in Hn. injection Hn as <-.
              exists spec. split; [rewrite Hs; exact Espec|].
              eexists. split; [reflexivity|].
              intros k Hkd. apply dict_keys_filter in Hkd.
              destruct (Hk d eq_refl k Hkd) as [[] | H]. exact H.
           ++ rewrite lookup_insert_ne in Hn by exact Hne.
              apply (Hi Hinv n m Hn).
        -- intros _ _. rewrite (Hb d eq_refl). simpl. set_solver.
    + repeat split; simpl; try discriminate; assumption.
    + repeat split; simpl; try discriminate; try assumption.
      intros Hlt _. apply Hf; [|reflexivity].
      pose proof (measure_building self name spec Espec Hnot) as Hm.
      fold self1 in Hm. lia.
Qed.

Lemma make_unfold self config :
  make I self config
  = _build_model I (S (size (register_specs (custom_dtypes config))))
      (fresh config) (sc_name config) (sc_fields config).
Proof. reflexivity. Qed.

Lemma measure_fresh config :
  measure (fresh config) = size (register_specs (custom_dtypes config)).
Proof.
  unfold measure, fresh. simpl.
  rewrite difference_empty_L. apply size_dom.
Qed.

Lemma cache_ok_fresh config : cache_ok (fresh config).
Proof. intros n m H. simpl in H. rewrite lookup_empty in H. discriminate H. Qed.

(** [make] returns or raises: the fuel it starts with is never used up. *)
Lemma make_never_out_of_fuel self config :
  (make I self config).2 <> OutOfFuel.
Proof.
  rewrite make_unfold. unfold _build_model, _build_model_with.
  set (fuel := S (size (register_specs (custom_dtypes config)))).
  destruct (build_fields_ok (_get_dtype I fuel) fuel (sc_name config)
              (get_dtype_ok fuel) (sc_fields config) (fresh config) [])
    as ((_ & _ & _ & Hf) & _).
  destruct (build_fields I (_get_dtype I fuel) (sc_name config) (fresh config)
              (sc_fields config) []) as [self' r].
  simpl in Hf. simpl.
  assert (Hlt : (measure (fresh config) < fuel)%nat)
    by (rewrite measure_fresh; unfold fuel; lia).
  destruct r; simpl; [apply create_model_fuel|discriminate|].
  intros _. exact (Hf Hlt eq_refl).
Qed.

(** What [make] leaves behind and returns on success. *)
Lemma make_built self config m :
  (make I self config).2 = Ok m ->
  built_from m (sc_name config) (sc_fields config) /\
  cache_ok (make I self config).1 /\
  _building (make I self config).1 = ∅ /\
  _custom_dtype_specs (make I self config).1
  = register_specs (custom_dtypes config).
Proof.
  rewrite make_unfold. unfold _build_model, _build_model_with.
  set (fuel := S (size (register_specs (custom_dtypes config)))).
  destruct (build_fields_ok (_get_dtype I fuel) fuel (sc_name config)
              (get_dtype_ok fuel) (sc_fields config) (fresh config) [])
    as ((Hs & Hi & Hb & _) & Hk).
  destruct (build_fields I (_get_dtype I fuel) (sc_name config) (fresh config)
              (sc_fields config) []) as [self' r].
  simpl in Hs, Hi, Hb, Hk. simpl.
  destruct r as [d| |]; simpl; try discriminate.
  unfold create_model.
  destruct (ext_model_error I (sc_name config) (dict_keys d)); [discriminate|].
  intros [= <-]. repeat apply conj.
  - eexists. split; [reflexivity|].
    intros k Hkd. apply dict_keys_filter in Hkd.
    destruct (Hk d eq_refl k Hkd) as [[] | H]. exact H.
  - apply Hi, cache_ok_fresh.
  - exact (Hb d eq_refl).
  - exact Hs.
Qed.

(** *** Base types, the loop in two halves *)




(** *** The cache only grows *)

Lemma build_fields_persists
    (get_dtype : Maker -> string -> Maker * result PyType) model_name :
  (forall self n, persists self (get_dtype self n)) ->
  forall fields self acc,
    persists self (build_fields I get_dtype model_name self fields acc).
Proof.
  intros Hget. induction fields as [|f rest IH]; intros self acc k v Hk;
    [exact Hk|].
  simpl. pose proof (Hget self (dtype (specification f)) k v Hk) as H1.
  destruct (get_dtype self (dtype (specification f))) as [self1 r].
  simpl in H1.
  destruct r as [t| |]; simpl; try exact H1.
  destruct (field_definition I model_name f t) as [[n def]| |]; try exact H1.
  apply IH. exact H1.
Qed.

Lemma get_dtype_persists fuel :
  forall self n, persists self (_get_dtype I fuel self n).
Proof.
  induction fuel as [|fuel IH]; intros self n k v Hk; [exact Hk|].
  simpl.
  destruct (_get_primitive_dtype n); [exact Hk|].
  destruct (String.eqb (lower n) "bbox"); [exact Hk|].
  destruct (_custom_models self !! n) eqn:Ecache; [exact Hk|].
  destruct (decide (n ∈ _building self)); [exact Hk|].
  destruct (_custom_dtype_specs self !! n) as [spec|]; [|exact Hk].
  unfold _build_model_with.
  pose proof (build_fields_persists (_get_dtype I fuel) (cd_name spec) IH
                (cd_fields spec)
                {| _custom_models := _custom_models self;
                   _building := {[n]} ∪ _building self;
                   _custom_dtype_specs := _custom_dtype_specs self |} []
                k v Hk) as H2.
  destruct (build_fields I (_get_dtype I fuel) (cd_name spec) _
              (cd_fields spec) []) as [self2 r].
  simpl in H2. destruct r as [d| |]; simpl; try exact H2.
  destruct (create_model I (cd_name spec) d); simpl; try exact H2.
  rewrite lookup_insert_ne; [exact H2|].
  intros ->. rewrite Ecache in Hk. discriminate Hk.
Qed.

Lemma get_dtype_caches fuel self n self' m :
  base_of n = None ->
  _get_dtype I fuel self n = (self', Ok m) ->
  _custom_models self' !! n = Some m.
Proof.
  intros Hb. destruct fuel as [|fuel]; [discriminate|]. simpl.
  unfold base_of in Hb.
  destruct (_get_primitive_dtype n); [discriminate Hb|].
  destruct (String.eqb (lower n) "bbox"); [discriminate Hb|].
  destruct (_custom_models self !! n) eqn:Ecache.
  { intros [= <- <-]. exact Ecache. }
  destruct (decide (n ∈ _building self)); [discriminate|].
  destruct (_custom_dtype_specs self !! n) as [spec|]; [|discriminate].
  destruct (_build_model_with I (_get_dtype I fuel) _ (cd_name spec)
              (cd_fields spec)) as [self2 r].
  destruct r as [model| |]; try discriminate.
  intros [= <- <-]. simpl. apply lookup_insert_eq.
Qed.

Lemma get_dtype_hit fuel self n m :
  base_of n = None ->
  _custom_models self !! n = Some m ->
  _get_dtype I (S fuel) self n = (self, Ok m).
Proof.
  intros Hb Hm. simpl. unfold base_of in Hb.
  destruct (_get_primitive_dtype n); [discriminate Hb|].
  destruct (String.eqb (lower n) "bbox"); [discriminate Hb|].
  rewrite Hm. reflexivity.
Qed.

(** *** The keys of the dict the loop builds *)


(** *** The cache stays sound *)






(** *** What [builds] promises *)





(** *** The walk *)












(** *** Built classes conform to the specification *)

(** A field definition on a model class was made without allowed
    values: they cannot be coerced to a model. *)
Lemma field_definition_on_model model_name f name extra flds n def :
  field_definition I model_name f (TModel name extra flds) = Ok (n, def) ->
  expand_dims (dim (specification f)) (TModel name extra flds) = Ok def.1.
Proof.
  intros H.
  destruct (field_definition_entry _ _ _ _ _ H) as (_ & base & He & _ & Hb).
  destruct (allowed_values_set (specification f)) as [values|] eqn:Ea.
  - exfalso. unfold field_definition in H. rewrite Ea in H.
    unfold allowed_values_set in Ea.
    destruct (allowed_values (specification f)) as [[|v l]|];
      try discriminate Ea.
    injection Ea as <-. discriminate H.
  - rewrite <- (Hb eq_refl). exact He.
Qed.

Section Conforms.
Variable specs : gmap string CustomDTypeSpec.

Lemma build_fields_conforms get_dtype model_name :
  resolver_conforms specs get_dtype ->
  forall fields self acc tbl,
    works_on specs self -> entries_conform specs acc tbl ->
    works_on specs (build_fields I get_dtype model_name self fields acc).1 /\
    forall flds,
      (build_fields I get_dtype model_name self fields acc).2 = Ok flds ->
      entries_conform specs flds
        (dict_merge tbl (map (fun f => (fs_name f, specification f)) fields)).
Proof.
  intros Hget. induction fields as [|f rest IH]; intros self acc tbl Hg Hr.
  - simpl. split; [exact Hg|]. intros flds [= <-]. exact Hr.
  - cbn [build_fields].
    destruct (Hget self (dtype (specification f)) Hg) as (Hg1 & Hm).
    destruct (get_dtype self (dtype (specification f))) as [self1 r].
    simpl in Hg1, Hm.
    destruct r as [t| |]; cbn [bind]; try (split; [exact Hg1|discriminate]).
    destruct (field_definition I model_name f t) as [[n def]| |] eqn:Ed;
      try (split; [exact Hg1|discriminate]).
    pose proof (field_definition_name _ _ _ _ _ Ed) as ->.
    apply (IH self1 _ (dict_set (fs_name f) (specification f) tbl) Hg1).
    intros k ty dflt fspec. rewrite !dict_get_set_other.
    destruct (String.eqb k (fs_name f)); [|apply Hr].
    intros [= ->] [= <-] Hbase.
    destruct (Hm t eq_refl Hbase) as (spec & Hspec & Hconf).
    inversion Hconf as [? name flds0 ? ?]; subst.
    refine (entry_conforms_custom specs _ _ spec _ Hspec _ Hconf).
    exact (field_definition_on_model _ _ _ _ _ _ _ Ed).
Qed.

Lemma get_dtype_conforms fuel : resolver_conforms specs (_get_dtype I fuel).
Proof.
  induction fuel as [|fuel IH]; intros self n Hg.
  { simpl. split; [exact Hg | discriminate]. }
  cbn [_get_dtype]. unfold base_of.
  destruct (_get_primitive_dtype n);
    [split; [exact Hg | intros m _; discriminate]|].
  destruct (String.eqb (lower n) "bbox");
    [split; [exact Hg | intros m _; discriminate]|].
  destruct (_custom_models self !! n) as [m0|] eqn:Ecache.
  { split; [exact Hg|]. simpl. intros m [= <-] _.
    destruct Hg as (Hsp & Hc). destruct (Hc n m0 Ecache) as (spec & H1 & H2).
    rewrite Hsp in H1, H2. exists spec. split; assumption. }
  destruct (decide (n ∈ _building self)); [split; [exact Hg | discriminate]|].
  destruct (_custom_dtype_specs self !! n) as [spec|] eqn:Espec;
    [|split; [exact Hg | discriminate]].
  unfold _build_model_with.
  set (self1 := {| _custom_models := _custom_models self;
                   _building := {[n]} ∪ _building self;
                   _custom_dtype_specs := _custom_dtype_specs self |}).
  assert (Hg1 : works_on specs self1) by exact Hg.
  destruct (build_fields_conforms (_get_dtype I fuel) (cd_name spec) IH
              (cd_fields spec) self1 [] [] Hg1) as (Hg2 & Hent).
  { intros k ty dflt fspec H. discriminate H. }
  destruct (build_fields_ok (_get_dtype I fuel) fuel (cd_name spec)
              (get_dtype_ok fuel) (cd_fields spec) self1 [])
    as (_ & Hkeys).
  destruct (build_fields I (_get_dtype I fuel) (cd_name spec) self1
              (cd_fields spec) []) as [self2 r].
  simpl in Hg2, Hent, Hkeys.
  destruct r as [d| |]; simpl; try (split; [exact Hg2 | discriminate]).
  unfold create_model.
  destruct (ext_model_error I (cd_name spec) (dict_keys d)); simpl;
    [split; [exact Hg2 | discriminate]|].
  destruct Hg as (Hsp & _). destruct Hg2 as (Hsp2 & Hc2).
  rewrite Hsp in Espec.
  assert (Hconf : conforms specs (cd_fields spec)
                    (TModel (cd_name spec) ExtraForbid
                       (List.filter (fun kv => ext_is_field I kv.1) d))).
  { constructor.
    - intros k Hk. apply dict_keys_filter in Hk.
      destruct (Hkeys d eq_refl k Hk) as [[] | H]. exact H.
    - intros k ty dflt fspec Hget. rewrite dict_get_filter in Hget.
      destruct (ext_is_field I k); [|discriminate Hget].
      exact (Hent d eq_refl k ty dflt fspec Hget). }
  split.
  - split; [exact Hsp2|]. intros k m Hk. simpl in Hk. simpl.
    destruct (decide (n = k)) as [<- | Hne].
    + rewrite lookup_insert_eq in Hk. injection Hk as <-.
      exists spec. rewrite Hsp2. split; [exact Espec | exact Hconf].
    + rewrite lookup_insert_ne in Hk by exact Hne. exact (Hc2 k m Hk).
  - intros m [= <-] _. exists spec. split; [exact Espec | exact Hconf].
Qed.

End Conforms.

(** The model that [make] returns conforms to the root specification,
    and so does every cached model to its own. *)
Lemma make_conforms self config m :
  (make I self config).2 = Ok m ->
  conforms (register_specs (custom_dtypes config)) (sc_fields config) m /\
  cache_conforms (make I self config).1 /\
  _custom_dtype_specs (make I self config).1
  = register_specs (custom_dtypes config).
Proof.
  rewrite make_unfold. unfold _build_model, _build_model_with.
  set (specs := register_specs (custom_dtypes config)).
  set (fuel := S (size specs)).
  assert (Hg : _custom_dtype_specs (fresh config) = specs /\
               cache_conforms (fresh config)).
  { split; [reflexivity|]. intros n x H. simpl in H.
    rewrite lookup_empty in H. discriminate H. }
  destruct (build_fields_conforms specs (_get_dtype I fuel) (sc_name config)
              (get_dtype_conforms specs fuel) (sc_fields config)
              (fresh config) [] [] Hg) as ((Hsp & Hc) & Hent).
  { intros k ty dflt fspec H. discriminate H. }
  destruct (build_fields_ok (_get_dtype I fuel) fuel (sc_name config)
              (get_dtype_ok fuel) (sc_fields config) (fresh config) [])
    as (_ & Hkeys).
  destruct (build_fields I (_get_dtype I fuel) (sc_name config) (fresh config)
              (sc_fields config) []) as [self' r].
  simpl in Hsp, Hc, Hent, Hkeys. simpl.
  destruct r as [d| |]; simpl; try discriminate.
  unfold create_model.
  destruct (ext_model_error I (sc_name config) (dict_keys d)); [discriminate|].
  intros [= <-]. split; [|split; assumption].
  constructor.
  - intros k Hk. apply dict_keys_filter in Hk.
    destruct (Hkeys d eq_refl k Hk) as [[] | H]. exact H.
  - intros k ty dflt fspec Hget. rewrite dict_get_filter in Hget.
    destruct (ext_is_field I k); [|discriminate Hget].
    exact (Hent d eq_refl k ty dflt fspec Hget).
Qed.

End WithInterp.

(** *** What the validator of a conforming class asks of a document *)
Section Documents.
Variable scalar_ok : PyType -> PyVal -> bool.

Lemma validate_model_field name extra flds d k ty dflt :
  validate scalar_ok (TModel name extra flds) (VDict d) = true ->
  dict_get k flds = Some (ty, dflt) ->
  match dict_get k d with
  | Some x => validate scalar_ok ty x = true
  | None => dflt = DefaultNone
  end.
Proof.
  cbn [validate]. intros H. apply andb_true_iff in H as [_ H]. revert H.
  induction flds as [|[k0 [ft df]] flds IH]; intros H Hget;
    [discriminate Hget|].
  apply andb_true_iff in H as [Hhead Hrest].
  cbn [dict_get] in Hget.
  destruct (String.eqb_spec k k0) as [->|_].
  - injection Hget as -> ->.
    destruct (dict_get k0 d) as [x|]; [exact Hhead|].
    destruct dflt; [reflexivity | discriminate Hhead].
  - exact (IH Hrest Hget).
Qed.

Lemma validate_list_inv elem x :
  validate scalar_ok (TList elem) x = true ->
  exists l, x = VList l /\ Forall (fun y => validate scalar_ok elem y = true) l.
Proof.
  cbn [validate]. destruct x; try discriminate.
  intros H. eexists. split; [reflexivity|].
  apply List.Forall_forall. intros y Hy.
  exact (proj1 (forallb_forall _ _) H y Hy).
Qed.

(** A closed class takes only mappings whose keys are its fields. *)
Lemma validate_closed name flds v :
  validate scalar_ok (TModel name ExtraForbid flds) v = true ->
  exists d, v = VDict d /\
            forall k, In k (dict_keys d) -> dict_mem k flds = true.
Proof.
  cbn [validate]. destruct v; try discriminate.
  intros H. apply andb_true_iff in H as [H _].
  eexists. split; [reflexivity|].
  intros k Hk. exact (proj1 (forallb_forall _ _) H k Hk).
Qed.

(** What a field of dimension [dim] holds is valid for the base type. *)
Lemma validate_element dm base ty x e :
  expand_dims dm base = Ok ty ->
  element dm x e ->
  validate scalar_ok ty x = true ->
  validate scalar_ok base e = true.
Proof.
  intros He Hel Hv. unfold expand_dims in He.
  inversion Hel as [y | l y Hin | l l' y Hin1 Hin2]; subst; simpl in He;
    injection He as <-.
  - exact Hv.
  - destruct (validate_list_inv _ _ Hv) as (l0 & [= <-] & Hall).
    exact (proj1 (List.Forall_forall _ _) Hall e Hin).
  - destruct (validate_list_inv _ _ Hv) as (l0 & [= <-] & Hall).
    pose proof (proj1 (List.Forall_forall _ _) Hall _ Hin1) as Hv1.
    destruct (validate_list_inv _ _ Hv1) as (l1 & [= <-] & Hall1).
    exact (proj1 (List.Forall_forall _ _) Hall1 e Hin2).
Qed.

(** In a document that a conforming class takes, every structure holds
    declared names only. *)
Lemma conforms_inside specs fields doc fields' v :
  inside specs fields doc fields' v ->
  forall m,
    conforms specs fields m ->
    validate scalar_ok m doc = true ->
    exists d', v = VDict d' /\
               forall k, In k (dict_keys d') -> In k (map fs_name fields').
Proof.
  induction 1 as [fields v | fields d k fspec spec x e fields' v
                                Htbl Hbase Hspec Hx Hel _ IH];
    intros m Hconf Hval.
  - inversion Hconf as [? name flds Hkeys Hent]; subst.
    destruct (validate_closed _ _ _ Hval) as (d & -> & Hd).
    exists d. split; [reflexivity|].
    intros k Hk. apply Hkeys, dict_mem_keys, Hd, Hk.
  - inversion Hconf as [? name flds Hkeys Hent]; subst.
    destruct (validate_closed _ _ _ Hval) as (d0 & [= <-] & Hd).
    pose proof (Hd k (dict_get_keys _ _ _ Hx)) as Hmem.
    unfold dict_mem in Hmem.
    destruct (dict_get k flds) as [[ty dflt]|] eqn:Ek; [|discriminate Hmem].
    pose proof (validate_model_field _ _ _ _ _ _ _ Hval Ek) as Hv.
    rewrite Hx in Hv.
    pose proof (Hent k ty dflt fspec Ek Htbl Hbase) as Hentry.
    inversion Hentry as [? ? spec0 base Hspec0 Hdim Hconf0]; subst.
    rewrite Hspec in Hspec0. injection Hspec0 as <-.
    apply (IH base Hconf0).
    exact (validate_element _ _ _ _ _ Hdim Hel Hv).
Qed.

End Documents.
End SchemaMakerFacts.

(* ===================================================================== *)
(** * The schema model maker: the claims *)
(* ===================================================================== *)
Module SchemaMakerSpec.
Import Py PyFacts DictFacts SchemaMaker SchemaMakerFacts.

(** Claim C2. When [make] returns a model, its validator rejects every
    document that holds, at the root or in any value that stands where
    the specification puts a custom type (under a field of that dtype,
    through the lists of its [dim], at any depth), a field name that the
    specification of that structure does not declare; and the validator
    of every custom-type model built during that call (the entries of
    [_custom_models]) does the same for the specification registered
    under its name. *)
Theorem C2_undeclared_fields_rejected :
  forall (I : Interp) (scalar_ok : PyType -> PyVal -> bool)
         (self : Maker) (config : SchemaConfig) (m : PyType),
    (make I self config).2 = Ok m ->
    (forall doc fields' d k,
       inside (register_specs (custom_dtypes config)) (sc_fields config)
         doc fields' (VDict d) ->
       In k (dict_keys d) -> ~ In k (map fs_name fields') ->
       validate scalar_ok m doc = false) /\
    (forall n cm,
       _custom_models (make I self config).1 !! n = Some cm ->
       exists spec,
         register_specs (custom_dtypes config) !! n = Some spec /\
         forall doc fields' d k,
           inside (register_specs (custom_dtypes config)) (cd_fields spec)
             doc fields' (VDict d) ->
           In k (dict_keys d) -> ~ In k (map fs_name fields') ->
           validate scalar_ok cm doc = false).
Proof.
  intros I scalar_ok self config m Hm.
  destruct (make_conforms I self config m Hm) as (Hroot & Hcache & Hspecs).
  assert (Hrej : forall fields cls doc fields' d k,
            conforms (register_specs (custom_dtypes config)) fields cls ->
            inside (register_specs (custom_dtypes config)) fields doc fields'
              (VDict d) ->
            In k (dict_keys d) -> ~ In k (map fs_name fields') ->
            validate scalar_ok cls doc = false).
  { intros fields cls doc fields' d k Hconf Hin Hk Hnot.
    apply not_true_iff_false. intros Hval.
    destruct (conforms_inside scalar_ok _ _ _ _ _ Hin cls Hconf Hval)
      as (d' & [= <-] & Hdecl).
    exact (Hnot (Hdecl k Hk)). }
  split.
  - intros doc fields' d k. exact (Hrej _ m doc fields' d k Hroot).
  - intros n cm Hn. destruct (Hcache n cm Hn) as (spec & Hspec & Hconf).
    rewrite Hspecs in Hspec, Hconf. exists spec. split; [exact Hspec|].
    intros doc fields' d k. exact (Hrej _ cm doc fields' d k Hconf).
Qed.

(** Claim C8. [make] starts by replacing the cache, the in-progress set
    and the registry, so its outcome does not depend on what the maker
    held: a second [make] of the same configuration on the same instance
    has the outcome of the first (the same model, or the same exception),
    leaves the maker in the same state, and when the first call yields a
    validator the second yields one that accepts exactly the same
    documents. The call always returns or raises. *)
Theorem C8_make_twice_same_validator :
  forall (I : Interp) (scalar_ok : PyType -> PyVal -> bool)
         (self : Maker) (config : SchemaConfig),
    let first := make I self config in
    let second := make I first.1 config in
    (forall self', make I self' config = first) /\
    second = first /\
    first.2 <> OutOfFuel /\
    (forall m1,
       first.2 = Ok m1 ->
       exists m2,
         second.2 = Ok m2 /\
         forall doc, validate scalar_ok m2 doc = validate scalar_ok m1 doc).
Proof.
  intros I scalar_ok self config first second.
  assert (Hreset : forall self', make I self' config = first)
    by (intros self'; reflexivity).
  split; [exact Hreset|]. split; [apply Hreset|].
  split; [apply make_never_out_of_fuel|].
  intros m1 H1. exists m1. split; [|reflexivity].
  unfold second. rewrite Hreset. exact H1.
Qed.

Lemma C2_undeclared_fields_rejected_witness :
  exists m,
    (make no_ext init nested_config).2 = Ok m /\
    validate by_value m
      (VDict [("id", VInt 1);
              ("lines",
               VList [VDict [("text", VStr "t");
                             ("box",
                              VDict [("area", VDict [("x1", VInt 0);
                                                     ("y1", VInt 0);
                                                     ("x2", VInt 4);
                                                     ("y2", VInt 4)]);
                                     ("page", VInt 1);
                                     ("zoom", VInt 2)])]])])
    = false.
Proof.
  eexists. split; [vm_compute; reflexivity|].
  refine (proj1 (C2_undeclared_fields_rejected no_ext by_value init
                   nested_config _ eq_refl) _
            [field "area" "bbox" 0 None false;
             field "page" "int" 0 None false]
            _ "zoom" _ _ _).
  - eapply (inside_field _ _ _ "lines");
      [reflexivity | reflexivity | vm_compute; reflexivity | reflexivity
      | apply element_list; left; reflexivity |].
    eapply (inside_field _ _ _ "box");
      [reflexivity | reflexivity | vm_compute; reflexivity | reflexivity
      | apply element_scalar |].
    apply inside_here.
  - simpl. right. right. left. reflexivity.
  - simpl. intros [H | [H | []]]; discriminate H.
Defined.

Lemma C8_make_twice_same_validator_witness :
  exists m,
    (make no_ext init nested_config).2 = Ok m /\
    (make no_ext (make no_ext init nested_config).1 nested_config).2 = Ok m.
Proof.
  eexists. split; [vm_compute; reflexivity|].
  destruct (C8_make_twice_same_validator no_ext (fun _ _ => true) init
              nested_config) as (_ & H & _).
  cbv zeta in H. rewrite H. vm_compute. reflexivity.
Defined.

(** The reset is what makes the second call independent of the first:
    [_build_model] run on what a previous [make] left behind reuses the
    stale model cached under a name, where [make] builds the one the new
    configuration registers. *)
Example stale_cache_without_reset :
  let old :=
    {| sc_name := "R"; sc_fields := [field "t" "T" 0 None false];
       custom_dtypes :=
         [{| cd_name := "T"; cd_fields := [field "x" "int" 0 None false] |}] |} in
  let new :=
    {| sc_name := "R"; sc_fields := [field "t" "T" 0 None false];
       custom_dtypes :=
         [{| cd_name := "T"; cd_fields := [field "y" "str" 0 None false] |}] |} in
  let left_behind := (make no_ext init old).1 in
  (_build_model no_ext 2 left_behind (sc_name new) (sc_fields new)).2
  <> (make no_ext left_behind new).2.
Proof. vm_compute. discriminate. Qed.

(** ** Enumerations *)

Section EnumMembers.
Variable key : PyVal -> string.



End EnumMembers.

Section Enum.
Variable I : Interp.




End Enum.





(** ** Cycles *)




End SchemaMakerSpec.

(* ===================================================================== *)
(** * Bounding boxes *)
(* ===================================================================== *)
Module ImageBBoxSpec.
Import Py PyFacts ImageBBox.

Lemma new_ok a b c d :
  0 <= a -> 0 <= b -> 0 <= c -> 0 <= d ->
  new a b c d = Ok {| x1 := a; y1 := b; x2 := c; y2 := d |}.
Proof.
  intros Ha Hb Hc Hd. unfold new.
  rewrite !(proj2 (Z.leb_le 0 _)) by assumption. reflexivity.
Qed.

Lemma new_valid a b c d r : new a b c d = Ok r -> valid r.
Proof.
  unfold new.
  destruct (0 <=? a) eqn:Ea, (0 <=? b) eqn:Eb, (0 <=? c) eqn:Ec,
           (0 <=? d) eqn:Ed; simpl; try discriminate.
  intros [= <-]. apply Z.leb_le in Ea, Eb, Ec, Ed.
  repeat split; assumption.
Qed.

(** The ordering step: the box that [validate_ordering] returns. *)
Lemma ordering_step b :
  valid b ->
  validate_ordering b
  = Ok {| x1 := Z.min (x1 b) (x2 b); y1 := Z.min (y1 b) (y2 b);
          x2 := Z.max (x1 b) (x2 b); y2 := Z.max (y1 b) (y2 b) |}.
Proof.
  destruct b as [bx1 by1 bx2 by2]. intros (H1 & H2 & H3 & H4). simpl in *.
  unfold validate_ordering. simpl.
  destruct (Z.leb_spec bx1 bx2); destruct (Z.leb_spec by1 by2).
  all: rewrite new_ok by assumption.
  all: do 2 f_equal; lia.
Qed.

(** [validate_ordering] on a valid box returns the box with its corners
    in order: the smaller coordinate first on each axis, the same width,
    height and area, the width and height now plain differences; applied
    again it changes nothing. *)
Theorem validate_ordering_orders :
  forall b, valid b ->
    exists b',
      validate_ordering b = Ok b' /\
      x1 b' = Z.min (x1 b) (x2 b) /\ x2 b' = Z.max (x1 b) (x2 b) /\
      y1 b' = Z.min (y1 b) (y2 b) /\ y2 b' = Z.max (y1 b) (y2 b) /\
      width b' = width b /\ height b' = height b /\ area b' = area b /\
      width b' = x2 b' - x1 b' /\ height b' = y2 b' - y1 b' /\
      valid b' /\ validate_ordering b' = Ok b'.
Proof.
  intros b Hb. eexists. split; [exact (ordering_step b Hb)|].
  destruct Hb as (H1 & H2 & H3 & H4).
  assert (Hw : Z.abs (Z.max (x1 b) (x2 b) - Z.min (x1 b) (x2 b))
               = Z.abs (x2 b - x1 b)) by lia.
  assert (Hh : Z.abs (Z.max (y1 b) (y2 b) - Z.min (y1 b) (y2 b))
               = Z.abs (y2 b - y1 b)) by lia.
  assert (Ha : Z.abs (Z.max (x1 b) (x2 b) - Z.min (x1 b) (x2 b))
               * Z.abs (Z.max (y1 b) (y2 b) - Z.min (y1 b) (y2 b))
               = Z.abs (x2 b - x1 b) * Z.abs (y2 b - y1 b))
    by (rewrite Hw, Hh; reflexivity).
  assert (Hv : valid {| x1 := Z.min (x1 b) (x2 b); y1 := Z.min (y1 b) (y2 b);
                        x2 := Z.max (x1 b) (x2 b); y2 := Z.max (y1 b) (y2 b) |})
    by (unfold valid; simpl; lia).
  unfold area, width, height. simpl.
  repeat apply conj; try reflexivity; try exact Hw; try exact Hh;
    try exact Ha; try (simpl; lia).
  rewrite (ordering_step _ Hv). simpl. do 2 f_equal; lia.
Qed.


Lemma validate_ordering_orders_witness :
  exists b',
    validate_ordering {| x1 := 40; y1 := 5; x2 := 10; y2 := 25 |} = Ok b' /\
    to_tuple b' = (10, 5, 40, 25) /\ area b' = 600.
Proof.
  destruct (validate_ordering_orders {| x1 := 40; y1 := 5; x2 := 10; y2 := 25 |})
    as (b' & E & Hx1 & Hx2 & Hy1 & Hy2 & _ & _ & Ha & _).
  - unfold valid. simpl. lia.
  - exists b'. split; [exact E|]. split.
    + unfold to_tuple. rewrite Hx1, Hx2, Hy1, Hy2. reflexivity.
    + rewrite Ha. reflexivity.
Defined.

(** [from_dict] undoes [to_dict] on every valid box, whatever pydantic
    does with values that are not integers; a box with a negative
    coordinate (one that did not come from the constructor) is refused. *)
Theorem from_dict_to_dict :
  forall (lax_int : PyVal -> option Z) (b : BBox),
    (valid b -> from_dict lax_int (to_dict b) = Ok b) /\
    (~ valid b -> from_dict lax_int (to_dict b) = Raise ValidationError).
Proof.
  intros lax_int [a b c d]. unfold valid, from_dict, to_dict. simpl. split.
  - intros (H1 & H2 & H3 & H4). apply new_ok; assumption.
  - intros Hn. unfold new.
    destruct (0 <=? a) eqn:Ea, (0 <=? b) eqn:Eb, (0 <=? c) eqn:Ec,
             (0 <=? d) eqn:Ed; simpl; try reflexivity.
    exfalso. apply Hn. apply Z.leb_le in Ea, Eb, Ec, Ed.
    repeat apply conj; assumption.
Qed.

Lemma from_dict_to_dict_witness :
  from_dict (fun _ => None)
    (to_dict {| x1 := 1; y1 := 2; x2 := 3; y2 := 4 |})
  = Ok {| x1 := 1; y1 := 2; x2 := 3; y2 := 4 |}.
Proof.
  apply (proj1 (from_dict_to_dict (fun _ => None)
                  {| x1 := 1; y1 := 2; x2 := 3; y2 := 4 |})).
  unfold valid. simpl. lia.
Defined.

(** [from_dict] looks the four keys up before anything is validated: the
    first of [x1], [y1], [x2], [y2] that the dict lacks is reported as a
    [KeyError], whatever the other values are; once the four keys are
    there no [KeyError] is raised. *)
Theorem from_dict_missing_key :
  forall (lax_int : PyVal -> option Z) (d : Dict),
    (dict_get "x1" d = None -> from_dict lax_int d = Raise (KeyError "x1")) /\
    (dict_get "x1" d <> None -> dict_get "y1" d = None ->
     from_dict lax_int d = Raise (KeyError "y1")) /\
    (dict_get "x1" d <> None -> dict_get "y1" d <> None ->
     dict_get "x2" d = None ->
     from_dict lax_int d = Raise (KeyError "x2")) /\
    (dict_get "x1" d <> None -> dict_get "y1" d <> None ->
     dict_get "x2" d <> None -> dict_get "y2" d = None ->
     from_dict lax_int d = Raise (KeyError "y2")) /\
    (dict_get "x1" d <> None -> dict_get "y1" d <> None ->
     dict_get "x2" d <> None -> dict_get "y2" d <> None ->
     (exists b, from_dict lax_int d = Ok b /\ valid b) \/
     from_dict lax_int d = Raise ValidationError).
Proof.
  intros lax_int d. unfold from_dict, item.
  destruct (dict_get "x1" d) as [v1|]; simpl;
    [|repeat split; try reflexivity; intros H; contradiction].
  destruct (dict_get "y1" d) as [v2|]; simpl;
    [|repeat split; try reflexivity; try discriminate;
      intros; contradiction].
  destruct (dict_get "x2" d) as [v3|]; simpl;
    [|repeat split; try reflexivity; try discriminate;
      intros; contradiction].
  destruct (dict_get "y2" d) as [v4|]; simpl;
    [|repeat split; try reflexivity; try discriminate;
      intros; contradiction].
  repeat split; try discriminate. intros _ _ _ _.
  assert (Hint : forall v, (exists z, int_field lax_int v = Ok z) \/
                           int_field lax_int v = Raise ValidationError).
  { intros v. unfold int_field. destruct v; try (left; eexists; reflexivity);
      destruct (lax_int _); (left; eexists; reflexivity) || (right; reflexivity). }
  destruct (Hint v1) as [(z1 & ->) | ->]; simpl; [|right; reflexivity].
  destruct (Hint v2) as [(z2 & ->) | ->]; simpl; [|right; reflexivity].
  destruct (Hint v3) as [(z3 & ->) | ->]; simpl; [|right; reflexivity].
  destruct (Hint v4) as [(z4 & ->) | ->]; simpl; [|right; reflexivity].
  destruct (new z1 z2 z3 z4) as [b| |] eqn:En.
  - left. exists b. split; [reflexivity|]. exact (new_valid _ _ _ _ _ En).
  - right. unfold new in En. destruct (_ && _) in En; [discriminate|].
    injection En as <-. reflexivity.
  - unfold new in En. destruct (_ && _) in En; discriminate.
Qed.

Lemma from_dict_missing_key_witness :
  from_dict (fun _ => None) [("x1", VInt 1); ("x2", VInt (-7))]
  = Raise (KeyError "y1").
Proof.
  apply (proj1 (proj2 (from_dict_missing_key (fun _ => None)
                         [("x1", VInt 1); ("x2", VInt (-7))])));
    [discriminate | reflexivity].
Defined.

(** The box [crop_image] hands to the imaging library for a valid box has
    its left edge at or before its right edge and its top at or before its
    bottom, no negative coordinate, and the width and height of the box it
    was given. *)
Theorem crop_box_is_ordered :
  forall b, valid b ->
    exists l t r bt,
      crop_box b = Ok (l, t, r, bt) /\
      0 <= l <= r /\ 0 <= t <= bt /\
      r - l = width b /\ bt - t = height b.
Proof.
  intros b Hb. unfold crop_box. rewrite (ordering_step b Hb).
  do 4 eexists. split; [reflexivity|].
  destruct Hb as (H1 & H2 & H3 & H4). unfold width, height. simpl.
  repeat apply conj; lia.
Qed.

Lemma crop_box_is_ordered_witness :
  exists l t r bt,
    crop_box {| x1 := 9; y1 := 8; x2 := 3; y2 := 2 |} = Ok (l, t, r, bt) /\
    l <= r /\ t <= bt.
Proof.
  destruct (crop_box_is_ordered {| x1 := 9; y1 := 8; x2 := 3; y2 := 2 |})
    as (l & t & r & bt & E & Hx & Hy & _).
  - unfold valid. simpl. lia.
  - exists l, t, r, bt. split; [exact E|]. split; [apply Hx | apply Hy].
Defined.

(** The text [load_from_base64] hands to the decoder: a data URI gives up
    its prefix up to the first comma, so prefixing a payload with any
    header that holds no comma and loading it decodes the payload itself;
    any other non-empty text goes to the decoder unchanged; empty data and
    a data URI without comma are refused with a [ValueError]. *)
Theorem base64_payload_strips_prefix :
  (forall header payload,
     contains_char "," header = false ->
     base64_payload ("data:" ++ header ++ String "," payload) = Ok payload) /\
  (forall data,
     data <> "" -> startswith "data:" data = false ->
     base64_payload data = Ok data) /\
  (forall data,
     startswith "data:" data = true -> contains_char "," data = false ->
     base64_payload data = Raise (ValueError "Invalid data URI format")) /\
  base64_payload "" = Raise (ValueError "Base64 data cannot be empty").
Proof.
  repeat apply conj.
  - intros header payload Hh. unfold base64_payload.
    change ("data:" ++ header ++ String "," payload)
      with (String "d" ("ata:" ++ header ++ String "," payload)).
    cbn [String.eqb Ascii.eqb]. 
    change (String "d" ("ata:" ++ header ++ String "," payload))
      with (("data:" ++ header) ++ String "," payload).
    assert (Hs : startswith "data:" (("data:" ++ header) ++ String "," payload) = true)
      by reflexivity.
    rewrite Hs. rewrite split_once_app; [reflexivity|].
    rewrite contains_char_app, Hh. reflexivity.
  - intros data Hne Hs. unfold base64_payload. rewrite Hs.
    destruct (String.eqb data "") eqn:E; [|reflexivity].
    apply String.eqb_eq in E. contradiction.
  - intros data Hs Hc. unfold base64_payload. rewrite Hs.
    destruct (String.eqb data "") eqn:E.
    + apply String.eqb_eq in E. subst data. discriminate Hs.
    + rewrite (split_once_none "," data Hc). reflexivity.
  - reflexivity.
Qed.

Lemma base64_payload_strips_prefix_witness :
  base64_payload ("data:" ++ "image/png;base64" ++ String "," "QUJD") = Ok "QUJD".
Proof.
  apply (proj1 base64_payload_strips_prefix). reflexivity.
Defined.

End ImageBBoxSpec.


(* ===================================================================== *)
(** * The prompt formatters *)
(* ===================================================================== *)
Module PromptFormattersSpec.
Import Py PyFacts DictFacts BaseFormatter PromptFormatters.

Section AnyClass.
Variable process_text : TextTemplate -> Dict -> string -> result (list PyVal).
Variable process_image : string -> Dict -> result (list PyVal).

Abbreviation process := (_process_template_item process_text process_image).

(** The loop over the sub-items of an iterable, as [extend_all]. *)
Lemma sub_items_extend_all (items : list TemplateItem) merged fmt :
  (fix go (its : list TemplateItem) (merged_vars : Dict) {struct its}
     : result (list PyVal) :=
     match its with
     | [] => Ok []
     | sub_item :: its' =>
         let! out := process sub_item merged_vars fmt in
         let! rest := go its' merged_vars in
         Ok (out ++ rest)%list
     end) items merged
  = extend_all (fun it => process it merged fmt) items.
Proof.
  induction items as [|it items IH]; [reflexivity|].
  simpl. destruct (process it merged fmt); simpl; try reflexivity.
  rewrite IH. reflexivity.
Qed.

Lemma extend_all_ext {A} (f g : A -> result (list PyVal)) (l : list A) :
  (forall x, f x = g x) -> extend_all f l = extend_all g l.
Proof.
  intros H. induction l as [|x l IH]; [reflexivity|].
  simpl. rewrite H, IH. reflexivity.
Qed.

(** An iterable item, in every formatter class. When its variable is
    bound to a list, the output is, element after element, the output of
    its sub-items in order, each processed in the scope extended for that
    element, and an exception of a sub-item ends the call. When the
    variable is missing the item
    yields nothing, and when it is bound to anything but a list the call
    raises the [ValueError] naming the variable and the type it found. *)
Theorem iterable_item_unfolds :
  forall input_variable items variables fmt,
    (forall l,
       dict_get input_variable variables = Some (VList l) ->
       process (ItemIterable input_variable items) variables fmt
       = extend_all
           (fun item_data =>
              extend_all
                (fun it => process it
                             (merged_vars variables input_variable item_data) fmt)
                items) l) /\
    (dict_get input_variable variables = None ->
     process (ItemIterable input_variable items) variables fmt = Ok []) /\
    (forall v,
       dict_get input_variable variables = Some v -> is_list v = false ->
       process (ItemIterable input_variable items) variables fmt
       = Raise (ValueError (must_be_list_msg input_variable v))).
Proof.
  intros iv items variables fmt.
  assert (Hlist : forall vars l,
            dict_get iv vars = Some (VList l) ->
            process (ItemIterable iv items) vars fmt
            = extend_all
                (fun item_data =>
                   extend_all
                     (fun it => process it (merged_vars vars iv item_data) fmt)
                     items) l).
  { intros vars l Hl. cbn [_process_template_item]. rewrite Hl. clear Hl.
    apply extend_all_ext. intros x. apply sub_items_extend_all. }
  repeat apply conj.
  - intros l Hl. apply Hlist, Hl.
  - intros Hmiss. cbn [_process_template_item]. rewrite Hmiss. reflexivity.
  - intros v Hv Hl. cbn [_process_template_item]. rewrite Hv.
    destruct v; try reflexivity. discriminate Hl.
Qed.

(** Every formatter class returns, on success, one message per message
    template, in order, each carrying the role of its template and a
    content list. *)
Theorem format_one_message_per_template :
  forall (template : PromptTemplate) (variables : Dict) (out : list PyVal),
    format process_text process_image template variables = Ok out ->
    length out = length (messages template) /\
    Forall2 (fun m o =>
               exists content,
                 extend_all (fun item => process item variables
                                           (template_format template))
                            (contents m) = Ok content /\
                 o = VDict [("role", VStr (role m));
                            ("content", VList content)])
            (messages template) out.
Proof.
  intros template variables out H. unfold format in H.
  split; [exact (mapM_same_length _ _ _ H)|].
  apply mapM_Forall2 in H.
  induction H as [|m o ms os Hm _ IH]; constructor; [|exact IH].
  unfold format_message in Hm.
  destruct (extend_all _ (contents m)) as [content| |]; simpl in Hm;
    try discriminate.
  injection Hm as <-. exists content. split; reflexivity.
Qed.

End AnyClass.

Lemma format_one_message_per_template_witness :
  exists out,
    format (_process_text_template no_ext (fun _ _ => inl (ValueError "jinja")))
      anthropic_process_image
      {| name := "p"; template_format := "f-string";
         messages :=
           [{| role := "system";
               contents := [ItemText {| value := "Be brief.";
                                        input_variables := [] |}] |};
            {| role := "user";
               contents := [ItemIterable "pages"
                              [ItemText {| value := "page {no}";
                                           input_variables := ["no"] |};
                               ItemImage "img"]] |}] |}
      [("pages", VList [VDict [("no", VInt 1); ("img", VStr "http://a/1.png")];
                        VDict [("no", VInt 2); ("img", VStr "http://a/2.png")]])]
    = Ok out /\ length out = 2%nat.
Proof.
  eexists. split; [vm_compute; reflexivity|].
  refine (proj1 (format_one_message_per_template
                   (_process_text_template no_ext
                      (fun _ _ => inl (ValueError "jinja")))
                   anthropic_process_image
                   {| name := "p"; template_format := "f-string";
                      messages :=
                        [{| role := "system";
                            contents := [ItemText {| value := "Be brief.";
                                                     input_variables := [] |}] |};
                         {| role := "user";
                            contents :=
                              [ItemIterable "pages"
                                 [ItemText {| value := "page {no}";
                                              input_variables := ["no"] |};
                                  ItemImage "img"]] |}] |}
                   [("pages",
                     VList [VDict [("no", VInt 1); ("img", VStr "http://a/1.png")];
                            VDict [("no", VInt 2); ("img", VStr "http://a/2.png")]])]
                   _ _)).
  vm_compute. reflexivity.
Defined.

(** The scope of one iteration: the keys of a dict element shadow the
    outer variables and every other outer variable stays visible; an
    element that is not a dict is bound under the name of the iterated
    variable, shadowing the list itself; the extended scope has no
    repeated key when the outer scope has none. *)
Theorem iteration_scope_shadows :
  forall (variables : Dict) (input_variable : string) (item_data : PyVal)
         (k : string),
    (forall d, item_data = VDict d -> NoDup (dict_keys d) ->
       dict_get k (merged_vars variables input_variable item_data)
       = match dict_get k d with
         | Some v => Some v
         | None => dict_get k variables
         end) /\
    (is_dict item_data = false ->
       dict_get k (merged_vars variables input_variable item_data)
       = if String.eqb k input_variable then Some item_data
         else dict_get k variables) /\
    (NoDup (dict_keys variables) ->
       NoDup (dict_keys (merged_vars variables input_variable item_data))).
Proof.
  intros variables iv item_data k. repeat apply conj.
  - intros d -> Hnd. simpl. apply dict_get_merge, Hnd.
  - intros Hd. destruct item_data; try discriminate Hd; simpl;
      apply dict_get_set_other.
  - intros Hnd. destruct item_data; simpl;
      try (apply dict_set_NoDup, Hnd). apply dict_merge_NoDup, Hnd.
Qed.

Lemma iteration_scope_shadows_witness :
  dict_get "title"
    (merged_vars [("title", VStr "outer"); ("lang", VStr "en")] "pages"
       (VDict [("title", VStr "inner"); ("no", VInt 1)]))
  = Some (VStr "inner") /\
  dict_get "lang"
    (merged_vars [("title", VStr "outer"); ("lang", VStr "en")] "pages"
       (VDict [("title", VStr "inner"); ("no", VInt 1)]))
  = Some (VStr "en").
Proof.
  split.
  - refine (proj1 (iteration_scope_shadows _ "pages" _ "title") _ eq_refl _).
    apply NoDup_cons_2;
      [rewrite list_elem_of_In; simpl; intros [H | []]; discriminate H|].
    apply NoDup_cons_2; [apply not_elem_of_nil | apply NoDup_nil_2].
  - refine (proj1 (iteration_scope_shadows _ "pages" _ "lang") _ eq_refl _).
    apply NoDup_cons_2;
      [rewrite list_elem_of_In; simpl; intros [H | []]; discriminate H|].
    apply NoDup_cons_2; [apply not_elem_of_nil | apply NoDup_nil_2].
Defined.

(** ** The Anthropic image processor *)

Lemma media_type_part_has_colon header mt :
  media_type_part header = Some mt -> contains_char ":" header = true.
Proof.
  intros H. destruct (contains_char ":" header) eqn:E; [reflexivity|].
  unfold media_type_part in H. rewrite (split_all_none ":" header E) in H.
  discriminate H.
Qed.

Lemma media_part_of_part header mt :
  media_type_part header = Some mt -> MessageConverter.media_part header = mt.
Proof.
  unfold media_type_part, MessageConverter.media_part.
  destruct (split_all ":" header) as [|a [|b rest]]; try discriminate.
  destruct (split_all ";" b); [discriminate|]. intros [= ->]. reflexivity.
Qed.

(** [AnthropicPromptFormatter._process_image_template] on a [data:]
    value either returns one base64 source whose media type is one of the
    four allowed ones and whose data is the text after the first comma, or
    raises a [ValueError] whose message starts with the invalid-data-URL
    prefix (also for an unsupported media type, whose own error the
    handler catches and wraps). A missing image variable does not fail: it
    yields a URL source with the empty URL. A value that is not a string
    raises [AttributeError]. *)
Theorem anthropic_image_outcomes :
  forall (input_name : string) (variables : Dict),
    (forall url,
       dict_get input_name variables = Some (VStr url) ->
       startswith "data:" url = true ->
       (exists header data media_type,
          url = header ++ String "," data /\
          contains_char "," header = false /\
          In media_type valid_media_types /\
          anthropic_process_image input_name variables
          = Ok [base64_block media_type data]) \/
       (exists e,
          anthropic_process_image input_name variables
          = Raise (ValueError (invalid_data_url_msg e)))) /\
    (dict_get input_name variables = None ->
       anthropic_process_image input_name variables
       = Ok [MessageConverter.url_source ""]) /\
    (forall v,
       dict_get input_name variables = Some v ->
       (forall s, v <> VStr s) ->
       anthropic_process_image input_name variables = Raise AttributeError).
Proof.
  intros input_name variables. repeat apply conj.
  - intros url Hv Hs. unfold anthropic_process_image. rewrite Hv, Hs.
    destruct (split_once "," url) as [[header data]|] eqn:Esp;
      [|right; eexists; reflexivity].
    destruct (media_type_part header) as [mt|];
      [|right; eexists; reflexivity].
    destruct (existsb (String.eqb mt) valid_media_types) eqn:Ev;
      [|right; eexists; reflexivity].
    left. exists header, data, mt.
    destruct (split_once_some _ _ _ _ Esp) as [-> Hc].
    repeat apply conj; try reflexivity; try assumption.
    apply existsb_exists in Ev as (x & Hx & E).
    apply String.eqb_eq in E. subst x. exact Hx.
  - intros Hmiss. unfold anthropic_process_image. rewrite Hmiss. reflexivity.
  - intros v Hv Hns. unfold anthropic_process_image. rewrite Hv.
    destruct v; try reflexivity. exfalso. exact (Hns s eq_refl).
Qed.

Lemma anthropic_image_outcomes_witness :
  exists e,
    anthropic_process_image "img" [("img", VStr "data:image/bmp;base64,QUJD")]
    = Raise (ValueError (invalid_data_url_msg e)).
Proof.
  destruct (proj1 (anthropic_image_outcomes "img"
                     [("img", VStr "data:image/bmp;base64,QUJD")])
              "data:image/bmp;base64,QUJD" eq_refl eq_refl)
    as [(header & data & mt & _ & _ & _ & E) | H].
  - vm_compute in E. discriminate E.
  - exact H.
Defined.

(** The two Anthropic paths compared on the same image value. Whenever
    [AnthropicPromptFormatter._process_image_template] returns a block,
    [AnthropicMessageConverter] emits the same block for that value,
    provided the value is not a [data:] value or the text before its first
    comma holds a semicolon. Without a semicolon they part: for
    [data:image/jpeg,QUJD] the formatter reports [image/jpeg] and the
    converter falls back to [image/png]. *)
Theorem anthropic_paths_agree :
  (forall input_name variables url block,
     dict_get input_name variables = Some (VStr url) ->
     anthropic_process_image input_name variables = Ok [block] ->
     (startswith "data:" url = false \/
      exists header data,
        split_once "," url = Some (header, data) /\
        contains_char ";" header = true) ->
     MessageConverter.anthropic_block
       (TemplateFormatter.ImageContentBlock (inl url)) = [block]) /\
  anthropic_process_image "img" [("img", VStr "data:image/jpeg,QUJD")]
  = Ok [base64_block "image/jpeg" "QUJD"] /\
  MessageConverter.anthropic_block
    (TemplateFormatter.ImageContentBlock (inl "data:image/jpeg,QUJD"))
  = [base64_block "image/png" "QUJD"].
Proof.
  split; [|split; reflexivity].
  intros input_name variables url block Hv.
  unfold anthropic_process_image, MessageConverter.anthropic_block.
  rewrite Hv.
  destruct (startswith "data:" url) eqn:Hs.
  - destruct (split_once "," url) as [[header data]|] eqn:Esp; [|discriminate].
    destruct (media_type_part header) as [mt|] eqn:Em; [|discriminate].
    destruct (existsb (String.eqb mt) valid_media_types) eqn:Ev; [|discriminate].
    intros [= <-] [Hf | (h & d & [= <- <-] & Hsemi)]; [discriminate Hf|].
    unfold MessageConverter.media_type_of.
    rewrite (media_type_part_has_colon header mt Em), Hsemi.
    rewrite (media_part_of_part header mt Em). simpl.
    destruct (String.eqb mt "") eqn:E; [|reflexivity].
    apply String.eqb_eq in E. subst mt. discriminate Ev.
  - intros [= <-] _. reflexivity.
Qed.

Lemma anthropic_paths_agree_witness :
  MessageConverter.anthropic_block
    (TemplateFormatter.ImageContentBlock (inl "data:image/webp;base64,QUJD"))
  = [base64_block "image/webp" "QUJD"].
Proof.
  apply (proj1 anthropic_paths_agree "img"
           [("img", VStr "data:image/webp;base64,QUJD")]).
  - reflexivity.
  - reflexivity.
  - right. exists "data:image/webp;base64", "QUJD". split; reflexivity.
Defined.

End PromptFormattersSpec.

(* ===================================================================== *)
(** * The f-string renderer *)
(* ===================================================================== *)
Module TextRendererSpec.
Import Py PyFacts TextRenderer.

Section Render.
Variable I : Interp.
Variable exn_text : exn -> string.

Lemma format_field_key_error kw name k :
  format_field I kw name = Raise (KeyError k) -> dict_get k kw = None.
Proof.
  unfold format_field. destruct (all_digits name); [discriminate|].
  destruct (dict_get name kw) eqn:E; [discriminate|].
  intros [= <-]. exact E.
Qed.

(** A [KeyError] of the substitution names a key the dict lacks. *)
Lemma format_go_key_error kw k :
  forall n s fld,
    (String.length s <= n)%nat ->
    format_go I kw s fld = Raise (KeyError k) -> dict_get k kw = None.
Proof.
  induction n as [|n IH]; intros s fld Hlen.
  - destruct s; [|simpl in Hlen; lia]. simpl. destruct fld; discriminate.
  - destruct s as [|c s']; [simpl; destruct fld; discriminate|].
    simpl in Hlen. simpl.
    assert (Hstep : forall s0 (f : string -> string),
                (String.length s0 <= n)%nat ->
                (let! rest := format_go I kw s0 None in Ok (f rest))
                = Raise (KeyError k) ->
                dict_get k kw = None).
    { intros s0 f Hl. destruct (format_go I kw s0 None) eqn:Er; simpl;
        try discriminate.
      intros [= ->]. exact (IH s0 None Hl Er). }
    destruct fld as [name|].
    + destruct (Ascii.eqb c "}").
      * destruct (format_field I kw name) as [v|e|] eqn:Ef; simpl;
          try discriminate.
        -- apply (Hstep s' (fun rest => v ++ rest)). lia.
        -- intros [= ->]. exact (format_field_key_error _ _ _ Ef).
      * apply IH. lia.
    + destruct (Ascii.eqb c "{").
      * destruct s' as [|c' s'']; [discriminate|].
        simpl in Hlen.
        destruct c' as [[] [] [] [] [] [] [] []];
          try (apply IH; simpl; lia).
        apply (Hstep s'' (String "{")). lia.
      * destruct (Ascii.eqb c "}").
        -- destruct s' as [|c' s'']; [discriminate|].
           simpl in Hlen.
           destruct c' as [[] [] [] [] [] [] [] []]; try discriminate.
           apply (Hstep s'' (String "}")). lia.
        -- apply (Hstep s' (String c)). lia.
Qed.

(** [FStringTemplateRenderer.render] returns exactly when [str.format]
    does, with the same text, and raises nothing but [ValueError]. For a
    template whose replacement fields are bare names, a [KeyError] of the
    substitution is reported as the missing-variable error, and the
    variable it names is one the dict really lacks. *)
Theorem render_reports_missing_variable :
  forall (text : string) (variables : Dict),
    (forall s, render I exn_text text variables = Ok s
               <-> str_format I text variables = Ok s) /\
    (forall e, render I exn_text text variables = Raise e ->
               exists msg, e = ValueError msg) /\
    (forall k,
       plain_template text false = true ->
       str_format I text variables = Raise (KeyError k) ->
       dict_get k variables = None /\
       render I exn_text text variables = Raise (ValueError (missing_msg k))).
Proof.
  intros text variables. repeat apply conj.
  - intros s. unfold render.
    destruct (str_format I text variables) as [r|e|]; [tauto| |].
    + destruct e; split; discriminate.
    + split; discriminate.
  - intros e. unfold render.
    destruct (str_format I text variables) as [r|e'|]; try discriminate.
    destruct e'; intros [= <-]; eexists; reflexivity.
  - intros k Hplain Hk. split.
    + unfold str_format in Hk. rewrite Hplain in Hk.
      exact (format_go_key_error variables k _ text None (le_n _) Hk).
    + unfold render. rewrite Hk. reflexivity.
Qed.

End Render.

Lemma render_reports_missing_variable_witness :
  render no_ext (fun _ => "") "Dear {name}, {greeting}" [("name", VStr "Ada")]
  = Raise (ValueError "Missing variable 'greeting' for f-string item").
Proof.
  apply (proj2 (proj2 (proj2 (render_reports_missing_variable no_ext
           (fun _ => "") "Dear {name}, {greeting}" [("name", VStr "Ada")]))
           "greeting" eq_refl eq_refl)).
Defined.

End TextRendererSpec.

(* ===================================================================== *)
(** * More on the message converters and their registry *)
(* ===================================================================== *)
Module MessageConverterProps.
Import Py PyFacts DictFacts TemplateFormatter MessageConverter.

Lemma split_once_none_iff c s :
  split_once c s = None <-> contains_char c s = false.
Proof.
  split; [|apply split_once_none].
  induction s as [|a s IH]; simpl; [reflexivity|].
  destruct (Ascii.eqb a c); [discriminate|].
  destruct (split_once c s) as [[h t]|]; [discriminate|].
  intros _. simpl. apply IH. reflexivity.
Qed.

(** A block gives one item, or none when it is a comma-less data URL. *)
Lemma anthropic_block_one_or_none block :
  if comma_less_data_url block
  then anthropic_block block = []
  else exists item, anthropic_block block = [item].
Proof.
  destruct block as [text|image_url]; [eexists; reflexivity|].
  unfold comma_less_data_url, anthropic_block.
  generalize (match image_url with inl s => s | inr o => url o end).
  intros url.
  destruct (startswith "data:" url); cbn [andb]; [|eexists; reflexivity].
  destruct (split_once "," url) as [[h t]|] eqn:E.
  - assert (Hc : contains_char "," url = true).
    { destruct (contains_char "," url) eqn:Hc; [reflexivity|].
      apply split_once_none_iff in Hc. rewrite Hc in E. discriminate E. }
    rewrite Hc. simpl. eexists; reflexivity.
  - apply split_once_none_iff in E. rewrite E. reflexivity.
Qed.

(** Both converters return one message per input pair, in order and with
    its role. The OpenAI converter serialises every block. The Anthropic
    converter serialises, in order, exactly the blocks that are not
    comma-less data URLs, one item each: the content of a message is
    shorter than its block list by the number of such blocks. *)
Theorem convert_keeps_messages_and_order :
  forall content_list : list (string * list ContentBlock),
    Forall2 (fun pair m =>
               m = message pair.1 (map model_dump pair.2))
            content_list (openai_convert content_list) /\
    Forall2 (fun pair m =>
               exists items,
                 m = message pair.1 items /\
                 Forall2 (fun block item => anthropic_block block = [item])
                         (List.filter (fun b => negb (comma_less_data_url b))
                                      pair.2)
                         items /\
                 (length items
                  + length (List.filter comma_less_data_url pair.2)
                  = length pair.2)%nat)
            content_list (anthropic_convert content_list).
Proof.
  intros content_list. split.
  - induction content_list as [|[role blocks] cl IH]; simpl; constructor;
      [reflexivity | exact IH].
  - induction content_list as [|[role blocks] cl IH]; simpl; constructor;
      [|exact IH].
    exists (flat_map anthropic_block blocks). split; [reflexivity|]. simpl.
    induction blocks as [|b blocks IHb]; [split; [constructor|reflexivity]|].
    destruct IHb as [IH1 IH2].
    pose proof (anthropic_block_one_or_none b) as Hb.
    cbn [List.filter flat_map length].
    destruct (comma_less_data_url b) eqn:Ec; cbn [negb].
    + rewrite Hb. cbn [app length]. split; [exact IH1|]. lia.
    + destruct Hb as (item & Hb). rewrite Hb. cbn [app length].
      split; [constructor; [exact Hb | exact IH1]|]. lia.
Qed.

(** On content that holds only text blocks the two converters return the
    same messages. *)
Theorem converters_agree_on_text :
  forall content_list : list (string * list ContentBlock),
    (forall role blocks, In (role, blocks) content_list ->
       forallb is_text_block blocks = true) ->
    anthropic_convert content_list = openai_convert content_list.
Proof.
  induction content_list as [|[role blocks] cl IH]; intros Htext;
    [reflexivity|].
  simpl. f_equal.
  - f_equal.
    specialize (Htext role blocks (or_introl eq_refl)).
    induction blocks as [|b blocks IHb]; [reflexivity|].
    simpl in Htext. apply andb_true_iff in Htext as [Hb Hrest].
    simpl. rewrite (IHb Hrest).
    destruct b; [reflexivity | discriminate Hb].
  - apply IH. intros r bs Hin. apply (Htext r bs). right. exact Hin.
Qed.

Lemma converters_agree_on_text_witness :
  anthropic_convert [("system", [TextContentBlock "Be brief."]);
                     ("user", [TextContentBlock "Hi"; TextContentBlock "there"])]
  = openai_convert [("system", [TextContentBlock "Be brief."]);
                    ("user", [TextContentBlock "Hi"; TextContentBlock "there"])].
Proof.
  apply converters_agree_on_text.
  intros role blocks [[= <- <-] | [[= <- <-] | []]]; reflexivity.
Defined.

Lemma dict_keys_set_list {V} k (v : V) d :
  dict_keys (dict_set k v d)
  = if dict_mem k d then dict_keys d else (dict_keys d ++ [k])%list.
Proof.
  unfold dict_mem. induction d as [|[k0 v0] d IH]; simpl; [reflexivity|].
  destruct (String.eqb k k0) eqn:E; simpl.
  - apply String.eqb_eq in E. subst k0. reflexivity.
  - rewrite IH. destruct (dict_get k d); reflexivity.
Qed.

(** [register] keeps the registry well formed. A name already registered
    (in any spelling) has its converter replaced in place and the list of
    supported formats is unchanged; a new name goes to the end of that
    list, lowered; the list never gets a repeated name; and every other
    name that resolved before resolves to the same converter after. *)
Theorem register_keeps_registry_well_formed :
  forall (registry : list (string * Converter)) (format_type : string)
         (converter_class : Converter),
    (NoDup (list_supported_formats registry) ->
     NoDup (list_supported_formats
              (register registry format_type converter_class))) /\
    (dict_mem (lower format_type) registry = true ->
     list_supported_formats (register registry format_type converter_class)
     = list_supported_formats registry) /\
    (dict_mem (lower format_type) registry = false ->
     list_supported_formats (register registry format_type converter_class)
     = (list_supported_formats registry ++ [lower format_type])%list) /\
    (forall other c,
       lower other <> lower format_type ->
       create registry other = Ok c ->
       create (register registry format_type converter_class) other = Ok c).
Proof.
  intros registry format_type cc. unfold list_supported_formats, register.
  repeat apply conj.
  - apply dict_set_NoDup.
  - intros H. rewrite dict_keys_set_list, H. reflexivity.
  - intros H. rewrite dict_keys_set_list, H. reflexivity.
  - intros other c Hne. unfold create. rewrite dict_get_set_other.
    destruct (String.eqb (lower other) (lower format_type)) eqn:E.
    + apply String.eqb_eq in E. contradiction.
    + destruct (dict_get (lower other) registry); [trivial | discriminate].
Qed.

Lemma register_keeps_registry_well_formed_witness :
  list_supported_formats (register default_converters "OpenAI" anthropic_convert)
  = ["openai"; "anthropic"] /\
  create (register default_converters "Gemini" openai_convert) "Anthropic"
  = Ok anthropic_convert.
Proof.
  split.
  - apply (proj1 (proj2 (register_keeps_registry_well_formed
                           default_converters "OpenAI" anthropic_convert))).
    reflexivity.
  - apply (proj2 (proj2 (proj2 (register_keeps_registry_well_formed
                                  default_converters "Gemini" openai_convert)))).
    + discriminate.
    + reflexivity.
Defined.

End MessageConverterProps.

(* ===================================================================== *)
(** * The converter an instance of [PromptTemplateFormatter] uses *)
(* ===================================================================== *)
Module PromptFormatterSpec.
Import Py PyFacts TemplateFormatter MessageConverter PromptFormatter.

(** The [converter] property is lazy and sticky. Once it has returned a
    converter, the instance holds it: every later access returns that same
    converter whatever the registry has become, also through
    [content_to_messages] without a format. A failed creation stores
    nothing, so the instance can succeed later. A call of
    [content_to_messages] with an explicit non-empty format asks the
    registry each time and never touches what the instance holds. *)
Theorem converter_is_created_once :
  forall (registry : list (string * Converter))
         (self : PromptTemplateFormatter),
    (forall self' c,
       converter registry self = (self', Ok c) ->
       _converter self' = Some c /\
       message_format self' = message_format self /\
       (forall registry', converter registry' self' = (self', Ok c)) /\
       (forall registry' content_list,
          content_to_messages registry' self' content_list None
          = (self', Ok (c content_list)))) /\
    (forall self' e,
       converter registry self = (self', Raise e) ->
       self' = self /\ _converter self = None) /\
    (forall content_list fmt,
       fmt <> "" ->
       content_to_messages registry self content_list (Some fmt)
       = (self, let! c := create registry fmt in Ok (c content_list))).
Proof.
  intros registry self. repeat apply conj.
  - intros self' c. unfold converter.
    destruct (_converter self) as [c0|] eqn:Ec.
    + intros [= <- <-].
      assert (Hkeep : forall registry', converter registry' self = (self, Ok c0))
        by (intros registry'; unfold converter; rewrite Ec; reflexivity).
      repeat apply conj; try reflexivity; try assumption.
      intros registry' cl. unfold content_to_messages. simpl.
      rewrite Hkeep. reflexivity.
    + destruct (create registry (message_format self)) as [c1| |];
        try discriminate.
      intros [= <- <-]. simpl.
      repeat apply conj; try reflexivity.
  - intros self' e. unfold converter.
    destruct (_converter self) as [c0|]; [discriminate|].
    destruct (create registry (message_format self)); try discriminate.
    intros [= <- _]. split; reflexivity.
  - intros cl fmt Hne. unfold content_to_messages.
    replace (key_set (Some fmt)) with (Some fmt); [reflexivity|].
    unfold key_set. destruct (String.eqb fmt "") eqn:E; [|reflexivity].
    apply String.eqb_eq in E. contradiction.
Qed.

Lemma converter_is_created_once_witness :
  let self1 := (converter default_converters (init "openai")).1 in
  content_to_messages (register default_converters "openai" anthropic_convert)
    self1 [("user", [ImageContentBlock (inl "data:x")])] None
  = (self1, Ok (openai_convert [("user", [ImageContentBlock (inl "data:x")])])).
Proof.
  cbv zeta.
  destruct (proj1 (converter_is_created_once default_converters (init "openai"))
              (converter default_converters (init "openai")).1 openai_convert
              eq_refl) as (_ & _ & _ & H).
  apply H.
Defined.

End PromptFormatterSpec.

(* ===================================================================== *)
(** * More on the template formatter *)
(* ===================================================================== *)
Module TemplateFormatterProps.
Import Py PyFacts DictFacts TemplateFormatter.

Section WithInterp.
Variable I : Interp.
Variable set_iter : list string -> list string.

Lemma content_format_at_most_one content variables blocks :
  content_format I content variables = Ok blocks -> (length blocks <= 1)%nat.
Proof.
  destruct content as [t|i]; simpl.
  - unfold _format_text. destruct (as_kwargs variables); simpl; try discriminate.
    destruct (str_format I (content t) a); simpl; try discriminate.
    intros [= <-]. simpl. lia.
  - unfold _format_image. destruct (py_get variables (input_name i)) as [v| |];
      simpl; try discriminate.
    destruct (truthy v); [|intros [= <-]; simpl; lia].
    destruct v; try discriminate. intros [= <-]. simpl. lia.
Qed.

(** [PromptTemplateFormatter.format] returns, on success, one pair per
    message template, in order, each with the role of its template; the
    pair of a single-content message holds the blocks of that content
    formatted against the input, at most one block. *)
Theorem format_one_pair_per_message :
  forall (template : PromptTemplate) (input_data : PyVal)
         (out : list (string * list ContentBlock)),
    format I set_iter template input_data = Ok out ->
    length out = length (templates template) /\
    Forall2 (fun mt pair =>
               match mt with
               | SingleContentMessageTemplate role content =>
                   pair.1 = role /\
                   content_format I content input_data = Ok pair.2 /\
                   (length pair.2 <= 1)%nat
               | IterableContentMessageTemplate role _ _ => pair.1 = role
               end)
            (templates template) out.
Proof.
  intros template input_data out H. unfold format in H.
  split; [exact (mapM_same_length _ _ _ H)|].
  apply mapM_Forall2 in H.
  induction H as [|mt pair mts pairs Hm _ IH]; constructor; [|exact IH].
  destruct mt as [role content|role contents key]; simpl in Hm.
  - destruct (content_format I content input_data) as [blocks| |] eqn:E;
      simpl in Hm; try discriminate.
    injection Hm as <-. simpl.
    repeat apply conj; try reflexivity.
    exact (content_format_at_most_one _ _ _ E).
  - destruct (iteration_data key input_data); simpl in Hm; try discriminate.
    destruct (extend_each _ _); simpl in Hm; try discriminate.
    injection Hm as <-. reflexivity.
Qed.

(** An iterable group with no [input_key] in force whose immediate items
    reference no variable (only nested groups, or texts that declare no
    [input_variables]) yields no block, whatever the scope is: its items
    are never formatted. *)
Theorem group_without_references_yields_nothing :
  forall (group : IterableContentTemplateGroup) (variables : PyVal),
    set_iter [] = [] ->
    key_set (input_key group) = None ->
    collect_vars (items group) = [] ->
    _find_iteration_source set_iter group variables = Ok [] /\
    _format_iterable I set_iter group variables = Ok [].
Proof.
  intros group variables Hset Hkey Hvars.
  assert (E : _find_iteration_source set_iter group variables = Ok []).
  { unfold _find_iteration_source. rewrite Hkey, Hvars, Hset. reflexivity. }
  split; [exact E|].
  destruct group as [its k]. simpl. simpl in E. rewrite E. reflexivity.
Qed.

End WithInterp.

Lemma format_one_pair_per_message_witness :
  exists out,
    format no_ext (fun l => l)
      {| name := "p"; template_format := "f-string";
         templates :=
           [SingleContentMessageTemplate "system"
              (Text {| content := "Summarise {title}.";
                       input_variables := ["title"] |});
            IterableContentMessageTemplate "user"
              [Static {| static_items :=
                           [Text {| content := "page {no}";
                                    input_variables := ["no"] |}] |}]
              (Some "pages")] |}
      (VDict [("title", VStr "the report");
              ("pages", VList [VDict [("no", VInt 1)]; VDict [("no", VInt 2)]])])
    = Ok out /\ length out = 2%nat.
Proof.
  eexists. split; [vm_compute; reflexivity|].
  refine (proj1 (format_one_pair_per_message no_ext (fun l => l)
                   {| name := "p"; template_format := "f-string";
                      templates :=
                        [SingleContentMessageTemplate "system"
                           (Text {| content := "Summarise {title}.";
                                    input_variables := ["title"] |});
                         IterableContentMessageTemplate "user"
                           [Static {| static_items :=
                                        [Text {| content := "page {no}";
                                                 input_variables := ["no"] |}] |}]
                           (Some "pages")] |}
                   (VDict [("title", VStr "the report");
                           ("pages", VList [VDict [("no", VInt 1)];
                                            VDict [("no", VInt 2)]])])
                   _ _)).
  vm_compute. reflexivity.
Defined.

Lemma group_without_references_yields_nothing_witness :
  _format_iterable no_ext (fun l => l)
    (Iterable [inl (Text {| content := "page"; input_variables := [] |});
               inr (Iterable [inl (Image {| input_name := "img" |})]
                             (Some "pages"))]
              None)
    (VDict [("pages", VList [VDict [("img", VStr "u")]])])
  = Ok [].
Proof.
  apply (group_without_references_yields_nothing no_ext (fun l => l));
    reflexivity.
Defined.

Section Strategies.
Variable set_iter : list string -> list string.

Lemma no_list_vars (d : Dict) (all_vars : list string) acc :
  (forall n l, In n all_vars -> dict_get n d <> Some (VList l)) ->
  find_list_vars all_vars (VDict d) acc = Ok acc.
Proof.
  induction all_vars as [|n ns IH]; intros H; simpl; [reflexivity|].
  assert (IH' := IH (fun m l Hm => H m l (or_intror Hm))).
  unfold dict_mem. destruct (dict_get n d) as [v|] eqn:En; simpl; [|exact IH'].
  destruct v; try exact IH'.
  exfalso. exact (H n l (or_introl eq_refl) En).
Qed.

Lemma scan_any_list_skips all_vars (pre rest : Dict) :
  (forall k v, In (k, v) pre -> adoptable all_vars v = false) ->
  scan_any_list all_vars (pre ++ rest)%list = scan_any_list all_vars rest.
Proof.
  induction pre as [|[k v] pre IH]; intros H; [reflexivity|].
  assert (IH' := IH (fun k' v' Hin => H k' v' (or_intror Hin))).
  specialize (H k v (or_introl eq_refl)).
  change (((k, v) :: pre) ++ rest)%list with ((k, v) :: (pre ++ rest))%list.
  destruct v as [ | | | | |l|]; try exact IH'.
  destruct l as [|x tl]; [exact IH'|].
  destruct x; try exact IH'.
  simpl in H. simpl. rewrite H. exact IH'.
Qed.

(** Strategy 2. When no [input_key] is in force and none of the
    referenced names is bound to a list, the whole scope is scanned in
    insertion order and the first value that is a non-empty list whose
    first element is a dict holding one of the referenced names is adopted
    as the iteration source, under whatever key it is stored; when the
    scope holds no such value the source is empty. *)
Theorem fallback_adopts_first_matching_list :
  forall (group : IterableContentTemplateGroup) (d : Dict),
    key_set (input_key group) = None ->
    set_iter (collect_vars (items group)) <> [] ->
    (forall n l, In n (set_iter (collect_vars (items group))) ->
                 dict_get n d <> Some (VList l)) ->
    (forall pre key l post,
       d = (pre ++ (key, VList l) :: post)%list ->
       (forall k v, In (k, v) pre ->
          adoptable (set_iter (collect_vars (items group))) v = false) ->
       adoptable (set_iter (collect_vars (items group))) (VList l) = true ->
       _find_iteration_source set_iter group (VDict d) = Ok l) /\
    ((forall k v, In (k, v) d ->
        adoptable (set_iter (collect_vars (items group))) v = false) ->
     _find_iteration_source set_iter group (VDict d) = Ok []).
Proof.
  intros group d Hkey Hne Hnolist.
  assert (E : _find_iteration_source set_iter group (VDict d)
              = Ok (scan_any_list (set_iter (collect_vars (items group))) d)).
  { unfold _find_iteration_source. rewrite Hkey.
    destruct (set_iter (collect_vars (items group))) as [|x xs] eqn:Ex;
      [contradiction|].
    rewrite (no_list_vars d (x :: xs) [] Hnolist). reflexivity. }
  split.
  - intros pre key l post -> Hpre Hl. rewrite E.
    rewrite (scan_any_list_skips _ pre _ Hpre).
    destruct l as [|x tl]; [discriminate Hl|].
    destruct x; try discriminate Hl.
    simpl in Hl. simpl. rewrite Hl. reflexivity.
  - intros Hnone. rewrite E. f_equal.
    rewrite <- (app_nil_r d).
    rewrite (scan_any_list_skips _ d [] Hnone). reflexivity.
Qed.

(** Strategy 1 with a list of dicts. When no [input_key] is in force and
    the first referenced name (in the iteration order of the set) that is
    bound to a list is bound to a list whose first element is a dict, that
    list is the iteration source as it is; the other referenced names,
    bound to lists or not, play no part. *)
Theorem first_candidate_list_of_dicts_is_the_source :
  forall (group : IterableContentTemplateGroup) (d : Dict)
         (pre : list string) (n0 : string) (post : list string)
         (first_list : list PyVal),
    key_set (input_key group) = None ->
    set_iter (collect_vars (items group)) = (pre ++ n0 :: post)%list ->
    (forall n l, In n pre -> dict_get n d <> Some (VList l)) ->
    dict_get n0 d = Some (VList first_list) ->
    first_is_dict first_list = true ->
    _find_iteration_source set_iter group (VDict d) = Ok first_list.
Proof.
  intros group d pre n0 post first_list Hkey Hvars Hpre H0 Hfirst.
  unfold _find_iteration_source. rewrite Hkey, Hvars.
  destruct (TemplateFormatterSpec.find_list_vars_first d pre n0 post
              first_list Hpre H0) as (acc' & Ef).
  destruct (pre ++ n0 :: post)%list as [|x xs] eqn:Ex;
    [destruct pre; discriminate Ex|].
  rewrite Ef. simpl. rewrite Hfirst. reflexivity.
Qed.

End Strategies.

Lemma fallback_adopts_first_matching_list_witness :
  _find_iteration_source (fun l => l)
    (Iterable [inl (Text {| content := "p{page_no}";
                            input_variables := ["page_no"] |})] None)
    (VDict [("title", VStr "t");
            ("tags", VList [VStr "a"]);
            ("pages", VList [VDict [("page_no", VInt 1)];
                             VDict [("page_no", VInt 2)]])])
  = Ok [VDict [("page_no", VInt 1)]; VDict [("page_no", VInt 2)]].
Proof.
  refine (proj1 (fallback_adopts_first_matching_list (fun l => l)
                   (Iterable [inl (Text {| content := "p{page_no}";
                                           input_variables := ["page_no"] |})]
                             None)
                   _ eq_refl _ _)
                [("title", VStr "t"); ("tags", VList [VStr "a"])] "pages"
                [VDict [("page_no", VInt 1)]; VDict [("page_no", VInt 2)]] []
                eq_refl _ eq_refl).
  - discriminate.
  - intros n l [<- | []]. discriminate.
  - intros k v [[= <- <-] | [[= <- <-] | []]]; reflexivity.
Defined.

Lemma first_candidate_list_of_dicts_is_the_source_witness :
  _find_iteration_source (fun l => l)
    (Iterable [inl (Text {| content := "{rows}/{n}";
                            input_variables := ["rows"; "n"] |})] None)
    (VDict [("n", VList [VInt 1; VInt 2; VInt 3]);
            ("rows", VList [VDict [("rows", VStr "r")]])])
  = Ok [VDict [("rows", VStr "r")]].
Proof.
  apply (first_candidate_list_of_dicts_is_the_source (fun l => l)
           (Iterable [inl (Text {| content := "{rows}/{n}";
                                   input_variables := ["rows"; "n"] |})] None)
           _ [] "rows" ["n"]); try reflexivity.
  intros n l [].
Defined.
Section Iterations.
Variable I : Interp.
Variable set_iter : list string -> list string.

Lemma extend_each_ext {A} (f g : A -> result (list ContentBlock)) (l : list A) :
  (forall x, f x = g x) -> extend_each f l = extend_each g l.
Proof.
  intros H. induction l as [|x l IH]; [reflexivity|].
  simpl. rewrite H, IH. reflexivity.
Qed.

(** [_format_iterable], with its two loops written as [extend_each]. *)
Lemma format_iterable_unfolds group variables :
  _format_iterable I set_iter group variables
  = (let! iteration_source := _find_iteration_source set_iter group variables in
     extend_each
       (fun item_vars =>
          let! merged := merge_vars variables item_vars in
          extend_each (fun item => format_item I set_iter item merged)
                      (items group))
       iteration_source).
Proof.
  destruct group as [its key]. cbn [_format_iterable items].
  destruct (_find_iteration_source set_iter (Iterable its key) variables)
    as [src| |]; try reflexivity.
  cbn [bind]. apply extend_each_ext. intros iv.
  destruct (merge_vars variables iv) as [m| |]; try reflexivity.
  cbn [bind]. clear. induction its as [|it its IH]; [reflexivity|].
  cbn [extend_each]. unfold format_item at 1.
  destruct it as [c|g].
  - destruct (content_format I c m); try reflexivity. cbn [bind].
    rewrite IH. reflexivity.
  - destruct (_format_iterable I set_iter g m); try reflexivity. cbn [bind].
    rewrite IH. reflexivity.
Qed.

Lemma extend_each_length {A} (f : A -> result (list ContentBlock))
    (l : list A) (n : nat) out :
  (forall x bs, In x l -> f x = Ok bs -> length bs = n) ->
  extend_each f l = Ok out -> length out = (length l * n)%nat.
Proof.
  revert out. induction l as [|x l IH]; simpl; intros out Hn.
  - intros [= <-]. reflexivity.
  - destruct (f x) as [bs| |] eqn:Ex; simpl; try discriminate.
    destruct (extend_each f l) as [rest| |] eqn:El; simpl; try discriminate.
    intros [= <-]. rewrite length_app.
    rewrite (Hn x bs (or_introl eq_refl) Ex).
    rewrite (IH rest (fun y b Hy => Hn y b (or_intror Hy)) eq_refl). lia.
Qed.

(** The loop stops at the first element whose blocks cannot be made. *)
Lemma extend_each_stops {A} (f : A -> result (list ContentBlock))
    (pre : list A) (x : A) (post : list A) done e :
  extend_each f pre = Ok done -> f x = Raise e ->
  extend_each f (pre ++ x :: post)%list = Raise e.
Proof.
  revert done. induction pre as [|p pre IH]; intros done Hpre Hx.
  - cbn [app extend_each]. rewrite Hx. reflexivity.
  - cbn [app extend_each] in *.
    destruct (f p); try discriminate. cbn [bind] in *.
    destruct (extend_each f pre) as [rest| |]; try discriminate.
    rewrite (IH rest eq_refl Hx). reflexivity.
Qed.

(** In an iterable group whose items are all text templates, a
    successful formatting yields exactly one block per item and per
    element of the iteration source: as many blocks as the source is long
    times the number of items, iteration after iteration. *)
Theorem text_group_yields_one_block_per_item_and_iteration :
  forall (group : IterableContentTemplateGroup) (variables : PyVal)
         (source : list PyVal) (blocks : list ContentBlock),
    forallb is_text_item (items group) = true ->
    _find_iteration_source set_iter group variables = Ok source ->
    _format_iterable I set_iter group variables = Ok blocks ->
    length blocks = (length source * length (items group))%nat.
Proof.
  intros group variables source blocks Htext Hsrc.
  rewrite format_iterable_unfolds, Hsrc. cbn [bind].
  apply extend_each_length. intros iv bs _.
  destruct (merge_vars variables iv) as [m| |]; simpl; try discriminate.
  intros Hbs.
  rewrite (extend_each_length _ _ 1 bs) with (2 := Hbs); [lia|].
  intros it b Hin. rewrite forallb_forall in Htext.
  specialize (Htext it Hin). destruct it as [[t|i]|g]; try discriminate Htext.
  simpl. unfold _format_text.
  destruct (as_kwargs m); simpl; try discriminate.
  destruct (str_format I (content t) a); simpl; try discriminate.
  intros [= <-]. reflexivity.
Qed.

(** With [input_key] in force, a list whose first element is a dict is
    taken as it is, so a later element that is not a dict is reached as a
    scope: once the elements before it have been formatted, merging it into
    the parent scope raises [TypeError] and the whole call fails. *)
Theorem non_dict_element_after_dict_raises :
  forall (group : IterableContentTemplateGroup) (key : string) (d : Dict)
         (pre : list PyVal) (x : PyVal) (post : list PyVal)
         (done : list ContentBlock),
    key_set (input_key group) = Some key ->
    dict_get key d = Some (VList (pre ++ x :: post)%list) ->
    first_is_dict (pre ++ x :: post)%list = true ->
    is_dict x = false ->
    extend_each
      (fun item_vars =>
         let! merged := merge_vars (VDict d) item_vars in
         extend_each (fun item => format_item I set_iter item merged)
                     (items group))
      pre = Ok done ->
    _format_iterable I set_iter group (VDict d) = Raise TypeError.
Proof.
  intros group key d pre x post done Hkey Hl Hfirst Hx Hpre.
  rewrite format_iterable_unfolds.
  rewrite (TemplateFormatterSpec.find_iteration_source_input_key
             set_iter group key d Hkey), Hl, Hfirst.
  cbn [bind]. apply (extend_each_stops _ pre x post done TypeError Hpre).
  destruct x; try discriminate Hx; reflexivity.
Qed.

End Iterations.

Lemma text_group_yields_one_block_per_item_and_iteration_witness :
  exists blocks,
    _format_iterable no_ext (fun l => l)
      (Iterable [inl (Text {| content := "{a}"; input_variables := ["a"] |});
                 inl (Text {| content := "-"; input_variables := [] |})]
                (Some "rows"))
      (VDict [("rows", VList [VDict [("a", VInt 1)]; VDict [("a", VInt 2)];
                              VDict [("a", VInt 3)]])])
    = Ok blocks /\ length blocks = 6%nat.
Proof.
  eexists. split; [vm_compute; reflexivity|].
  apply (text_group_yields_one_block_per_item_and_iteration no_ext (fun l => l)
           (Iterable [inl (Text {| content := "{a}"; input_variables := ["a"] |});
                      inl (Text {| content := "-"; input_variables := [] |})]
                     (Some "rows"))
           (VDict [("rows", VList [VDict [("a", VInt 1)]; VDict [("a", VInt 2)];
                                   VDict [("a", VInt 3)]])])
           [VDict [("a", VInt 1)]; VDict [("a", VInt 2)]; VDict [("a", VInt 3)]]);
    reflexivity.
Defined.

Lemma non_dict_element_after_dict_raises_witness :
  _format_iterable no_ext (fun l => l)
    (Iterable [inl (Text {| content := "{a}"; input_variables := ["a"] |})]
              (Some "rows"))
    (VDict [("rows", VList [VDict [("a", VInt 1)]; VInt 2])])
  = Raise TypeError.
Proof.
  apply (non_dict_element_after_dict_raises no_ext (fun l => l)
           (Iterable [inl (Text {| content := "{a}"; input_variables := ["a"] |})]
                     (Some "rows"))
           "rows" [("rows", VList [VDict [("a", VInt 1)]; VInt 2])]
           [VDict [("a", VInt 1)]] (VInt 2) [] [TextContentBlock "1"]);
    reflexivity.
Defined.

(** The scope of one iteration of a group: the keys of the iteration
    element override those of the parent scope, every other parent
    variable stays visible, and the merged scope has no repeated key when
    the parent has none; merging fails with [TypeError] as soon as the
    parent scope or the element is not a dict. *)
Theorem iteration_keys_override_parent :
  (forall (a b : Dict),
     NoDup (dict_keys b) ->
     exists m,
       merge_vars (VDict a) (VDict b) = Ok (VDict m) /\
       (forall k, dict_get k m = match dict_get k b with
                                 | Some v => Some v
                                 | None => dict_get k a
                                 end) /\
       (NoDup (dict_keys a) -> NoDup (dict_keys m))) /\
  (forall a b : PyVal,
     is_dict a = false \/ is_dict b = false ->
     merge_vars a b = Raise TypeError).
Proof.
  split.
  - intros a b Hnd. exists (dict_merge a b). split; [reflexivity|]. split.
    + intros k. apply dict_get_merge, Hnd.
    + apply dict_merge_NoDup.
  - intros a b [Ha | Hb].
    + destruct a; try discriminate Ha; reflexivity.
    + destruct a; try reflexivity. destruct b; try discriminate Hb; reflexivity.
Qed.

Lemma iteration_keys_override_parent_witness :
  exists m,
    merge_vars (VDict [("doc", VStr "d"); ("no", VInt 0)])
               (VDict [("no", VInt 7)]) = Ok (VDict m) /\
    dict_get "no" m = Some (VInt 7) /\ dict_get "doc" m = Some (VStr "d").
Proof.
  destruct (proj1 iteration_keys_override_parent
              [("doc", VStr "d"); ("no", VInt 0)] [("no", VInt 7)])
    as (m & E & Hget & _).
  - apply NoDup_cons_2; [apply not_elem_of_nil | apply NoDup_nil_2].
  - exists m. split; [exact E|]. split; rewrite Hget; reflexivity.
Defined.

End TemplateFormatterProps.

(* ===================================================================== *)
(** * More on the schema model maker *)
(* ===================================================================== *)
Module SchemaMakerProps.
Import Py PyFacts DictFacts SchemaMaker SchemaMakerFacts.

(** ** The registry *)

Lemma register_fold (l : list CustomDTypeSpec)
    (m : gmap string CustomDTypeSpec) (n : string) :
  (forall c, In c l -> cd_name c <> n) ->
  fold_left (fun m c => <[cd_name c := c]> m) l m !! n = m !! n.
Proof.
  revert m. induction l as [|c l IH]; intros m H; [reflexivity|].
  simpl. rewrite IH by (intros c' Hc'; apply H; right; exact Hc').
  apply lookup_insert_ne. apply H. left. reflexivity.
Qed.

(** Registration by name: of several custom dtypes with one name the
    last one is the one [make] uses, and a name that no custom dtype
    carries is not registered. *)
Theorem register_specs_last_wins :
  (forall (before : list CustomDTypeSpec) (c : CustomDTypeSpec)
          (after : list CustomDTypeSpec),
     (forall c', In c' after -> cd_name c' <> cd_name c) ->
     register_specs (before ++ c :: after)%list !! cd_name c = Some c) /\
  (forall (l : list CustomDTypeSpec) (n : string),
     (forall c, In c l -> cd_name c <> n) ->
     register_specs l !! n = None).
Proof.
  unfold register_specs. split.
  - intros before c after Hafter.
    rewrite fold_left_app. simpl.
    rewrite (register_fold after _ (cd_name c) Hafter).
    apply lookup_insert_eq.
  - intros l n H. rewrite (register_fold l ∅ n H). apply lookup_empty.
Qed.

Lemma register_specs_last_wins_witness :
  register_specs
    ([{| cd_name := "T"; cd_fields := [field "x" "int" 0 None false] |}]
     ++ {| cd_name := "T"; cd_fields := [field "y" "str" 0 None false] |}
     :: [{| cd_name := "U"; cd_fields := [] |}])%list
  !! "T"
  = Some {| cd_name := "T"; cd_fields := [field "y" "str" 0 None false] |}.
Proof.
  apply (proj1 register_specs_last_wins
           [{| cd_name := "T"; cd_fields := [field "x" "int" 0 None false] |}]
           {| cd_name := "T"; cd_fields := [field "y" "str" 0 None false] |}
           [{| cd_name := "U"; cd_fields := [] |}]).
  intros c' [<- | []]. discriminate.
Defined.

(** ** The in-progress set and the cache *)

(** When [make] returns a model, no type is left marked as being built,
    the registry is the one made from the configuration, and every cached
    custom model belongs to a registered name. *)
Theorem make_leaves_nothing_in_progress :
  forall (I : Interp) (self : Maker) (config : SchemaConfig) (m : PyType),
    (make I self config).2 = Ok m ->
    _building (make I self config).1 = ∅ /\
    _custom_dtype_specs (make I self config).1
    = register_specs (custom_dtypes config) /\
    dom (_custom_models (make I self config).1)
    ⊆ dom (register_specs (custom_dtypes config)).
Proof.
  intros I self config m Hm.
  destruct (make_built I self config m Hm) as (_ & Hcache & Hb & Hs).
  split; [exact Hb|]. split; [exact Hs|].
  intros n Hn. apply elem_of_dom in Hn as (cm & Hcm).
  destruct (Hcache n cm Hcm) as (spec & Hspec & _).
  rewrite <- Hs. apply elem_of_dom. eexists; exact Hspec.
Qed.

Lemma make_leaves_nothing_in_progress_witness :
  _building (make no_ext init nested_config).1 = ∅.
Proof.
  destruct (make no_ext init nested_config).2 as [m| |] eqn:E;
    [|vm_compute in E; discriminate E|vm_compute in E; discriminate E].
  exact (proj1 (make_leaves_nothing_in_progress no_ext init nested_config m E)).
Defined.

Section Cache.
Variable I : Interp.

(** Once [_get_dtype] has returned the model of a custom type, that model
    is in the cache and stays there through every later resolution, of
    this or any other type; resolving the name again returns the very same
    model without building anything and without changing the maker. All
    references to a custom type within one compilation therefore share one
    model. *)
Theorem custom_model_is_built_once :
  forall (fuel : nat) (self : Maker) (n : string) (self' : Maker)
         (m : PyType),
    base_of n = None ->
    _get_dtype I fuel self n = (self', Ok m) ->
    _custom_models self' !! n = Some m /\
    (forall fuel1, _get_dtype I (S fuel1) self' n = (self', Ok m)) /\
    (forall fuel1 other fuel2,
       let later := _get_dtype I fuel1 self' other in
       _custom_models later.1 !! n = Some m /\
       _get_dtype I (S fuel2) later.1 n = (later.1, Ok m)).
Proof.
  intros fuel self n self' m Hb Hget.
  pose proof (get_dtype_caches I fuel self n self' m Hb Hget) as Hc.
  split; [exact Hc|]. split.
  - intros fuel1. apply get_dtype_hit; assumption.
  - intros fuel1 other fuel2 later.
    pose proof (get_dtype_persists I fuel1 self' other n m Hc) as Hp.
    split; [exact Hp|]. apply get_dtype_hit; assumption.
Qed.

End Cache.

Lemma custom_model_is_built_once_witness :
  let self0 := fresh nested_config in
  let first := _get_dtype no_ext 3 self0 "Region" in
  let later := _get_dtype no_ext 3 first.1 "Line" in
  _get_dtype no_ext 1 later.1 "Region" = (later.1, first.2).
Proof.
  cbv zeta.
  destruct (_get_dtype no_ext 3 (fresh nested_config) "Region")
    as [self1 r] eqn:E.
  destruct r as [m| |]; [|vm_compute in E; discriminate E
                         |vm_compute in E; discriminate E].
  destruct (custom_model_is_built_once no_ext 3 (fresh nested_config)
              "Region" self1 m eq_refl E) as (_ & _ & H).
  exact (proj2 (H 3%nat "Line" 0%nat)).
Defined.

(** ** Errors other than recursion *)







(** ** The shape of the root model *)
Section Shape.
Variable I : Interp.
Variable scalar_ok : PyType -> PyVal -> bool.

(** The loop writes under the names of its fields only. *)
Lemma build_fields_keeps get_dtype model_name k :
  forall fields self acc self' flds,
    build_fields I get_dtype model_name self fields acc = (self', Ok flds) ->
    (forall f', In f' fields -> fs_name f' <> k) ->
    dict_get k flds = dict_get k acc.
Proof.
  induction fields as [|f rest IH]; intros self acc self' flds Hb Hk.
  - injection Hb as _ <-. reflexivity.
  - cbn [build_fields] in Hb.
    destruct (get_dtype self (dtype (specification f))) as [self1 r].
    destruct r as [t| |]; cbn [bind] in Hb; try discriminate Hb.
    destruct (field_definition I model_name f t) as [[n def]| |] eqn:Ed;
      try discriminate Hb.
    apply field_definition_name in Ed. subst n.
    rewrite (IH _ _ _ _ Hb (fun f' H => Hk f' (or_intror H))).
    rewrite dict_get_set_other.
    destruct (String.eqb_spec k (fs_name f)) as [->|_]; [|reflexivity].
    exfalso. exact (Hk f (or_introl eq_refl) eq_refl).
Qed.

(** The entry of the last field declared under a name. *)
Lemma build_fields_entry get_dtype model_name :
  forall pre f post self acc self' flds,
    build_fields I get_dtype model_name self (pre ++ f :: post)%list acc
    = (self', Ok flds) ->
    (forall f', In f' post -> fs_name f' <> fs_name f) ->
    exists base ty,
      expand_dims (dim (specification f)) base = Ok ty /\
      dict_get (fs_name f) flds
      = Some (ty, if optional (specification f) then DefaultNone
                  else Required).
Proof.
  induction pre as [|p pre IH]; intros f post self acc self' flds Hb Hlast.
  - cbn [app build_fields] in Hb.
    destruct (get_dtype self (dtype (specification f))) as [self1 r].
    destruct r as [t| |]; cbn [bind] in Hb; try discriminate Hb.
    destruct (field_definition I model_name f t) as [[n [ty dflt]]| |] eqn:Ed;
      try discriminate Hb.
    apply field_definition_entry in Ed as (-> & base & Hdim & Hdef & _).
    simpl in Hdim, Hdef. exists base, ty. split; [exact Hdim|].
    rewrite (build_fields_keeps _ _ _ _ _ _ _ _ Hb Hlast).
    rewrite dict_get_set_other, String.eqb_refl, Hdef.
    reflexivity.
  - cbn [app build_fields] in Hb.
    destruct (get_dtype self (dtype (specification p))) as [self1 r].
    destruct r as [t| |]; cbn [bind] in Hb; try discriminate Hb.
    destruct (field_definition I model_name p t) as [[n def]| |];
      try discriminate Hb.
    exact (IH _ _ _ _ _ _ Hb Hlast).
Qed.

(** A document accepted by the model that [make] returned gives a value
    to every field declared without [optional], and under a field
    declared with [dim] 1 a list, with [dim] 2 a list of lists, whatever
    the dtype and the allowed values, for every field whose name pydantic
    takes as a field name (a name with a leading underscore is not one).
    Of several fields declared under one name the last one counts. *)
Theorem accepted_document_has_declared_shape :
  forall (self : Maker) (config : SchemaConfig) (m : PyType)
         (pre : list FieldSpec) (f : FieldSpec) (post : list FieldSpec)
         (d : Dict),
    (make I self config).2 = Ok m ->
    sc_fields config = (pre ++ f :: post)%list ->
    (forall f', In f' post -> fs_name f' <> fs_name f) ->
    ext_is_field I (fs_name f) = true ->
    validate scalar_ok m (VDict d) = true ->
    (optional (specification f) = false ->
     exists x, dict_get (fs_name f) d = Some x) /\
    (forall x, dict_get (fs_name f) d = Some x ->
       (dim (specification f) = 1 -> exists l, x = VList l) /\
       (dim (specification f) = 2 ->
        exists l, x = VList l /\ Forall (fun y => exists l', y = VList l') l)).
Proof.
  intros self config m pre f post d Hmake Hfields Hlast Hfield Hval.
  rewrite make_unfold in Hmake.
  unfold _build_model, _build_model_with in Hmake. rewrite Hfields in Hmake.
  destruct (build_fields I _ (sc_name config) (fresh config)
              (pre ++ f :: post)%list []) as [self' r] eqn:Hb.
  destruct r as [flds| |]; simpl in Hmake; try discriminate Hmake.
  unfold create_model in Hmake.
  destruct (ext_model_error I (sc_name config) (dict_keys flds));
    [discriminate Hmake|].
  injection Hmake as <-.
  destruct (build_fields_entry _ _ _ _ _ _ _ _ _ Hb Hlast)
    as (base & ty & Hdim & Hget).
  assert (Hget' : dict_get (fs_name f)
                    (List.filter (fun kv => ext_is_field I kv.1) flds)
                  = Some (ty, if optional (specification f) then DefaultNone
                              else Required))
    by (rewrite dict_get_filter, Hfield; exact Hget).
  pose proof (validate_model_field scalar_ok _ _ _ _ _ _ _ Hval Hget') as Hf.
  split.
  - intros Hopt. rewrite Hopt in Hf.
    destruct (dict_get (fs_name f) d) as [x|]; [eauto | discriminate Hf].
  - intros x Hx. rewrite Hx in Hf. unfold expand_dims in Hdim. split.
    + intros H1. rewrite H1 in Hdim. simpl in Hdim. injection Hdim as <-.
      destruct (validate_list_inv _ _ _ Hf) as (l & -> & _). eauto.
    + intros H2. rewrite H2 in Hdim. simpl in Hdim. injection Hdim as <-.
      destruct (validate_list_inv _ _ _ Hf) as (l & -> & Hall).
      exists l. split; [reflexivity|].
      eapply List.Forall_impl; [|exact Hall].
      intros y Hy. destruct (validate_list_inv _ _ _ Hy) as (l' & -> & _).
      eauto.
Qed.

End Shape.

Lemma accepted_document_has_declared_shape_witness :
  (exists x, dict_get "lines" [("id", VInt 7); ("lines", VList [])] = Some x) /\
  (forall x, dict_get "lines" [("id", VInt 7); ("lines", VList [])] = Some x ->
     (1 = 1 -> exists l, x = VList l) /\
     (1 = 2 ->
      exists l, x = VList l /\ Forall (fun y => exists l', y = VList l') l)).
Proof.
  destruct (accepted_document_has_declared_shape no_ext (fun _ _ => true)
              init nested_config
              (match (make no_ext init nested_config).2 with
               | Ok m => m
               | _ => TStr
               end)
              [field "id" "integer" 0 None false]
              (field "lines" "Line" 1 None false)
              [field "status" "string" 0 (Some [VStr "a"; VStr "b"]) true]
              [("id", VInt 7); ("lines", VList [])]) as [H1 H2].
  - vm_compute. reflexivity.
  - reflexivity.
  - intros f' [<- | []]. discriminate.
  - reflexivity.
  - vm_compute. reflexivity.
  - split; [exact (H1 eq_refl) | exact H2].
Defined.

End SchemaMakerProps.

(* ===================================================================== *)
(** * From template to provider messages *)
(* ===================================================================== *)
Module PipelineSpec.
Import Py PyFacts DictFacts TemplateFormatter MessageConverter PromptFormatter.

Lemma create_default format_type c :
  create default_converters format_type = Ok c ->
  c = openai_convert \/ c = anthropic_convert.
Proof.
  unfold create, default_converters. cbn [dict_get].
  destruct (String.eqb (lower format_type) "openai");
    [intros [= <-]; left; reflexivity|].
  destruct (String.eqb (lower format_type) "anthropic");
    [intros [= <-]; right; reflexivity|].
  discriminate.
Qed.

Section WithInterp.
Variable I : Interp.
Variable set_iter : list string -> list string.

Lemma format_message_role mt input_data pair :
  format_message I set_iter mt input_data = Ok pair -> pair.1 = role_of mt.
Proof.
  destruct mt as [role content|role contents key]; simpl.
  - destruct (content_format I content input_data); simpl; try discriminate.
    intros [= <-]. reflexivity.
  - destruct (iteration_data key input_data); simpl; try discriminate.
    destruct (extend_each _ _); simpl; try discriminate.
    intros [= <-]. reflexivity.
Qed.

Lemma roles_through (g : list ContentBlock -> list PyVal) mts input_data :
  forall content_list,
    Forall2 (fun mt pair => format_message I set_iter mt input_data = Ok pair)
            mts content_list ->
    Forall2 (fun mt m => exists items, m = message (role_of mt) items)
            mts
            (map (fun '(role, content_blocks) => message role (g content_blocks))
                 content_list).
Proof.
  intros content_list H.
  induction H as [|mt [role bs] mts cl Hm _ IH]; simpl; constructor;
    [|exact IH].
  apply format_message_role in Hm. simpl in Hm. subst role.
  eexists; reflexivity.
Qed.

(** From template to messages with the two built-in converters: when
    [format_to_messages] on a new formatter returns, it returns one
    message per message template, in order, each an object with the role
    of its template and a content list; this holds for the format given to
    the constructor and for one given to the call, in any spelling. An
    iterable message template that produced no block still gets its
    message, with empty content. *)
Theorem format_to_messages_one_message_per_template :
  forall (message_format : string) (template : PromptTemplate)
         (input_data : PyVal) (override : option string)
         (self' : PromptTemplateFormatter) (out : list PyVal),
    format_to_messages I set_iter default_converters (init message_format)
      template input_data override = (self', Ok out) ->
    length out = length (templates template) /\
    Forall2 (fun mt m => exists items, m = message (role_of mt) items)
            (templates template) out.
Proof.
  intros mf template input_data override self' out.
  unfold format_to_messages.
  destruct (format I set_iter template input_data) as [cl| |] eqn:Ef;
    try discriminate.
  assert (Hconv : forall c, c = openai_convert \/ c = anthropic_convert ->
            length (c cl) = length (templates template) /\
            Forall2 (fun mt m => exists items, m = message (role_of mt) items)
                    (templates template) (c cl)).
  { intros c Hc. unfold format in Ef.
    pose proof (mapM_same_length _ _ _ Ef) as Hlen.
    apply mapM_Forall2 in Ef.
    destruct Hc as [-> | ->].
    - split; [unfold openai_convert; rewrite length_map; exact Hlen|].
      exact (roles_through (map model_dump) _ _ _ Ef).
    - split; [unfold anthropic_convert; rewrite length_map; exact Hlen|].
      exact (roles_through (flat_map anthropic_block) _ _ _ Ef). }
  unfold content_to_messages.
  destruct (key_set override) as [fmt|].
  - destruct (create default_converters fmt) as [c| |] eqn:Ec; simpl;
      try discriminate.
    intros [= _ <-]. exact (Hconv c (create_default _ _ Ec)).
  - unfold converter. cbn [init _converter PromptFormatter.message_format].
    destruct (create default_converters mf) as [c| |] eqn:Ec; simpl;
      try discriminate.
    intros [= _ <-]. exact (Hconv c (create_default _ _ Ec)).
Qed.

End WithInterp.

Lemma format_to_messages_one_message_per_template_witness :
  exists self' out,
    format_to_messages no_ext (fun l => l) default_converters (init "openai")
      {| name := "p"; template_format := "f-string";
         templates :=
           [SingleContentMessageTemplate "system"
              (Text {| content := "Summarise {title}.";
                       input_variables := ["title"] |});
            IterableContentMessageTemplate "user"
              [Static {| static_items :=
                           [Text {| content := "page {no}";
                                    input_variables := ["no"] |}] |}]
              None] |}
      (VDict [("title", VStr "the report")]) (Some "Anthropic")
    = (self', Ok out) /\ length out = 2%nat.
Proof.
  eexists. eexists. split; [vm_compute; reflexivity|].
  refine (proj1 (format_to_messages_one_message_per_template no_ext
                   (fun l => l) "openai"
                   {| name := "p"; template_format := "f-string";
                      templates :=
                        [SingleContentMessageTemplate "system"
                           (Text {| content := "Summarise {title}.";
                                    input_variables := ["title"] |});
                         IterableContentMessageTemplate "user"
                           [Static {| static_items :=
                                        [Text {| content := "page {no}";
                                                 input_variables := ["no"] |}] |}]
                           None] |}
                   (VDict [("title", VStr "the report")]) (Some "Anthropic")
                   _ _ _)).
  vm_compute. reflexivity.
Defined.

End PipelineSpec.
